(** * Congressional trading dashboard: ingestion pipeline and query service

    A shallow embedding of the backend (data_collector.py,
    real_data_scraper.py, routers/trades.py, routers/members.py,
    routers/committees.py, models.py) and the properties its
    specification states about it.

    Conventions of the embedding.
    - Python [str] is [string], read as a sequence of ASCII characters.
    - Python [float] is [pyfloat]: an exact rational, an infinity or
      not-a-number.  Rounding to binary64 is not modelled.
    - [datetime] is a number of microseconds ([Z]).
    - A raw JSON record is a dictionary from keys to strings.
    - The SQLAlchemy session is a record of tables (lists of rows in
      insertion order) with a counter of the statements executed and the
      lines written to the module logger.  [add], [flush] and [commit]
      always succeed: constraint checks made by the database engine at
      flush time are not part of the model.
    - Library functions whose behaviour is not fixed by this repository
      ([datetime.fromisoformat], the HTTP responses, the clock, the order
      in which the engine yields grouped rows) are parameters. *)

From Stdlib Require Import ZArith QArith String Ascii List Lia Permutation Sorted.
From stdpp Require Import gmap strings list.

Local Open Scope string_scope.
Local Open Scope Z_scope.

(** ** Python built-ins used by the backend *)

Module Py.

Definition chars (s : string) : list ascii := list_ascii_of_string s.
Definition str (l : list ascii) : string := string_of_list_ascii l.

Definition is_upper (c : ascii) : bool :=
  (Ascii.leb "A" c && Ascii.leb c "Z")%bool.
Definition is_lower (c : ascii) : bool :=
  (Ascii.leb "a" c && Ascii.leb c "z")%bool.
Definition is_digit (c : ascii) : bool :=
  (Ascii.leb "0" c && Ascii.leb c "9")%bool.

Definition lower_char (c : ascii) : ascii :=
  if is_upper c then ascii_of_N (N_of_ascii c + 32) else c.
Definition upper_char (c : ascii) : ascii :=
  if is_lower c then ascii_of_N (N_of_ascii c - 32) else c.

(** [s.lower()] *)
Definition lower (s : string) : string := str (map lower_char (chars s)).

(** [s.upper()] *)
Definition upper (s : string) : string := str (map upper_char (chars s)).

(** [s.title()]: a letter that follows a letter is lowered, any other
    letter is raised. *)
Fixpoint title_from (prev_cased : bool) (l : list ascii) : list ascii :=
  match l with
  | [] => []
  | c :: l' =>
      let cased := (is_upper c || is_lower c)%bool in
      (if prev_cased then lower_char c else upper_char c)
        :: title_from cased l'
  end.
Definition title (s : string) : string := str (title_from false (chars s)).

(** [s.replace(c, by)] for a one-character pattern: every occurrence. *)
Definition replace_char (c : ascii) (by_ : string) (s : string) : string :=
  str (flat_map (fun x => if Ascii.eqb x c then chars by_ else [x]) (chars s)).

(** [s.split(sep)] for a one-character separator. *)
Fixpoint split_on (sep : ascii) (l : list ascii) : list (list ascii) :=
  match l with
  | [] => [[]]
  | c :: l' =>
      if Ascii.eqb c sep then [] :: split_on sep l'
      else match split_on sep l' with
           | [] => [[c]]
           | p :: ps => (c :: p) :: ps
           end
  end.
Definition split (sep : ascii) (s : string) : list string :=
  map str (split_on sep (chars s)).

(** [c in s] for a one-character [c]. *)
Definition contains_char (c : ascii) (s : string) : bool :=
  existsb (Ascii.eqb c) (chars s).

(** [s.endswith(suffix)] *)
Definition endswith (suffix s : string) : bool :=
  String.prefix (str (rev (chars suffix))) (str (rev (chars s))).

(** Truth value of a string: empty is false. *)
Definition truthy (s : string) : bool :=
  match s with EmptyString => false | _ => true end.

(** Truth value of an optional string ([None] and [''] are false). *)
Definition truthy_opt (o : option string) : bool :=
  match o with Some s => truthy s | None => false end.

(** [f"{x}"] of an optional string: [None] prints as the word None. *)
Definition format_opt (o : option string) : string := default "None" o.

(** *** Floats *)

Inductive pyfloat :=
| PFin (q : Q)
| PInf (negative : bool)
| PNan.

Definition of_int (n : Z) : pyfloat := PFin (inject_Z n).

(** Truth value of a float: only zero is false. *)
Definition float_truthy (x : pyfloat) : bool :=
  match x with
  | PFin q => negb (Qeq_bool q 0)
  | _ => true
  end.

(** [x <= y] on floats; every comparison with not-a-number is false. *)
Definition float_le (x y : pyfloat) : bool :=
  match x, y with
  | PNan, _ | _, PNan => false
  | PInf true, _ => true
  | _, PInf false => true
  | PInf false, _ => false
  | _, PInf true => false
  | PFin a, PFin b => Qle_bool a b
  end.

Definition is_space (c : ascii) : bool :=
  let n := N_of_ascii c in
  ((n =? 32) || ((9 <=? n) && (n <=? 13)) || ((28 <=? n) && (n <=? 31)))%N%bool.

Fixpoint lstrip (l : list ascii) : list ascii :=
  match l with
  | c :: l' => if is_space c then lstrip l' else l
  | [] => []
  end.
Definition strip (l : list ascii) : list ascii := rev (lstrip (rev (lstrip l))).

Definition digit_value (c : ascii) : Z := Z.of_N (N_of_ascii c) - 48.

(** The rest of a [digitpart] after its first digit: digits, each
    optionally preceded by one underscore.  Returns the digits read and
    the unread input. *)
Fixpoint digits_tail (l : list ascii) : list ascii * list ascii :=
  match l with
  | [] => ([], [])
  | c :: l' =>
      if is_digit c then
        let '(ds, r) := digits_tail l' in (c :: ds, r)
      else if Ascii.eqb c "_" then
        match l' with
        | d :: l'' =>
            if is_digit d then
              let '(ds, r) := digits_tail l'' in (d :: ds, r)
            else ([], l)
        | [] => ([], l)
        end
      else ([], l)
  end.

(** A [digitpart]: at least one digit. *)
Definition digitpart (l : list ascii) : option (list ascii * list ascii) :=
  match l with
  | c :: l' =>
      if is_digit c then
        let '(ds, r) := digits_tail l' in Some (c :: ds, r)
      else None
  | [] => None
  end.

Definition digits_value (ds : list ascii) : Z :=
  fold_left (fun acc c => 10 * acc + digit_value c) ds 0.

Definition read_sign (l : list ascii) : bool * list ascii :=
  match l with
  | c :: l' =>
      if Ascii.eqb c "-" then (true, l')
      else if Ascii.eqb c "+" then (false, l')
      else (false, l)
  | [] => (false, l)
  end.

(** The optional exponent at the end of a literal: [None] when the
    input is not an exponent followed by the end of the string. *)
Definition read_exponent (l : list ascii) : option Z :=
  match l with
  | [] => Some 0
  | c :: l' =>
      if (Ascii.eqb c "e" || Ascii.eqb c "E")%bool then
        let '(neg, l'') := read_sign l' in
        match digitpart l'' with
        | Some (ds, []) =>
            Some (if neg then - digits_value ds else digits_value ds)
        | _ => None
        end
      else None
  end.

(** [mantissa * 10 ^ e] as a reduced rational. *)
Definition scale10 (mantissa e : Z) : Q :=
  if 0 <=? e then inject_Z (mantissa * 10 ^ e)
  else Qred (Qmake mantissa (Z.to_pos (10 ^ (- e)))).

(** The mantissa of a decimal literal: integer digits, fraction digits
    and the unread input. *)
Definition read_mantissa (l : list ascii)
  : option (list ascii * list ascii * list ascii) :=
  match digitpart l with
  | Some (ip, r) =>
      match r with
      | c :: r' =>
          if Ascii.eqb c "." then
            match digitpart r' with
            | Some (fp, r'') => Some (ip, fp, r'')
            | None => Some (ip, [], r')
            end
          else Some (ip, [], r)
      | [] => Some (ip, [], [])
      end
  | None =>
      match l with
      | c :: l' =>
          if Ascii.eqb c "." then
            match digitpart l' with
            | Some (fp, r) => Some ([], fp, r)
            | None => None
            end
          else None
      | [] => None
      end
  end.

Definition read_decimal (l : list ascii) : option Q :=
  match read_mantissa l with
  | Some (ip, fp, r) =>
      match read_exponent r with
      | Some e =>
          Some (scale10 (digits_value (ip ++ fp)) (e - Z.of_nat (length fp)))
      | None => None
      end
  | None => None
  end.

(** [float(s)]: [None] stands for [ValueError]. *)
Definition float (s : string) : option pyfloat :=
  let '(neg, body) := read_sign (strip (chars s)) in
  let word := str (map lower_char body) in
  if (String.eqb word "inf" || String.eqb word "infinity")%bool then
    Some (PInf neg)
  else if String.eqb word "nan" then Some PNan
  else match read_decimal body with
       | Some q => Some (PFin (if neg then Qred (- q) else q))
       | None => None
       end.

End Py.

(** ** SQL expressions *)

Module Sql.

(** [LIKE] with no escape character: [%] matches any run of
    characters, [_] any one character, every other character itself.
    The comparison of characters is passed in. *)
Fixpoint like_chars (eqc : ascii -> ascii -> bool)
         (pattern : list ascii) (subject : list ascii) : bool :=
  match pattern with
  | [] => match subject with [] => true | _ => false end
  | p :: pattern' =>
      if Ascii.eqb p "%" then
        (fix any (subject : list ascii) : bool :=
           (like_chars eqc pattern' subject
            || match subject with
               | [] => false
               | _ :: subject' => any subject'
               end)%bool) subject
      else
        match subject with
        | [] => false
        | c :: subject' =>
            ((Ascii.eqb p "_" || eqc p c)
             && like_chars eqc pattern' subject')%bool
        end
  end.

(** [column.ilike(pattern)]: [LIKE] on the lower-cased operands. *)
Definition ilike (subject pattern : string) : bool :=
  like_chars Ascii.eqb (Py.chars (Py.lower pattern)) (Py.chars (Py.lower subject)).

(** A comparison of a nullable float column with a value: [None] is
    SQL's unknown. *)
Definition ge (column : option Py.pyfloat) (v : Py.pyfloat) : option bool :=
  match column with Some x => Some (Py.float_le v x) | None => None end.
Definition le (column : option Py.pyfloat) (v : Py.pyfloat) : option bool :=
  match column with Some x => Some (Py.float_le x v) | None => None end.

(** Three-valued [OR]. *)
Definition or_ (a b : option bool) : option bool :=
  match a, b with
  | Some true, _ | _, Some true => Some true
  | Some false, Some false => Some false
  | _, _ => None
  end.

(** A row passes a [WHERE] clause only when the clause is true. *)
Definition holds (c : option bool) : bool :=
  match c with Some true => true | _ => false end.

(** [ORDER BY]: insertion of a row after the rows that do not come
    later than it, so rows with equal keys keep the order in which they
    are scanned. *)
Section OrderBy.
Context {A : Type} (before_or_equal : A -> A -> bool).

Fixpoint insert_row (x : A) (l : list A) : list A :=
  match l with
  | [] => [x]
  | y :: l' =>
      if before_or_equal y x then y :: insert_row x l' else x :: l
  end.

Definition order_by (l : list A) : list A :=
  fold_left (fun acc x => insert_row x acc) l [].
End OrderBy.

(** [.offset(skip).limit(limit)] *)
Definition offset_limit {A : Type} (skip limit : Z) (l : list A) : list A :=
  take (Z.to_nat limit) (drop (Z.to_nat skip) l).

(** [column.like(pattern)] on a nullable column: [None] (unknown) on
    NULL.  Whether letters are compared exactly or without regard to
    case is the engine's choice, passed in as [eqc]. *)
Definition like (eqc : ascii -> ascii -> bool) (column : option string) (pattern : string)
  : option bool :=
  match column with
  | Some subject => Some (like_chars eqc (Py.chars pattern) (Py.chars subject))
  | None => None
  end.

(** [column.in_(values)] on a nullable column. *)
Definition in_ (column : option string) (values : list string) : option bool :=
  match column with
  | Some x => Some (existsb (String.eqb x) values)
  | None => None
  end.

(** [column == value] on a nullable column. *)
Definition eq (column : option string) (value : string) : option bool :=
  match column with
  | Some x => Some (String.eqb x value)
  | None => None
  end.

End Sql.

(** ** models.py: the tables *)

(** The columns [created_at] and [updated_at], which the store fills in
    and no operation below reads, are left out of the rows. *)

(** A [datetime]: microseconds since the epoch. *)
Definition datetime := Z.

(** [timedelta(days=d)] in microseconds. *)
Definition timedelta_days (d : Z) : Z := d * 86400000000.

Record Member := {
  member_id_ : Z;
  name : string;
  chamber : string;
  state : string;
  party : option string;
  district : option string;
  office : option string;
  phone : option string;
  email : option string;
  website : option string;
  bio : option string
}.

Record Committee := {
  committee_id_ : Z;
  committee_name : string;
  code : string;
  committee_chamber : string;
  subcommittee : bool;
  parent_committee_id : option Z;
  committee_description : option string
}.

Record Trade := {
  trade_id_ : Z;
  member_id : Z;
  ticker : string;
  company_name : option string;
  transaction_type : string;
  transaction_date : datetime;
  amount_min : option Py.pyfloat;
  amount_max : option Py.pyfloat;
  amount_exact : option Py.pyfloat;
  exchange_from_ticker : option string;
  exchange_from_company : option string;
  exchange_from_amount : option Py.pyfloat;
  exchange_ratio : option Py.pyfloat;
  exchange_reason : option string;
  description : option string;
  source : option string;
  filing_date : option datetime
}.

Record Db := {
  members : list Member;
  trades : list Trade;
  committees : list Committee
}.

Definition empty_db : Db := {| members := []; trades := []; committees := [] |}.

(** ** The session, the logger and exceptions *)

Inductive exn :=
| ValueError (msg : string)
| KeyError (key : string)
| ZeroDivisionError
| RequestException
| HTTPException (status_code : Z) (detail : string)
| RequestValidationError.

Inductive level := INFO | WARNING | ERROR.

(** A log line: its level, its fixed text, and the exception printed
    after it when there is one. *)
Record log_entry := { lvl : level; text : string; cause : option exn }.

(** The session: [db] is what the session sees (stored rows and rows
    added since the last commit), [committed] the rows as of the last
    commit. *)
Record session := {
  db : Db;
  committed : Db;
  statements : nat;
  log : list log_entry
}.

Definition new_session (d : Db) : session :=
  {| db := d; committed := d; statements := 0; log := [] |}.

(** Computations that read and write the session and may raise; what was
    written before an exception stays written. *)
Definition M (A : Type) : Type := session -> (exn + A) * session.

Definition ret {A} (a : A) : M A := fun s => (inr a, s).
Definition raise {A} (e : exn) : M A := fun s => (inl e, s).
Definition bind {A B} (c : M A) (k : A -> M B) : M B :=
  fun s => match c s with
           | (inr a, s') => k a s'
           | (inl e, s') => (inl e, s')
           end.

Notation "'let*' x ':=' c 'in' k" := (bind c (fun x => k))
  (at level 10, x name, c at level 100, k at level 200).
Notation "c ';;' k" := (bind c (fun _ => k))
  (at level 100, k at level 200, right associativity).

(** [try: c  except Exception as e: handler(e)] *)
Definition try_except {A} (c : M A) (handler : exn -> M A) : M A :=
  fun s => match c s with
           | (inr a, s') => (inr a, s')
           | (inl e, s') => handler e s'
           end.

(** The session a computation leaves behind. *)
Definition exec {A} (c : M A) (s : session) : session := (c s).2.

Definition of_option {A} (e : exn) (o : option A) : M A :=
  match o with Some a => ret a | None => raise e end.

Definition logger (l : level) (msg : string) (e : option exn) : M unit :=
  fun s => (inr tt, {| db := db s; committed := committed s;
                       statements := statements s;
                       log := log s ++ [{| lvl := l; text := msg; cause := e |}] |}).
Definition logger_info (msg : string) : M unit := logger INFO msg None.
Definition logger_warning (msg : string) : M unit := logger WARNING msg None.
Definition logger_error (msg : string) (e : exn) : M unit := logger ERROR msg (Some e).

(** [db.query(...)...]: one statement is executed and its rows read. *)
Definition query {A} (q : Db -> A) : M A :=
  fun s => (inr (q (db s)),
            {| db := db s; committed := committed s;
               statements := S (statements s); log := log s |}).

Definition set_db (d : Db) (s : session) : session :=
  {| db := d; committed := committed s; statements := statements s; log := log s |}.

(** The key the store gives to a new row: one more than the largest. *)
Definition fresh_id (ids : list Z) : Z := 1 + fold_right Z.max 0 ids.

(** [db.add(member); db.flush()]: the row is stored and gets its key. *)
Definition add_member (mk : Z -> Member) : M Member :=
  fun s =>
    let m := mk (fresh_id (map member_id_ (members (db s)))) in
    (inr m, set_db {| members := members (db s) ++ [m];
                      trades := trades (db s);
                      committees := committees (db s) |} s).

(** [db.add(trade)] *)
Definition add_trade (mk : Z -> Trade) : M unit :=
  fun s =>
    let t := mk (fresh_id (map trade_id_ (trades (db s)))) in
    (inr tt, set_db {| members := members (db s);
                       trades := trades (db s) ++ [t];
                       committees := committees (db s) |} s).

(** [db.add(committee)] *)
Definition add_committee (mk : Z -> Committee) : M unit :=
  fun s =>
    let c := mk (fresh_id (map committee_id_ (committees (db s)))) in
    (inr tt, set_db {| members := members (db s);
                       trades := trades (db s);
                       committees := committees (db s) ++ [c] |} s).

(** [db.commit()] *)
Definition commit : M unit :=
  fun s => (inr tt, {| db := db s; committed := db s;
                       statements := statements s; log := log s |}).

(** [db.rollback()] *)
Definition rollback : M unit :=
  fun s => (inr tt, {| db := committed s; committed := committed s;
                       statements := statements s; log := log s |}).

(** [for x in xs: body(x)] *)
Fixpoint for_each {A} (xs : list A) (body : A -> M unit) : M unit :=
  match xs with
  | [] => ret tt
  | x :: xs' => body x ;; for_each xs' body
  end.

(** ** What the outside world supplies to a collection run *)

(** A raw record: a JSON object whose values are strings. *)
Abbreviation raw := (gmap string string).

(** [d.get(key, default)] *)
Definition get (d : raw) (key default_ : string) : string :=
  default default_ (d !! key).

(** The outcome of [session.get(url)]: the call raises, or a response
    comes back with its status code and its decoded body ([None] when
    decoding the body, or walking to the part of it that is read,
    raises). *)
Inductive http (A : Type) :=
| Raises
| Response (status_code : Z) (body : option A).
Arguments Raises {A}.
Arguments Response {A} status_code body.

(** A disclosure page as the HTML parser presents it: for each of the
    selectors h1, h2, .member-name, .disclosure-title the text of the
    first element it selects, and for each table its rows as lists of
    cell texts. *)
Record page := {
  selected : list (option string);
  tables : list (list (list string))
}.

(** An entry of the committee feed: its string fields and its
    subcommittee flag when it has one. *)
Record committee_data := {
  fields : raw;
  subcommittee_flag : option bool
}.

Record World := {
  utcnow : datetime;
  senate_stock_index : http (list raw);
  senate_stock_file : string -> http (list raw);
  propublica_members : string -> string -> http (list raw);
  propublica_committees : string -> string -> http (list committee_data);
  house_index : http (list string);
  house_disclosure : string -> http page;
  senate_search : http unit
}.

(** [session.get(url)] followed by the status test and [.json()], as
    every collector does it: [None] when the status is not 200. *)
Definition fetch {A} (r : http A) : M (option A) :=
  match r with
  | Raises => raise RequestException
  | Response status_code body =>
      if status_code =? 200 then
        let* b := of_option (ValueError "response body") body in ret (Some b)
      else ret None
  end.

(** ** real_data_scraper.py *)

Module RealDataScraper.

Section Scraper.
Variable w : World.

(** [_extract_member_name]: the first selected text that, once
    stripped, is longer than three characters. *)
Fixpoint _extract_member_name_from (texts : list (option string)) : option string :=
  match texts with
  | [] => None
  | None :: rest => _extract_member_name_from rest
  | Some t :: rest =>
      let name := Py.str (Py.strip (Py.chars t)) in
      if (Py.truthy name && (3 <? Z.of_nat (String.length name)))%bool
      then Some name
      else _extract_member_name_from rest
  end.
Definition _extract_member_name (soup : page) : option string :=
  _extract_member_name_from (selected soup).

Definition is_word_char (c : ascii) : bool :=
  (Py.is_upper c || Py.is_lower c || Py.is_digit c || Ascii.eqb c "_")%bool.

Definition ticker_shaped (word : list ascii) : bool :=
  (forallb Py.is_upper word
   && (1 <=? length word)%nat && (length word <=? 5)%nat)%bool.

(** The leftmost match of [\b([A-Z]{1,5})\b]: the first maximal run
    of word characters that is one to five capital letters.  [cur]
    is the run being read, reversed, when the scan is inside one. *)
Fixpoint search_word (cur : option (list ascii)) (l : list ascii)
  : option (list ascii) :=
  let closed :=
    match cur with
    | Some wd => if ticker_shaped wd then Some (rev wd) else None
    | None => None
    end in
  match l with
  | [] => closed
  | c :: l' =>
      if is_word_char c then search_word (Some (c :: default [] cur)) l'
      else match closed with
           | Some t => Some t
           | None => search_word None l'
           end
  end.

Fixpoint take_upper (l : list ascii) : list ascii * list ascii :=
  match l with
  | c :: l' =>
      if Py.is_upper c then let '(u, r) := take_upper l' in (c :: u, r)
      else ([], l)
  | [] => ([], [])
  end.

(** The leftmost match of [\(([A-Z]{1,5})\)]. *)
Fixpoint search_parenthesised (l : list ascii) : option (list ascii) :=
  match l with
  | [] => None
  | c :: l' =>
      let here :=
        if Ascii.eqb c "(" then
          let '(u, r) := take_upper l' in
          match r with
          | d :: _ => if (Ascii.eqb d ")" && ticker_shaped u)%bool
                      then Some u else None
          | [] => None
          end
        else None in
      match here with
      | Some u => Some u
      | None => search_parenthesised l'
      end
  end.

Definition false_positives : list string :=
  ["THE"; "AND"; "OR"; "FOR"; "INC"; "CORP"].

Definition not_in (x : string) (l : list string) : bool :=
  negb (existsb (String.eqb x) l).

(** [_extract_ticker]: each pattern is tried once, in order. *)
Definition _extract_ticker (asset_text : string) : option string :=
  let patterns := [search_word None; search_parenthesised] in
  (fix try_patterns (ps : list (list ascii -> option (list ascii))) :=
     match ps with
     | [] => None
     | p :: ps' =>
         match p (Py.chars asset_text) with
         | Some t =>
             if not_in (Py.str t) false_positives then Some (Py.str t)
             else try_patterns ps'
         | None => try_patterns ps'
         end
     end) patterns.

(** The [try] block of [_parse_amount]. *)
Definition _parse_amount_body (amount_str : string)
  : exn + (Py.pyfloat * Py.pyfloat) :=
  let float_ (x : string) : exn + Py.pyfloat :=
    match Py.float x with
    | Some v => inr v
    | None => inl (ValueError "could not convert string to float")
    end in
  (* re.sub(r'[$,]', '', amount_str) *)
  let amount_str :=
    Py.str (List.filter (fun c => negb (Ascii.eqb c "$" || Ascii.eqb c ","))
                        (Py.chars amount_str)) in
  (* re.sub(r'[^\d.-]', '', amount_str) *)
  let amount_str :=
    Py.str (List.filter (fun c => (Py.is_digit c || Ascii.eqb c "." || Ascii.eqb c "-")%bool)
                        (Py.chars amount_str)) in
  if Py.contains_char "-" amount_str then
    let parts := Py.split "-" amount_str in
    let part0 := nth 0 parts "" in
    let part1 := nth 1 parts "" in
    match (if Py.truthy part0 then float_ part0 else inr (Py.of_int 0)) with
    | inl e => inl e
    | inr min_amount =>
        match (if Py.truthy part1 then float_ part1 else inr min_amount) with
        | inl e => inl e
        | inr max_amount => inr (min_amount, max_amount)
        end
    end
  else
    match (if Py.truthy amount_str then float_ amount_str else inr (Py.of_int 0)) with
    | inl e => inl e
    | inr amount => inr (amount, amount)
    end.

(** [_parse_amount]: on any exception the error is logged and
    [(0, 0)] returned. *)
Definition _parse_amount (amount_str : string) : M (Py.pyfloat * Py.pyfloat) :=
  match _parse_amount_body amount_str with
  | inr r => ret r
  | inl e =>
      logger_error "Error parsing amount" e ;;
      ret (Py.of_int 0, Py.of_int 0)
  end.

(** The member looked up by [_save_trade]:
    [db.query(Member).filter(Member.name.ilike(f"%{member_name}%")).first()] *)
Definition member_by_name (member_name : string) (d : Db) : option Member :=
  List.find (fun m => Sql.ilike (name m) ("%" ++ member_name ++ "%")) (members d).

(** [_save_trade] *)
Definition _save_trade (member_name ticker transaction_type amount : string) : M unit :=
  try_except
    (let* found := query (member_by_name member_name) in
     let* member :=
       match found with
       | Some m => ret m
       | None =>
           add_member (fun id =>
             {| member_id_ := id; name := member_name; chamber := "House";
                state := "Unknown"; party := Some "Unknown";
                district := None; office := None; phone := None;
                email := None; website := None; bio := None |})
       end in
     let* amounts := _parse_amount amount in
     let '(amount_min_, amount_max_) := amounts in
     add_trade (fun id =>
       {| trade_id_ := id;
          member_id := member_id_ member;
          ticker := ticker;
          company_name := Some (ticker ++ " Corporation");
          transaction_type := transaction_type;
          transaction_date := utcnow w - timedelta_days 30;
          amount_min := Some amount_min_;
          amount_max := Some amount_max_;
          amount_exact := None;
          exchange_from_ticker := None;
          exchange_from_company := None;
          exchange_from_amount := None;
          exchange_ratio := None;
          exchange_reason := None;
          description := Some "Scraped from House disclosure";
          source := Some "House Clerk Website";
          filing_date := None |}) ;;
     logger_info "Added trade")
    (fun e => logger_error "Error saving trade" e).

(** [_extract_trade_from_row] *)
Definition _extract_trade_from_row (member_name : string) (cells : list string) : M unit :=
  try_except
    (if (3 <=? length cells)%nat then
       let cell i := Py.str (Py.strip (Py.chars (nth i cells ""))) in
       let asset := cell 0%nat in
       let transaction_type := cell 1%nat in
       let amount := cell 2%nat in
       match _extract_ticker asset with
       | Some ticker => _save_trade member_name ticker transaction_type amount
       | None => ret tt
       end
     else ret tt)
    (fun e => logger_error "Error extracting trade from row" e).

(** [_process_member_trades] *)
Definition _process_member_trades (member_name : string) (soup : page) : M unit :=
  try_except
    (for_each (tables soup) (fun rows =>
       for_each (tail rows) (fun cells =>
         if (3 <=? length cells)%nat
         then _extract_trade_from_row member_name cells
         else ret tt)))
    (fun e => logger_error "Error processing trades" e).

(** [_process_house_disclosure] *)
Definition _process_house_disclosure (disclosure_url : string) : M unit :=
  try_except
    (let full_url := "https://clerk.house.gov" ++ disclosure_url in
     let* response := fetch (house_disclosure w full_url) in
     match response with
     | Some soup =>
         match _extract_member_name soup with
         | Some member_name => _process_member_trades member_name soup
         | None => ret tt
         end
     | None => ret tt
     end)
    (fun e => logger_error "Error processing House disclosure" e).

(** [scrape_house_disclosures] *)
Definition scrape_house_disclosures : M unit :=
  try_except
    (logger_info "Scraping House financial disclosures..." ;;
     let* response := fetch (house_index w) in
     match response with
     | Some disclosure_links =>
         for_each (take 10 disclosure_links) _process_house_disclosure
     | None => ret tt
     end)
    (fun e => logger_error "Error scraping House disclosures" e).

Definition senate_tickers : list string :=
  ["AAPL"; "MSFT"; "GOOGL"; "AMZN"; "TSLA"; "NVDA"; "META"; "JPM"; "BAC"; "WFC"].

(** [_add_senate_sample_data] *)
Definition _add_senate_sample_data : M unit :=
  try_except
    (let* senate_members :=
       query (fun d => List.filter (fun m => String.eqb (chamber m) "Senate") (members d)) in
     match senate_members with
     | [] => logger_warning "No Senate members found"
     | _ :: _ =>
         for_each (seq 0 20) (fun i =>
           let* member :=
             of_option (KeyError "index")
               (senate_members !! (i mod length senate_members)%nat) in
           let ticker_ := nth (i mod length senate_tickers)%nat senate_tickers "" in
           let transaction_type_ := nth (i mod 2)%nat ["Buy"; "Sell"] "" in
           add_trade (fun id =>
             {| trade_id_ := id;
                member_id := member_id_ member;
                ticker := ticker_;
                company_name := Some (ticker_ ++ " Corporation");
                transaction_type := transaction_type_;
                transaction_date := utcnow w - timedelta_days (Z.of_nat i * 10);
                amount_min := Some (Py.of_int (5000 + Z.of_nat i * 1000));
                amount_max := Some (Py.of_int (10000 + Z.of_nat i * 2000));
                amount_exact := None;
                exchange_from_ticker := None;
                exchange_from_company := None;
                exchange_from_amount := None;
                exchange_ratio := None;
                exchange_reason := None;
                description :=
                  Some ("Senate disclosure - " ++ transaction_type_ ++ " " ++ ticker_);
                source := Some "Senate Financial Disclosures";
                filing_date := None |})) ;;
         commit ;;
         logger_info "Added Senate sample data"
     end)
    (fun e => logger_error "Error adding Senate sample data" e ;; rollback).

(** [scrape_senate_disclosures] *)
Definition scrape_senate_disclosures : M unit :=
  try_except
    (logger_info "Scraping Senate financial disclosures..." ;;
     match senate_search w with
     | Raises => raise RequestException
     | Response status_code _ =>
         if status_code =? 200 then _add_senate_sample_data else ret tt
     end)
    (fun e => logger_error "Error scraping Senate disclosures" e).

(** [scrape_real_data] *)
Definition scrape_real_data : M unit :=
  scrape_house_disclosures ;;
  scrape_senate_disclosures ;;
  commit ;;
  logger_info "Real data scraping completed".

End Scraper.

End RealDataScraper.

(** ** data_collector.py *)

Module CongressDataCollector.

(** [_add_realistic_trading_data]: the method logs that it is disabled
    and returns; the generator after the [return] is never run. *)
Definition _add_realistic_trading_data : M unit :=
  try_except
    (logger_info
       "Realistic trading data generation is disabled - using only real data sources")
    (fun e => logger_error "Error adding realistic trading data" e ;; rollback).

(** [_parse_amount] *)
Definition _parse_amount (amount_str : string) : option Py.pyfloat :=
  if negb (Py.truthy amount_str) then None
  else Py.float (Py.replace_char "," "" (Py.replace_char "$" "" amount_str)).

Section Collector.
Variable fromisoformat : string -> option datetime.
Variable w : World.

(** [datetime.fromisoformat(s.replace('Z', '+00:00'))] *)
Definition parse_datetime (s : string) : M datetime :=
  of_option (ValueError "Invalid isoformat string")
            (fromisoformat (Py.replace_char "Z" "+00:00" s)).

(** The member looked up by [_save_senate_trade]: the first whose
    name is like the senator's and whose chamber is the Senate. *)
Definition senator_by_name (senator_name : string) (d : Db) : option Member :=
  List.find (fun m => (Sql.ilike (name m) ("%" ++ senator_name ++ "%")
                       && String.eqb (chamber m) "Senate")%bool)
            (members d).

(** The [try] block of [_save_senate_trade]. *)
Definition _save_senate_trade_body (trade_data : raw) : M unit :=
  let senator_name := get trade_data "senator" "" in
  if negb (Py.truthy senator_name) then ret tt
  else
    let* found := query (senator_by_name senator_name) in
    let* member :=
      match found with
      | Some m => ret m
      | None =>
          add_member (fun id =>
            {| member_id_ := id; name := senator_name; chamber := "Senate";
               state := get trade_data "state" "";
               party := Some (get trade_data "party" "");
               district := None; office := None; phone := None;
               email := None; website := None; bio := None |})
      end in
    let* transaction_date_ :=
      parse_datetime (get trade_data "transaction_date" "") in
    let* filing_date_ :=
      if Py.truthy_opt (trade_data !! "filing_date") then
        let* d := parse_datetime (get trade_data "filing_date" "") in
        ret (Some d)
      else ret None in
    add_trade (fun id =>
      {| trade_id_ := id;
         member_id := member_id_ member;
         ticker := get trade_data "ticker" "";
         company_name := Some (get trade_data "asset_description" "");
         transaction_type := get trade_data "type" "";
         transaction_date := transaction_date_;
         amount_min := _parse_amount (get trade_data "amount_min" "");
         amount_max := _parse_amount (get trade_data "amount_max" "");
         amount_exact := None;
         exchange_from_ticker := None;
         exchange_from_company := None;
         exchange_from_amount := None;
         exchange_ratio := None;
         exchange_reason := None;
         description := Some (get trade_data "description" "");
         source := Some "Senate Stock Watcher";
         filing_date := filing_date_ |}).

(** [_save_senate_trade] *)
Definition _save_senate_trade (trade_data : raw) : M unit :=
  try_except (_save_senate_trade_body trade_data)
             (fun e => logger_error "Error saving Senate trade" e).

(** [_process_senate_file] *)
Definition _process_senate_file (download_url : string) : M unit :=
  try_except
    (let* response := fetch (senate_stock_file w download_url) in
     match response with
     | Some data => for_each data _save_senate_trade
     | None => ret tt
     end)
    (fun e => logger_error "Error processing Senate file" e).

(** [collect_senate_stock_data] *)
Definition collect_senate_stock_data : M unit :=
  try_except
    (logger_info "Collecting Senate Stock Watcher data..." ;;
     match senate_stock_index w with
     | Raises => raise RequestException
     | Response status_code body =>
         if status_code =? 200 then
           let* files := of_option (ValueError "response body") body in
           for_each files (fun file_info =>
             let* file_name := of_option (KeyError "name") (file_info !! "name") in
             if Py.endswith ".json" file_name then
               let* download_url :=
                 of_option (KeyError "download_url") (file_info !! "download_url") in
               _process_senate_file download_url
             else ret tt)
         else logger_warning "Failed to access Senate Stock Watcher data"
     end)
    (fun e => logger_error "Error collecting Senate Stock Watcher data" e).

(** [_collect_capitol_gains_data] *)
Definition _collect_capitol_gains_data : M unit :=
  try_except
    (logger_info "Collecting CapitolGains data..." ;;
     logger_info
       "CapitolGains data collection not yet implemented - using real data sources only")
    (fun e => logger_error "Error collecting CapitolGains data" e).

(** [_collect_stock_act_disclosures] *)
Definition _collect_stock_act_disclosures : M unit :=
  try_except
    (logger_info "Collecting STOCK Act disclosures..." ;;
     logger_info
       "STOCK Act disclosure collection not yet implemented - using real data sources only")
    (fun e => logger_error "Error collecting STOCK Act disclosures" e).

(** [collect_house_trading_data] *)
Definition collect_house_trading_data : M unit :=
  try_except
    (logger_info "Collecting House trading data..." ;;
     _collect_capitol_gains_data ;;
     _collect_stock_act_disclosures)
    (fun e => logger_error "Error collecting House trading data" e).

(** [_save_propublica_member] *)
Definition _save_propublica_member (member_data : raw) (chamber_ : string) : M unit :=
  try_except
    (let first_name := Py.format_opt (member_data !! "first_name") in
     let last_name := Py.format_opt (member_data !! "last_name") in
     let* existing_member :=
       query (fun d =>
         List.find (fun m => (Sql.ilike (name m) ("%" ++ first_name ++ "%" ++ last_name ++ "%")
                              && String.eqb (chamber m) (Py.title chamber_))%bool)
                   (members d)) in
     match existing_member with
     | Some _ => ret tt
     | None =>
         let* _ := add_member (fun id =>
           {| member_id_ := id;
              name := first_name ++ " " ++ last_name;
              chamber := Py.title chamber_;
              state := get member_data "state" "";
              party := Some (get member_data "party" "");
              district := if String.eqb chamber_ "house"
                          then member_data !! "district" else None;
              office := Some (get member_data "office" "");
              phone := Some (get member_data "phone" "");
              email := None;
              website := Some (get member_data "url" "");
              bio := None |}) in
         ret tt
     end)
    (fun e => logger_error "Error saving ProPublica member" e).

(** [_collect_propublica_members] *)
Definition _collect_propublica_members (api_key : string) : M unit :=
  for_each ["house"; "senate"] (fun chamber_ =>
    let* response := fetch (propublica_members w chamber_ api_key) in
    match response with
    | Some member_list =>
        for_each member_list (fun member_data =>
          _save_propublica_member member_data chamber_)
    | None => ret tt
    end).

(** [_save_propublica_committee] *)
Definition _save_propublica_committee (data : committee_data) (chamber_ : string) : M unit :=
  try_except
    (let* existing_committee :=
       query (fun d =>
         List.find (fun c => String.eqb (code c) (get (fields data) "id" ""))
                   (committees d)) in
     match existing_committee with
     | Some _ => ret tt
     | None =>
         add_committee (fun id =>
           {| committee_id_ := id;
              committee_name := get (fields data) "name" "";
              code := get (fields data) "id" "";
              committee_chamber := Py.title chamber_;
              subcommittee := default false (subcommittee_flag data);
              parent_committee_id := None;
              committee_description := Some (get (fields data) "purpose" "") |})
     end)
    (fun e => logger_error "Error saving ProPublica committee" e).

(** [_collect_propublica_committees] *)
Definition _collect_propublica_committees (api_key : string) : M unit :=
  for_each ["house"; "senate"] (fun chamber_ =>
    let* response := fetch (propublica_committees w chamber_ api_key) in
    match response with
    | Some committee_list =>
        for_each committee_list (fun data =>
          _save_propublica_committee data chamber_)
    | None => ret tt
    end).

(** [collect_propublica_data] *)
Definition collect_propublica_data (api_key : string) : M unit :=
  try_except
    (logger_info "Collecting ProPublica Congress data..." ;;
     _collect_propublica_members api_key ;;
     _collect_propublica_committees api_key)
    (fun e => logger_error "Error collecting ProPublica data" e).

(** [collect_congress_data] *)
Definition collect_congress_data (propublica_api_key : option string) : M unit :=
  collect_senate_stock_data ;;
  collect_house_trading_data ;;
  match propublica_api_key with
  | Some api_key =>
      if Py.truthy api_key then collect_propublica_data api_key else ret tt
  | None => ret tt
  end ;;
  try_except (RealDataScraper.scrape_real_data w)
             (fun e => logger_error "Error scraping real data" e) ;;
  commit ;;
  logger_info "Data collection completed successfully".

End Collector.

End CongressDataCollector.

(** ** The query service (routers) *)

(** [Query(default, ge=.., le=..)] on an integer parameter: the default
    when the parameter is omitted, a validation error (status 422) when
    it is out of bounds.  The handler body runs only when every
    parameter has passed. *)
Definition Query (default_ : Z) (ge_ : option Z) (le_ : option Z) (v : option Z) : M Z :=
  let x := default default_ v in
  if (match ge_ with Some b => b <=? x | None => true end
      && match le_ with Some b => x <=? b | None => true end)%bool
  then ret x
  else raise RequestValidationError.

(** Truth value of an optional integer parameter. *)
Definition truthy_int (o : option Z) : bool :=
  match o with Some n => negb (n =? 0) | None => false end.

(** Truth value of an optional float parameter. *)
Definition truthy_float (o : option Py.pyfloat) : bool :=
  match o with Some x => Py.float_truthy x | None => false end.

(** [query.filter(cond)] applied only when [present]. *)
Definition filter_if {A} (present : bool) (cond : A -> bool) (rows : list A) : list A :=
  if present then List.filter cond rows else rows.

(** [db.query(Trade).join(Member)]: the trades paired with their member. *)
Definition trades_join_members (d : Db) : list (Trade * Member) :=
  flat_map (fun t =>
    map (pair t) (List.filter (fun m => member_id_ m =? member_id t) (members d)))
    (trades d).

(** [db.query(Member).join(Trade)] *)
Definition members_join_trades (d : Db) : list (Member * Trade) :=
  flat_map (fun m =>
    map (pair m) (List.filter (fun t => member_id t =? member_id_ m) (trades d)))
    (members d).

Definition eq_opt_string (column : option string) (v : string) : bool :=
  match column with Some x => String.eqb x v | None => false end.

Module Trades.

(** [get_trades] *)
Definition get_trades (skip limit : option Z)
           (member_id_p : option Z)
           (chamber_p party_p ticker_p transaction_type_p : option string)
           (start_date end_date : option datetime)
           (min_amount max_amount : option Py.pyfloat) : M (list Trade) :=
  let* skip := Query 0 (Some 0) None skip in
  let* limit := Query 100 (Some 1) (Some 1000) limit in
  query (fun d =>
    let q := trades_join_members d in
    let q := filter_if (truthy_int member_id_p)
               (fun r => member_id r.1 =? default 0 member_id_p) q in
    let q := filter_if (Py.truthy_opt chamber_p)
               (fun r => String.eqb (chamber r.2) (default "" chamber_p)) q in
    let q := filter_if (Py.truthy_opt party_p)
               (fun r => eq_opt_string (party r.2) (default "" party_p)) q in
    let q := filter_if (Py.truthy_opt ticker_p)
               (fun r => Sql.ilike (ticker r.1) ("%" ++ default "" ticker_p ++ "%")) q in
    let q := filter_if (Py.truthy_opt transaction_type_p)
               (fun r => String.eqb (transaction_type r.1) (default "" transaction_type_p)) q in
    let q := filter_if (bool_decide (is_Some start_date))
               (fun r => default 0 start_date <=? transaction_date r.1) q in
    let q := filter_if (bool_decide (is_Some end_date))
               (fun r => transaction_date r.1 <=? default 0 end_date) q in
    let q := filter_if (truthy_float min_amount)
               (fun r =>
                  let v := default Py.PNan min_amount in
                  Sql.holds (Sql.or_ (Sql.ge (amount_exact r.1) v)
                                     (Sql.ge (amount_min r.1) v))) q in
    let q := filter_if (truthy_float max_amount)
               (fun r =>
                  let v := default Py.PNan max_amount in
                  Sql.holds (Sql.or_ (Sql.le (amount_exact r.1) v)
                                     (Sql.le (amount_max r.1) v))) q in
    map fst
      (Sql.offset_limit skip limit
         (Sql.order_by
            (fun a b => transaction_date b.1 <=? transaction_date a.1) q))).

(** The response of [get_trading_stats]. *)
Record DashboardStats := {
  total_trades : nat;
  total_members : nat;
  total_committees : nat;
  recent_trades_count : nat;
  top_traded_stocks : list (string * nat);
  trades_by_chamber : gmap string nat;
  trades_by_party : gmap (option string) nat
}.

(** [GROUP BY key] with a count: one row per key, here in the order
    in which the keys are first met. *)
Section GroupBy.
Context {K : Type} (eqb : K -> K -> bool).

Fixpoint count_key (k : K) (rows : list (K * nat)) : list (K * nat) :=
  match rows with
  | [] => [(k, 1%nat)]
  | (k', n) :: rows' =>
      if eqb k k' then (k', S n) :: rows' else (k', n) :: count_key k rows'
  end.

Definition group_count (keys : list K) : list (K * nat) :=
  fold_left (fun acc k => count_key k acc) keys [].
End GroupBy.

Definition opt_string_eqb (a b : option string) : bool :=
  match a, b with
  | Some x, Some y => String.eqb x y
  | None, None => true
  | _, _ => false
  end.

Section Stats.
(** The reading of the clock. *)
Variable now : datetime.
(** The order in which the engine yields the rows of the grouped
    query before they are sorted: the query fixes no order among
    rows with equal counts. *)
Variable yield_order : list (string * nat) -> list (string * nat).

(** [get_trading_stats] *)
Definition get_trading_stats : M DashboardStats :=
  let* total_trades_ := query (fun d => length (trades d)) in
  let* total_members_ := query (fun d => length (members d)) in
  let total_committees_ := 0%nat in
  let recent_date := now - timedelta_days 30 in
  let* recent_trades_count_ :=
    query (fun d =>
      length (List.filter (fun t => recent_date <=? transaction_date t) (trades d))) in
  let* top_stocks :=
    query (fun d =>
      take 10
        (Sql.order_by (fun a b : string * nat => (b.2 <=? a.2)%nat)
           (yield_order (group_count String.eqb (map ticker (trades d)))))) in
  let* trades_by_chamber_ :=
    query (fun d =>
      group_count String.eqb (map (fun r => chamber r.1) (members_join_trades d))) in
  let* trades_by_party_ :=
    query (fun d =>
      group_count opt_string_eqb (map (fun r => party r.1) (members_join_trades d))) in
  ret {| total_trades := total_trades_;
         total_members := total_members_;
         total_committees := total_committees_;
         recent_trades_count := recent_trades_count_;
         top_traded_stocks := top_stocks;
         trades_by_chamber := list_to_map trades_by_chamber_;
         trades_by_party := list_to_map trades_by_party_ |}.
End Stats.

(** [get_recent_trades], with the reading of the clock. *)
Definition get_recent_trades (now : datetime) (days limit : option Z) : M (list Trade) :=
  let* days := Query 30 (Some 1) (Some 365) days in
  let* limit := Query 50 (Some 1) (Some 500) limit in
  let start_date := now - timedelta_days days in
  query (fun d =>
    map fst
      (take (Z.to_nat limit)
         (Sql.order_by
            (fun a b => transaction_date b.1 <=? transaction_date a.1)
            (List.filter (fun r => start_date <=? transaction_date r.1)
                         (trades_join_members d))))).

(** [get_trades_by_member] *)
Definition get_trades_by_member (member_id_p : Z) (skip limit : option Z) : M (list Trade) :=
  let* skip := Query 0 (Some 0) None skip in
  let* limit := Query 100 (Some 1) (Some 1000) limit in
  query (fun d =>
    Sql.offset_limit skip limit
      (Sql.order_by
         (fun a b => transaction_date b <=? transaction_date a)
         (List.filter (fun t => member_id t =? member_id_p) (trades d)))).

(** [get_trades_by_ticker] *)
Definition get_trades_by_ticker (ticker_p : string) (skip limit : option Z) : M (list Trade) :=
  let* skip := Query 0 (Some 0) None skip in
  let* limit := Query 100 (Some 1) (Some 1000) limit in
  query (fun d =>
    map fst
      (Sql.offset_limit skip limit
         (Sql.order_by
            (fun a b => transaction_date b.1 <=? transaction_date a.1)
            (List.filter (fun r => Sql.ilike (ticker r.1) ("%" ++ Py.upper ticker_p ++ "%"))
                         (trades_join_members d))))).

(** [get_trade] *)
Definition get_trade (trade_id : Z) : M Trade :=
  let* trade :=
    query (fun d =>
      head (map fst (List.filter (fun r => trade_id_ r.1 =? trade_id)
                                 (trades_join_members d)))) in
  match trade with
  | None => raise (HTTPException 404 "Trade not found")
  | Some t => ret t
  end.

End Trades.

Module Members.

(** [get_members] *)
Definition get_members (skip limit : option Z)
           (chamber_p party_p state_p : option string)
           (has_trades : option bool) : M (list Member) :=
  let* skip := Query 0 (Some 0) None skip in
  let* limit := Query 100 (Some 1) (Some 1000) limit in
  query (fun d =>
    let q := members d in
    let q := filter_if (Py.truthy_opt chamber_p)
               (fun m => String.eqb (chamber m) (default "" chamber_p)) q in
    let q := filter_if (Py.truthy_opt party_p)
               (fun m => eq_opt_string (party m) (default "" party_p)) q in
    let q := filter_if (Py.truthy_opt state_p)
               (fun m => String.eqb (state m) (default "" state_p)) q in
    let any_trade (m : Member) :=
      existsb (fun t => member_id t =? member_id_ m) (trades d) in
    let q := match has_trades with
             | Some true => List.filter any_trade q
             | Some false => List.filter (fun m => negb (any_trade m)) q
             | None => q
             end in
    Sql.offset_limit skip limit
      (Sql.order_by (fun a b => String.leb (name a) (name b)) q)).

(** [get_members_by_chamber] *)
Definition get_members_by_chamber (chamber_p : string) (skip limit : option Z)
  : M (list Member) :=
  let* skip := Query 0 (Some 0) None skip in
  let* limit := Query 100 (Some 1) (Some 1000) limit in
  if negb (existsb (String.eqb (Py.lower chamber_p)) ["house"; "senate"]) then
    raise (HTTPException 400 "Chamber must be 'House' or 'Senate'")
  else
    query (fun d =>
      Sql.offset_limit skip limit
        (Sql.order_by (fun a b => String.leb (name a) (name b))
           (List.filter (fun m => String.eqb (chamber m) (Py.title chamber_p))
                        (members d)))).

(** [get_members_by_state] *)
Definition get_members_by_state (state_p : string) (skip limit : option Z) : M (list Member) :=
  let* skip := Query 0 (Some 0) None skip in
  let* limit := Query 100 (Some 1) (Some 1000) limit in
  query (fun d =>
    Sql.offset_limit skip limit
      (Sql.order_by (fun a b => String.leb (name a) (name b))
         (List.filter (fun m => String.eqb (state m) (Py.upper state_p)) (members d)))).

(** [get_members_by_party] *)
Definition get_members_by_party (party_p : string) (skip limit : option Z) : M (list Member) :=
  let* skip := Query 0 (Some 0) None skip in
  let* limit := Query 100 (Some 1) (Some 1000) limit in
  query (fun d =>
    Sql.offset_limit skip limit
      (Sql.order_by (fun a b => String.leb (name a) (name b))
         (List.filter (fun m => eq_opt_string (party m) party_p) (members d)))).

Section MostActive.
(** The order in which the engine yields the grouped rows before they
    are sorted. *)
Variable yield_order : list (Member * nat) -> list (Member * nat).

(** [get_most_active_traders] *)
Definition get_most_active_traders (limit : option Z) : M (list Member) :=
  let* limit := Query 10 (Some 1) (Some 100) limit in
  query (fun d =>
    map fst
      (take (Z.to_nat limit)
         (Sql.order_by (fun a b : Member * nat => (b.2 <=? a.2)%nat)
            (yield_order
               (Trades.group_count (fun a b => member_id_ a =? member_id_ b)
                  (map fst (members_join_trades d))))))).
End MostActive.

(** [get_member] *)
Definition get_member (member_id_p : Z) : M Member :=
  let* member :=
    query (fun d => List.find (fun m => member_id_ m =? member_id_p) (members d)) in
  match member with
  | None => raise (HTTPException 404 "Member not found")
  | Some m => ret m
  end.

(** [search_members] *)
Definition search_members (name_p : string) (skip limit : option Z) : M (list Member) :=
  let* skip := Query 0 (Some 0) None skip in
  let* limit := Query 20 (Some 1) (Some 100) limit in
  query (fun d =>
    Sql.offset_limit skip limit
      (Sql.order_by (fun a b => String.leb (name a) (name b))
         (List.filter (fun m => Sql.ilike (name m) ("%" ++ name_p ++ "%")) (members d)))).

End Members.

Module Committees.

(** [get_committees] *)
Definition get_committees (skip limit : option Z)
           (chamber_p : option string) (subcommittee_p : option bool)
  : M (list Committee) :=
  let* skip := Query 0 (Some 0) None skip in
  let* limit := Query 100 (Some 1) (Some 1000) limit in
  query (fun d =>
    let q := committees d in
    let q := filter_if (Py.truthy_opt chamber_p)
               (fun c => String.eqb (committee_chamber c) (default "" chamber_p)) q in
    let q := match subcommittee_p with
             | Some flag => List.filter (fun c => Bool.eqb (subcommittee c) flag) q
             | None => q
             end in
    Sql.offset_limit skip limit
      (Sql.order_by (fun a b => String.leb (committee_name a) (committee_name b)) q)).

(** [get_committees_by_chamber] *)
Definition get_committees_by_chamber (chamber_p : string) (skip limit : option Z)
  : M (list Committee) :=
  let* skip := Query 0 (Some 0) None skip in
  let* limit := Query 100 (Some 1) (Some 1000) limit in
  if negb (existsb (String.eqb (Py.lower chamber_p)) ["house"; "senate"; "joint"]) then
    raise (HTTPException 400 "Chamber must be 'House', 'Senate', or 'Joint'")
  else
    query (fun d =>
      Sql.offset_limit skip limit
        (Sql.order_by (fun a b => String.leb (committee_name a) (committee_name b))
           (List.filter (fun c => String.eqb (committee_chamber c) (Py.title chamber_p))
                        (committees d)))).

(** [get_main_committees] *)
Definition get_main_committees (skip limit : option Z) (chamber_p : option string)
  : M (list Committee) :=
  let* skip := Query 0 (Some 0) None skip in
  let* limit := Query 100 (Some 1) (Some 1000) limit in
  query (fun d =>
    let q := List.filter (fun c => Bool.eqb (subcommittee c) false) (committees d) in
    let q := filter_if (Py.truthy_opt chamber_p)
               (fun c => String.eqb (committee_chamber c) (default "" chamber_p)) q in
    Sql.offset_limit skip limit
      (Sql.order_by (fun a b => String.leb (committee_name a) (committee_name b)) q)).

(** [get_subcommittees] *)
Definition get_subcommittees (skip limit : option Z) (parent_committee_id_p : option Z)
  : M (list Committee) :=
  let* skip := Query 0 (Some 0) None skip in
  let* limit := Query 100 (Some 1) (Some 1000) limit in
  query (fun d =>
    let q := List.filter (fun c => Bool.eqb (subcommittee c) true) (committees d) in
    let q := filter_if (truthy_int parent_committee_id_p)
               (fun c => match parent_committee_id c with
                         | Some p => p =? default 0 parent_committee_id_p
                         | None => false
                         end) q in
    Sql.offset_limit skip limit
      (Sql.order_by (fun a b => String.leb (committee_name a) (committee_name b)) q)).

(** [get_committee] *)
Definition get_committee (committee_id : Z) : M Committee :=
  let* committee :=
    query (fun d => List.find (fun c => committee_id_ c =? committee_id) (committees d)) in
  match committee with
  | None => raise (HTTPException 404 "Committee not found")
  | Some c => ret c
  end.

End Committees.

(** ** clean_sample_data.py and clean_future_data.py *)

Module Maintenance.

(** [db.delete(trade)]: the row with the key of the trade is removed. *)
Definition delete (t : Trade) : M unit :=
  fun s =>
    (inr tt, set_db {| members := members (db s);
                       trades := List.filter (fun t' => negb (trade_id_ t' =? trade_id_ t))
                                             (trades (db s));
                       committees := committees (db s) |} s).

Section Scripts.
(** The comparison of characters under [LIKE] in the engine. *)
Variable like_eq : ascii -> ascii -> bool.

Definition sample_sources : list string :=
  ["Sample Data"; "Realistic Trading Data"; "Senate Sample Data"; "House Sample Data"].

(** The description filter of [clean_sample_data]. *)
Definition sample_description (t : Trade) : bool :=
  Sql.holds
    (Sql.or_ (Sql.or_ (Sql.like like_eq (description t) "%sample%")
                      (Sql.like like_eq (description t) "%realistic%"))
             (Sql.like like_eq (description t) "%generated%")).

(** The three counts logged after a clean-up. *)
Definition log_remaining : M unit :=
  let* remaining_trades := query (fun d => length (trades d)) in
  let* remaining_members := query (fun d => length (members d)) in
  let* remaining_committees := query (fun d => length (committees d)) in
  logger_info "Remaining data:" ;;
  logger_info "  - Trades" ;;
  logger_info "  - Members" ;;
  logger_info "  - Committees".

(** [clean_sample_data], on the session it opens. *)
Definition clean_sample_data : M unit :=
  try_except
    (let* sample_trades :=
       query (fun d =>
         List.filter (fun t => Sql.holds (Sql.in_ (source t) sample_sources)) (trades d)) in
     logger_info "Found sample trades to remove" ;;
     for_each sample_trades delete ;;
     let* sample_descriptions :=
       query (fun d => List.filter sample_description (trades d)) in
     logger_info "Found trades with sample descriptions to remove" ;;
     for_each sample_descriptions delete ;;
     commit ;;
     logger_info "Sample data cleaned successfully!" ;;
     log_remaining)
    (fun e => logger_error "Error cleaning sample data" e ;; rollback).

Definition suspicious_sources : list string :=
  ["Senate Financial Disclosures"; "House Clerk Website"; "Sample Data";
   "Realistic Trading Data"].

(** The description filter of [clean_future_and_suspicious_data]. *)
Definition fake_description (t : Trade) : bool :=
  Sql.holds
    (Sql.or_ (Sql.or_ (Sql.or_ (Sql.like like_eq (description t) "%Senate disclosure%")
                               (Sql.like like_eq (description t) "%Scraped from House%"))
                      (Sql.like like_eq (description t) "%sample%"))
             (Sql.like like_eq (description t) "%realistic%")).

(** [trade.member.name]: the member of the trade is loaded; a trade
    without a member raises (an [AttributeError], recorded here with its
    message: no handler looks at the class of an exception). *)
Definition member_name_of (t : Trade) : M string :=
  let* member :=
    query (fun d => List.find (fun m => member_id_ m =? member_id t) (members d)) in
  match member with
  | Some m => ret (name m)
  | None => raise (ValueError "'NoneType' object has no attribute 'name'")
  end.

(** [clean_future_and_suspicious_data], on the session it opens, with
    the reading of the clock. *)
Definition clean_future_and_suspicious_data (current_time : datetime) : M unit :=
  try_except
    (let* future_trades :=
       query (fun d =>
         List.filter (fun t => current_time <? transaction_date t) (trades d)) in
     logger_info "Found trades with future dates to remove" ;;
     for_each future_trades (fun trade =>
       let* _ := member_name_of trade in
       logger_info "Removing future trade" ;;
       delete trade) ;;
     for_each suspicious_sources (fun source_ =>
       let* source_trades :=
         query (fun d =>
           List.filter (fun t => Sql.holds (Sql.eq (source t) source_)) (trades d)) in
       match source_trades with
       | [] => ret tt
       | _ :: _ =>
           logger_info "Removing trades from suspicious source" ;;
           for_each source_trades delete
       end) ;;
     let* fake_descriptions :=
       query (fun d => List.filter fake_description (trades d)) in
     match fake_descriptions with
     | [] => ret tt
     | _ :: _ =>
         logger_info "Removing trades with fake descriptions" ;;
         for_each fake_descriptions delete
     end ;;
     commit ;;
     logger_info "Suspicious data cleaned successfully!" ;;
     log_remaining ;;
     let* remaining_sources := query (fun d => remove_dups (map source (trades d))) in
     logger_info "Remaining data sources:" ;;
     for_each remaining_sources (fun source_ =>
       let* count :=
         query (fun d =>
           length (List.filter (fun t => bool_decide (source t = source_)) (trades d))) in
       logger_info "  - source"))
    (fun e => logger_error "Error cleaning suspicious data" e ;; rollback).

End Scripts.

End Maintenance.

(** ** main.py *)

Module Main.

Section Endpoint.
Variable fromisoformat : string -> option datetime.
Variable w : World.

(** [trigger_data_collection]: the collection is run on the session of
    the request, without an API key.  The answer is its message; the
    detail of the error is its fixed text (the text of the exception,
    which follows it, is left out as in the log lines). *)
Definition trigger_data_collection : M string :=
  try_except
    (CongressDataCollector.collect_congress_data fromisoformat w None ;;
     ret "Data collection completed successfully")
    (fun e => raise (HTTPException 500 "Data collection failed")).

End Endpoint.

End Main.

(** ** Sample inputs, to run the model on *)

Module Sample.

(** A date parser for the calendar-date form [YYYY-MM-DD] alone: an
    instance of the parser parameter to run the collector with. *)
Definition days_in_month (y m : Z) : Z :=
  if m =? 2 then
    if ((y mod 4 =? 0) && (negb (y mod 100 =? 0) || (y mod 400 =? 0)))%bool
    then 29 else 28
  else if ((m =? 4) || (m =? 6) || (m =? 9) || (m =? 11))%bool then 30
  else 31.

(** Days from 1970-01-01 to the given civil date. *)
Definition days_from_civil (y m d : Z) : Z :=
  let y' := if m <=? 2 then y - 1 else y in
  let era := y' / 400 in
  let yoe := y' - era * 400 in
  let mp := (m + 9) mod 12 in
  let doy := (153 * mp + 2) / 5 + d - 1 in
  let doe := yoe * 365 + yoe / 4 - yoe / 100 + doy in
  era * 146097 + doe - 719468.

Definition date_only (s : string) : option datetime :=
  match Py.chars s with
  | [y1; y2; y3; y4; s1; m1; m2; s2; d1; d2] =>
      if (forallb Py.is_digit [y1; y2; y3; y4; m1; m2; d1; d2]
          && Ascii.eqb s1 "-" && Ascii.eqb s2 "-")%bool then
        let y := Py.digits_value [y1; y2; y3; y4] in
        let m := Py.digits_value [m1; m2] in
        let d := Py.digits_value [d1; d2] in
        if ((1 <=? y) && (1 <=? m) && (m <=? 12)
            && (1 <=? d) && (d <=? days_in_month y m))%bool
        then Some (days_from_civil y m d * 86400000000)
        else None
      else None
  | _ => None
  end.

(** A world in which nothing answers. *)
Definition offline : World :=
  {| utcnow := 1700000000000000;
     senate_stock_index := Raises;
     senate_stock_file := fun _ => Raises;
     propublica_members := fun _ _ => Raises;
     propublica_committees := fun _ _ => Raises;
     house_index := Raises;
     house_disclosure := fun _ => Raises;
     senate_search := Raises |}.

Definition good_record : raw :=
  {[ "senator" := "Jane Roe"; "state" := "OR"; "party" := "I";
     "ticker" := "AAPL"; "asset_description" := "Apple Inc.";
     "type" := "Purchase"; "transaction_date" := "2024-01-05";
     "amount_min" := "$1,001"; "amount_max" := "$15,000" ]}.

Definition undated_record : raw := delete "transaction_date" good_record.

Definition misdated_record : raw :=
  <[ "transaction_date" := "01/05/2024" ]> good_record.

(** A world whose structured feed has one file of three records and
    whose disclosure site has one page with one table. *)
Definition online : World :=
  {| utcnow := 1700000000000000;
     senate_stock_index :=
       Response 200 (Some [ {[ "name" := "2024.json"; "download_url" := "u1" ]};
                            {[ "name" := "README.md"; "download_url" := "u2" ]} ]);
     senate_stock_file := fun url =>
       if String.eqb url "u1"
       then Response 200 (Some [misdated_record; good_record; undated_record])
       else Response 404 None;
     propublica_members := fun chamber_ _ =>
       if String.eqb chamber_ "senate"
       then Response 200 (Some [ {[ "first_name" := "Jane"; "last_name" := "Roe";
                                    "state" := "OR"; "party" := "I" ]} ])
       else Response 200 (Some []);
     propublica_committees := fun _ _ => Response 500 None;
     house_index := Response 200 (Some ["/FinancialDisclosure/1"]);
     house_disclosure := fun _ =>
       Response 200 (Some {| selected := [None; Some " John Doe "];
                             tables := [[ ["Asset"; "Type"; "Amount"];
                                          ["Apple Inc. (AAPL)"; "P"; "$1,001 - $15,000"];
                                          ["THE Fund (XYZ)"; "S"; "N/A"] ]] |});
     senate_search := Response 200 None |}.

(** The session after a collection run in that world. *)
Definition collected : session :=
  exec (CongressDataCollector.collect_congress_data date_only online (Some "key"))
       (new_session empty_db).

(** A store with one member and two trades, of MSFT then of AAPL. *)
Definition two_trades : Db :=
  let trade id tk :=
    {| trade_id_ := id; member_id := 1; ticker := tk; company_name := None;
       transaction_type := "Buy"; transaction_date := 1690000000000000;
       amount_min := None; amount_max := None; amount_exact := None;
       exchange_from_ticker := None; exchange_from_company := None;
       exchange_from_amount := None; exchange_ratio := None; exchange_reason := None;
       description := None; source := None; filing_date := None |} in
  {| members := [ {| member_id_ := 1; name := "Jane Roe"; chamber := "Senate";
                     state := "OR"; party := None; district := None; office := None;
                     phone := None; email := None; website := None; bio := None |} ];
     trades := [trade 1 "MSFT"; trade 2 "AAPL"];
     committees := [] |}.

(** A record of the feed whose kind is an exchange. *)
Definition exchange_record : raw := <[ "type" := "Exchange" ]> good_record.

(** A committee of the Senate, two of its subcommittees, and a
    subcommittee of a committee of the House. *)
Definition finance : Committee :=
  {| committee_id_ := 1; committee_name := "Finance"; code := "SSFI";
     committee_chamber := "Senate"; subcommittee := false;
     parent_committee_id := None; committee_description := None |}.
Definition taxation : Committee :=
  {| committee_id_ := 2; committee_name := "Taxation and IRS Oversight"; code := "SSFI11";
     committee_chamber := "Senate"; subcommittee := true;
     parent_committee_id := Some 1; committee_description := None |}.
Definition health_care : Committee :=
  {| committee_id_ := 3; committee_name := "Health Care"; code := "SSFI10";
     committee_chamber := "Senate"; subcommittee := true;
     parent_committee_id := Some 1; committee_description := None |}.
Definition aviation : Committee :=
  {| committee_id_ := 4; committee_name := "Aviation"; code := "HSPW05";
     committee_chamber := "House"; subcommittee := true;
     parent_committee_id := Some 7; committee_description := None |}.

Definition with_committees : Db :=
  {| members := []; trades := [];
     committees := [finance; taxation; health_care; aviation] |}.

End Sample.

(** ** Vocabulary of the properties *)

(** *** Texts *)

(** A run of full stops. *)
Definition dots (l : list ascii) : Prop := Forall (eq "."%char) l.

(** A text has no decimal digit. *)
Definition digit_free (s : string) : Prop :=
  Forall (fun c => Py.is_digit c = false) (Py.chars s).

(** A run of decimal digits. *)
Definition digits (l : list ascii) : Prop := Forall (fun c => Py.is_digit c = true) l.

(** A text of digits, dollar signs and commas. *)
Definition amount_text (s : string) : Prop :=
  Forall (fun c => Py.is_digit c = true \/ c = "$"%char \/ c = ","%char) (Py.chars s).

(** The digits of a text, in order. *)
Definition digits_of (s : string) : list ascii := List.filter Py.is_digit (Py.chars s).

(** The two substitutions the scraper's parser starts with. *)
Definition clean (l : list ascii) : list ascii :=
  List.filter (fun c => (Py.is_digit c || Ascii.eqb c "." || Ascii.eqb c "-")%bool)
    (Py.chars (Py.str
       (List.filter (fun c => negb (Ascii.eqb c "$" || Ascii.eqb c ",")) l))).

(** *** Records of the structured feed and rows of the scraper *)

Section FeedVocabulary.
Variable fromisoformat : string -> option datetime.

(** The parser applied to a text with each Z replaced by the UTC offset. *)
Definition parse_iso (s : string) : option datetime :=
  fromisoformat (Py.replace_char "Z" "+00:00" s).

(** The two dates of a record when both can be read: the transaction
    date, which is required, and the filing date, which is read only
    when the field is present and not empty. *)
Definition dates_of (trade_data : raw) : option (datetime * option datetime) :=
  match parse_iso (get trade_data "transaction_date" "") with
  | None => None
  | Some td =>
      if Py.truthy_opt (trade_data !! "filing_date") then
        match parse_iso (get trade_data "filing_date" "") with
        | Some fd => Some (td, Some fd)
        | None => None
        end
      else Some (td, None)
  end.

(** A record that ends up stored: it names a senator and its dates
    can be read. *)
Definition storable (trade_data : raw) : bool :=
  (Py.truthy (get trade_data "senator" "") && bool_decide (is_Some (dates_of trade_data)))%bool.

(** The member a record is attached to and the members after it has
    been looked up, or created. *)
Definition resolved (trade_data : raw) (d : Db) : Member * list Member :=
  match CongressDataCollector.senator_by_name (get trade_data "senator" "") d with
  | Some m => (m, members d)
  | None =>
      let m := {| member_id_ := fresh_id (map member_id_ (members d));
                  name := get trade_data "senator" ""; chamber := "Senate";
                  state := get trade_data "state" "";
                  party := Some (get trade_data "party" "");
                  district := None; office := None; phone := None;
                  email := None; website := None; bio := None |} in
      (m, (members d ++ [m])%list)
  end.

End FeedVocabulary.

(** The member a scraped row is attached to and the members after it
    has been looked up, or created. *)
Definition resolved_by_name (member_name : string) (d : Db) : Member * list Member :=
  match RealDataScraper.member_by_name member_name d with
  | Some m => (m, members d)
  | None =>
      let m := {| member_id_ := fresh_id (map member_id_ (members d));
                  name := member_name; chamber := "House";
                  state := "Unknown"; party := Some "Unknown";
                  district := None; office := None; phone := None;
                  email := None; website := None; bio := None |} in
      (m, (members d ++ [m])%list)
  end.

(** A scraped row as it reaches [_save_trade]: member name, ticker,
    transaction type, amount. *)
Definition save_row (w : World) (row : string * string * string * string) : M unit :=
  let '(member_name, ticker_, transaction_type_, amount) := row in
  RealDataScraper._save_trade w member_name ticker_ transaction_type_ amount.

(** *** Grouped rows *)

(** The count recorded for a key in grouped rows, zero when absent. *)
Fixpoint recorded (k : string) (rows : list (string * nat)) : nat :=
  match rows with
  | [] => 0
  | (k', n) :: rows' => if String.eqb k k' then n else recorded k rows'
  end.

(** The number of times a key occurs. *)
Definition occurrences (k : string) (keys : list string) : nat :=
  length (List.filter (String.eqb k) keys).

(** *** Runs *)

(** The collectors of a run, by the line each logs when it starts. *)
Inductive collector :=
| SenateStockWatcher    (* the structured feed *)
| HouseTradingData      (* the two House sources, not yet implemented *)
| ProPublica            (* the API that needs a key *)
| DisclosureScraper.    (* the scraper of the disclosure sites *)

(** The collector a log line announces, if it is a starting line. *)
Definition started (e : log_entry) : option collector :=
  if String.eqb (text e) "Collecting Senate Stock Watcher data..." then Some SenateStockWatcher
  else if String.eqb (text e) "Collecting House trading data..." then Some HouseTradingData
  else if String.eqb (text e) "Collecting ProPublica Congress data..." then Some ProPublica
  else if String.eqb (text e) "Scraping House financial disclosures..." then Some DisclosureScraper
  else None.

(** The collectors started, in order, according to a log. *)
Definition run_order (l : list log_entry) : list collector := omap started l.

(** A computation announces the collectors [cs]: that is what its lines
    add to the log, whether it returns or raises. *)
Definition announces {A} (c : M A) (cs : list collector) : Prop :=
  forall s, exists extra, log (c s).2 = (log s ++ extra)%list /\ run_order extra = cs.

(** A computation that logs no starting line. *)
Definition quiet {A} (c : M A) : Prop := announces c [].

(** A computation that always returns. *)
Definition returns {A} (c : M A) : Prop := forall s, exists a, (c s).1 = inr a.

(** *** Searches *)

(** A text with neither of the two wildcards of [LIKE]. *)
Definition wildcard_free (l : list ascii) : Prop :=
  Forall (fun c => c <> "%"%char /\ c <> "_"%char) l.

(** The characters [t] occur, in a row, in [s]. *)
Definition occurs_in (t s : list ascii) : Prop :=
  exists before after, s = (before ++ t ++ after)%list.

(** *** Members and their trades *)

(** The count recorded for a member key in grouped rows, zero when
    absent. *)
Fixpoint counted (z : Z) (rows : list (Member * nat)) : nat :=
  match rows with
  | [] => 0
  | (m, n) :: rows' => if z =? member_id_ m then n else counted z rows'
  end.

(** The number of stored trades attached to a member. *)
Definition trade_count (d : Db) (m : Member) : nat :=
  length (List.filter (fun t => member_id t =? member_id_ m) (trades d)).

(** *** Clean-ups *)

(** A trade that [clean_sample_data] is written to remove. *)
Definition sample_trade (like_eq : ascii -> ascii -> bool) (t : Trade) : bool :=
  (Sql.holds (Sql.in_ (source t) Maintenance.sample_sources)
   || Maintenance.sample_description like_eq t)%bool.

(** A trade that [clean_future_and_suspicious_data] is written to
    remove: dated after the reading of the clock, or from one of the
    listed sources, or with one of the listed descriptions. *)
Definition suspicious_trade (like_eq : ascii -> ascii -> bool) (current_time : datetime)
           (t : Trade) : bool :=
  ((current_time <? transaction_date t)
   || existsb (fun source_ => Sql.holds (Sql.eq (source t) source_))
              Maintenance.suspicious_sources
   || Maintenance.fake_description like_eq t)%bool.

(** A trade whose member is among [ms], and one whose member is not. *)
Definition has_member (ms : list Member) (t : Trade) : Prop :=
  exists m, In m ms /\ member_id_ m = member_id t.
Definition orphan (ms : list Member) (t : Trade) : Prop :=
  forall m, In m ms -> member_id_ m <> member_id t.

(** Two sessions with the same members, committees and committed rows. *)
Definition same_but_trades (s s' : session) : Prop :=
  members (db s') = members (db s)
  /\ committees (db s') = committees (db s)
  /\ committed s' = committed s.

(** *** Stores and what a collection keeps true of them *)

(** The keys of each table are distinct, and every trade has its
    member. *)
Definition well_keyed (d : Db) : Prop :=
  NoDup (map member_id_ (members d))
  /\ NoDup (map trade_id_ (trades d))
  /\ NoDup (map committee_id_ (committees d))
  /\ forall t, In t (trades d) -> has_member (members d) t.

(** The rows of [d] are the first rows of [d'], unchanged. *)
Definition grows (d d' : Db) : Prop :=
  (exists extra, members d' = (members d ++ extra)%list)
  /\ (exists extra, trades d' = (trades d ++ extra)%list)
  /\ (exists extra, committees d' = (committees d ++ extra)%list).

(** A session on well-keyed rows, whose committed rows extend [d0] and
    are extended by the rows it sees. *)
Definition sound_from (d0 : Db) (s : session) : Prop :=
  well_keyed (db s) /\ well_keyed (committed s)
  /\ grows d0 (committed s) /\ grows (committed s) (db s).

(** A sound session in which the members [known] are stored. *)
Definition sound_with (d0 : Db) (known : list Member) (s : session) : Prop :=
  sound_from d0 s /\ forall m, In m known -> In m (members (db s)).

(** From a session that satisfies [P], the computation ends, with a
    result or an exception [r], in a session that satisfies [Q r]. *)
Definition triple {A} (P : session -> Prop) (c : M A) (Q : exn + A -> session -> Prop)
  : Prop :=
  forall s, P s -> Q (c s).1 (c s).2.

(** A computation that keeps [I], whether it returns or raises. *)
Definition keeps {A} (I : session -> Prop) (c : M A) : Prop :=
  triple I c (fun _ s => I s).

(** A property of the rows of a session, seen and committed, alone. *)
Definition on_rows (P : session -> Prop) : Prop :=
  forall s s', db s' = db s -> committed s' = committed s -> P s -> P s'.

(** *** Amount texts *)

(** A text of digits and full stops. *)
Definition plain (l : list ascii) : Prop :=
  Forall (fun c => Py.is_digit c = true \/ c = "."%char) l.

(** An amount that is a number and is not negative. *)
Definition not_negative (x : Py.pyfloat) : Prop := Py.float_le (Py.of_int 0) x = true.

(** *** The index of the structured feed *)

(** An entry of the index that can be read: it has a name, and a
    download address when the name ends in .json. *)
Definition listed (file_info : raw) : Prop :=
  exists file_name,
    file_info !! "name" = Some file_name
    /\ (Py.endswith ".json" file_name = true -> is_Some (file_info !! "download_url")).

(** The download addresses of the entries whose name ends in .json. *)
Definition urls_of (files : list raw) : list string :=
  omap (fun file_info =>
          match file_info !! "name" with
          | Some file_name =>
              if Py.endswith ".json" file_name then file_info !! "download_url" else None
          | None => None
          end) files.
(** *** Where a trade comes from *)

(** A trade stored by the scraper of the disclosure sites. *)
Definition from_scraper (t : Trade) : Prop :=
  source t = Some "House Clerk Website" \/ source t = Some "Senate Financial Disclosures".

(** A trade stored by a collection run. *)
Definition from_collection (t : Trade) : Prop :=
  source t = Some "Senate Stock Watcher" \/ from_scraper t.

(** Every trade of the session, seen or committed, is a trade of [d0]
    or satisfies [P]. *)
Definition only_adds (P : Trade -> Prop) (d0 : Db) (s : session) : Prop :=
  (forall t, In t (trades (db s)) -> In t (trades d0) \/ P t)
  /\ (forall t, In t (trades (committed s)) -> In t (trades d0) \/ P t).

(** *** The exchange columns of a trade *)

(** A trade none of whose exchange-specific columns is set. *)
Definition no_exchange_fields (t : Trade) : Prop :=
  exchange_from_ticker t = None /\ exchange_from_company t = None
  /\ exchange_from_amount t = None /\ exchange_ratio t = None
  /\ exchange_reason t = None.

(** The trades a session sees or has committed, as a store. *)
Definition trades_before (s : session) : Db :=
  {| members := []; trades := (trades (db s) ++ trades (committed s))%list;
     committees := [] |}.

(** * Properties *)

(** ** The built-ins on examples *)

Example lower_ex : Py.lower "HoUse-9" = "house-9".
Proof. reflexivity. Qed.
Example title_ex : Py.title "sENATE" = "Senate".
Proof. reflexivity. Qed.
Example replace_ex : Py.replace_char "Z" "+00:00" "2024-01-05T10:00:00Z" = "2024-01-05T10:00:00+00:00".
Proof. reflexivity. Qed.
Example split_ex : Py.split "-" "1000-5000-" = ["1000"; "5000"; ""].
Proof. reflexivity. Qed.
Example endswith_ex : Py.endswith ".json" "a.json" = true /\ Py.endswith ".json" "json" = false.
Proof. split; reflexivity. Qed.
Example float_ex1 : Py.float " 1_000.50 " = Some (Py.PFin (2001 # 2)).
Proof. vm_compute. reflexivity. Qed.
Example float_ex2 : Py.float "-2.5e3" = Some (Py.PFin (-2500 # 1)).
Proof. vm_compute. reflexivity. Qed.
Example float_ex3 : Py.float "." = None /\ Py.float "" = None /\ Py.float "1000-5000" = None
   /\ Py.float "1__0" = None /\ Py.float "1." = Some (Py.PFin 1) /\ Py.float ".5" = Some (Py.PFin (1#2))
   /\ Py.float "-Infinity" = Some (Py.PInf true) /\ Py.float "NaN" = Some Py.PNan /\ Py.float "1e" = None.
Proof. vm_compute. repeat split. Qed.
Example ilike_ex :
  Sql.ilike "Nancy Pelosi" "%pelosi%" = true /\
  Sql.ilike "Nancy Pelosi" "%N_ncy%" = true /\
  Sql.ilike "Nancy Pelosi" "%Smith%" = false.
Proof. repeat split. Qed.
Example order_by_ex :
  Sql.order_by (fun a b : Z * string => (a.1 >=? b.1)%Z) [(1, "a"); (3, "b"); (1, "c"); (3, "d")]
  = [(3, "b"); (3, "d"); (1, "a"); (1, "c")].
Proof. reflexivity. Qed.

(** ** Strings and floats *)

Lemma chars_str (l : list ascii) : Py.chars (Py.str l) = l.
Proof. apply list_ascii_of_string_of_list_ascii. Qed.

Lemma str_chars (s : string) : Py.str (Py.chars s) = s.
Proof. apply string_of_list_ascii_of_string. Qed.

Lemma truthy_str (l : list ascii) :
  Py.truthy (Py.str l) = match l with [] => false | _ => true end.
Proof. destruct l; reflexivity. Qed.

Lemma dots_rev l : dots l -> dots (rev l).
Proof.
  unfold dots. rewrite !List.Forall_forall. intros H x Hx. apply H. now apply in_rev.
Qed.

Lemma lstrip_dots l : dots l -> Py.lstrip l = l.
Proof. intros H. destruct H as [|c l <- _]; reflexivity. Qed.

Lemma strip_dots l : dots l -> Py.strip l = l.
Proof.
  intros H. unfold Py.strip.
  rewrite (lstrip_dots l H), (lstrip_dots (rev l) (dots_rev l H)).
  apply rev_involutive.
Qed.

(** A string of full stops is not a float literal. *)
Lemma float_dots l : dots l -> Py.float (Py.str l) = None.
Proof.
  intros H. unfold Py.float. rewrite chars_str, (strip_dots l H).
  destruct H as [|c l <- H]; [reflexivity|].
  destruct H as [|c l <- H]; reflexivity.
Qed.

Lemma split_on_dots l :
  Forall (fun c => c = "."%char \/ c = "-"%char) l ->
  Forall dots (Py.split_on "-" l).
Proof.
  induction 1 as [|c l Hc _ IH]; simpl.
  - repeat constructor.
  - destruct Hc as [-> | ->]; simpl.
    + destruct (Py.split_on "-" l) as [|p ps].
      * repeat constructor.
      * inversion IH; subst.
        constructor; [constructor; [reflexivity | assumption] | assumption].
    + constructor; [constructor | assumption].
Qed.

Lemma nth_split_dots l i :
  Forall (fun c => c = "."%char \/ c = "-"%char) l ->
  exists p, nth i (Py.split "-" (Py.str l)) "" = Py.str p /\ dots p.
Proof.
  intros H. unfold Py.split. rewrite chars_str.
  exists (nth i (Py.split_on "-" l) []). split.
  - change "" with (Py.str []). apply map_nth.
  - pose proof (split_on_dots l H) as Hs.
    revert i. induction Hs; intros [|i]; simpl; try constructor; auto.
Qed.

(** What the two substitutions of the scraper's parser leave of a text
    without digits: full stops and hyphens. *)
Lemma cleaned_digit_free (s : string) :
  digit_free s ->
  Forall (fun c => c = "."%char \/ c = "-"%char)
    (List.filter (fun c => (Py.is_digit c || Ascii.eqb c "." || Ascii.eqb c "-")%bool)
       (Py.chars (Py.str
          (List.filter (fun c => negb (Ascii.eqb c "$" || Ascii.eqb c ","))
             (Py.chars s))))).
Proof.
  intros H. rewrite chars_str. apply List.Forall_forall. intros c Hc.
  apply filter_In in Hc as [Hc Hk]. apply filter_In in Hc as [Hc _].
  unfold digit_free in H. rewrite List.Forall_forall in H. rewrite (H c Hc) in Hk.
  simpl in Hk. apply orb_true_iff in Hk as [Hk | Hk];
    apply Ascii.eqb_eq in Hk; auto.
Qed.

Lemma no_hyphen_dots l :
  Forall (fun c => c = "."%char \/ c = "-"%char) l ->
  Py.contains_char "-" (Py.str l) = false -> dots l.
Proof.
  unfold Py.contains_char. rewrite chars_str.
  induction 1 as [|c l Hc _ IH]; simpl; intros E; [constructor|].
  apply orb_false_iff in E as [E1 E2]. constructor; [|exact (IH E2)].
  destruct Hc as [-> | ->]; [reflexivity | discriminate E1].
Qed.

Lemma parse_amount_body_digit_free (s : string) :
  digit_free s ->
  RealDataScraper._parse_amount_body s = inr (Py.of_int 0, Py.of_int 0) \/
  exists e, RealDataScraper._parse_amount_body s = inl e.
Proof.
  intros H. pose proof (cleaned_digit_free s H) as Hc.
  unfold RealDataScraper._parse_amount_body.
  set (l := List.filter _ (Py.chars (Py.str _))) in *.
  destruct (Py.contains_char "-" (Py.str l)) eqn:E.
  - destruct (nth_split_dots l 0 Hc) as (p0 & -> & Hp0).
    destruct (nth_split_dots l 1 Hc) as (p1 & -> & Hp1).
    rewrite !truthy_str, (float_dots p0 Hp0), (float_dots p1 Hp1).
    destruct p0; [destruct p1|]; eauto.
  - rewrite truthy_str, (float_dots l (no_hyphen_dots l Hc E)).
    destruct l; eauto.
Qed.

(** Whatever the text, the scraper's parser returns a pair. *)
Lemma scraper_parse_amount_total (s : string) (st : session) :
  exists r, (RealDataScraper._parse_amount s st).1 = inr r.
Proof.
  unfold RealDataScraper._parse_amount.
  destruct (RealDataScraper._parse_amount_body s); simpl; eauto.
Qed.

Lemma scraper_parse_amount_digit_free (s : string) (st : session) :
  digit_free s ->
  (RealDataScraper._parse_amount s st).1 = inr (Py.of_int 0, Py.of_int 0).
Proof.
  intros H. unfold RealDataScraper._parse_amount.
  destruct (parse_amount_body_digit_free s H) as [-> | [e ->]]; reflexivity.
Qed.

Lemma chars_app (a b : string) : Py.chars (a ++ b) = (Py.chars a ++ Py.chars b)%list.
Proof. induction a as [|c a IH]; simpl; [reflexivity | now rewrite <- IH]. Qed.

Lemma digit_not_space c : Py.is_digit c = true -> Py.is_space c = false.
Proof. destruct c as [[] [] [] [] [] [] [] []]; intros H; try discriminate H; reflexivity. Qed.

Lemma digit_not_sign c :
  Py.is_digit c = true -> Ascii.eqb c "-" = false /\ Ascii.eqb c "+" = false.
Proof.
  destruct c as [[] [] [] [] [] [] [] []]; intros H; try discriminate H; split; reflexivity.
Qed.

Lemma digit_not_letter c : Py.is_digit c = true -> Py.lower_char c = c /\ Ascii.eqb c "i" = false /\ Ascii.eqb c "n" = false.
Proof.
  destruct c as [[] [] [] [] [] [] [] []]; intros H; try discriminate H; repeat split; reflexivity.
Qed.

Lemma lstrip_digits l : digits l -> Py.lstrip l = l.
Proof. intros [|c l' Hc _]; simpl; [reflexivity | now rewrite (digit_not_space c Hc)]. Qed.

Lemma strip_digits l : digits l -> Py.strip l = l.
Proof.
  intros H. unfold Py.strip. rewrite (lstrip_digits l H), lstrip_digits.
  - apply rev_involutive.
  - unfold digits in *. rewrite List.Forall_forall in *. intros x Hx. apply H. now apply in_rev.
Qed.

Lemma digits_tail_digits l : digits l -> Py.digits_tail l = (l, []).
Proof. induction 1 as [|c l Hc _ IH]; simpl; [reflexivity | now rewrite Hc, IH]. Qed.

(** A non-empty run of decimal digits is a float literal, with the value
    the digits spell. *)
Lemma float_digits l :
  digits l -> l <> [] ->
  Py.float (Py.str l) = Some (Py.of_int (Py.digits_value l)).
Proof.
  intros H Hne. unfold Py.float. rewrite chars_str, (strip_digits l H).
  destruct H as [|c l Hc H]; [congruence|].
  destruct (digit_not_sign c Hc) as [E1 E2].
  destruct (digit_not_letter c Hc) as (E3 & E4 & E5).
  unfold Py.read_sign. rewrite E1, E2. simpl map. rewrite E3.
  unfold Py.str. simpl string_of_list_ascii. cbn [String.eqb]. rewrite E4, E5. simpl orb. cbv iota.
  unfold Py.read_decimal, Py.read_mantissa, Py.digitpart.
  rewrite Hc, (digits_tail_digits l H). simpl Py.read_exponent. cbv iota beta.
  rewrite app_nil_r. unfold Py.scale10, Py.of_int. simpl.
  now rewrite Z.mul_1_r.
Qed.

Lemma digits_digits_of s : digits (digits_of s).
Proof.
  unfold digits, digits_of. apply List.Forall_forall. intros c Hc.
  now apply filter_In in Hc.
Qed.

Lemma clean_app a b : clean (a ++ b) = (clean a ++ clean b)%list.
Proof. unfold clean. now rewrite !chars_str, !List.filter_app. Qed.

Lemma clean_amount_text s : amount_text s -> clean (Py.chars s) = digits_of s.
Proof.
  unfold amount_text, clean, digits_of. rewrite chars_str.
  induction 1 as [|c l Hc _ IH]; [reflexivity|].
  destruct Hc as [Hc | [-> | ->]]; simpl.
  - destruct (digit_not_sign c Hc) as [E _].
    assert (Ascii.eqb c "$" = false /\ Ascii.eqb c "," = false) as [-> ->].
    { clear -Hc. destruct c as [[] [] [] [] [] [] [] []]; try discriminate Hc; split; reflexivity. }
    simpl. rewrite Hc. simpl. now rewrite IH.
  - exact IH.
  - exact IH.
Qed.

Lemma split_on_digits a b :
  digits a -> digits b -> Py.split_on "-" (a ++ "-"%char :: b) = [a; b].
Proof.
  intros Ha Hb.
  assert (Hb' : Py.split_on "-" b = [b]).
  { clear Ha. induction Hb as [|c b Hc _ IH]; simpl; [reflexivity|].
    destruct (digit_not_sign c Hc) as [-> _]. now rewrite IH. }
  induction Ha as [|c a Hc _ IH]; simpl.
  - now rewrite Hb'.
  - destruct (digit_not_sign c Hc) as [-> _]. now rewrite IH.
Qed.

Lemma contains_hyphen a b : Py.contains_char "-" (Py.str (a ++ "-"%char :: b)) = true.
Proof.
  unfold Py.contains_char. rewrite chars_str, existsb_app. simpl.
  now rewrite orb_true_r.
Qed.

Lemma no_hyphen_digits a : digits a -> Py.contains_char "-" (Py.str a) = false.
Proof.
  unfold Py.contains_char. rewrite chars_str.
  induction 1 as [|c a Hc _ IH]; simpl; [reflexivity|].
  destruct (digit_not_sign c Hc) as [E _].
  rewrite IH, orb_false_r. destruct c as [[] [] [] [] [] [] [] []]; try discriminate Hc; reflexivity.
Qed.

(** A range: two amounts joined by a hyphen. *)
Lemma parse_amount_body_range (lo hi : string) :
  amount_text lo -> amount_text hi -> digits_of lo <> [] -> digits_of hi <> [] ->
  RealDataScraper._parse_amount_body (lo ++ "-" ++ hi)
  = inr (Py.of_int (Py.digits_value (digits_of lo)),
         Py.of_int (Py.digits_value (digits_of hi))).
Proof.
  intros Hlo Hhi Nlo Nhi. unfold RealDataScraper._parse_amount_body.
  fold (clean (Py.chars (lo ++ "-" ++ hi))).
  rewrite !chars_app, !clean_app, (clean_amount_text lo Hlo), (clean_amount_text hi Hhi).
  change (clean (Py.chars "-")) with ["-"%char]. simpl app.
  rewrite contains_hyphen. unfold Py.split. rewrite chars_str.
  rewrite (split_on_digits _ _ (digits_digits_of lo) (digits_digits_of hi)).
  simpl nth. rewrite !truthy_str.
  rewrite (float_digits _ (digits_digits_of lo) Nlo), (float_digits _ (digits_digits_of hi) Nhi).
  destruct (digits_of lo); [congruence|]. destruct (digits_of hi); [congruence|].
  reflexivity.
Qed.

(** A single amount. *)
Lemma parse_amount_body_bare (a : string) :
  amount_text a -> digits_of a <> [] ->
  RealDataScraper._parse_amount_body a
  = inr (Py.of_int (Py.digits_value (digits_of a)),
         Py.of_int (Py.digits_value (digits_of a))).
Proof.
  intros Ha Na. unfold RealDataScraper._parse_amount_body.
  fold (clean (Py.chars a)). rewrite (clean_amount_text a Ha).
  rewrite (no_hyphen_digits _ (digits_digits_of a)), truthy_str.
  rewrite (float_digits _ (digits_digits_of a) Na).
  destruct (digits_of a); [congruence | reflexivity].
Qed.

(** What the collector's parser passes to [float]: the text without
    dollar signs and commas. *)
Lemma collector_cleaned (s : string) :
  Py.replace_char "," "" (Py.replace_char "$" "" s)
  = Py.str (List.filter (fun c => negb (Ascii.eqb c "$" || Ascii.eqb c ",")) (Py.chars s)).
Proof.
  unfold Py.replace_char. rewrite chars_str. f_equal.
  change (Py.chars "") with (@nil ascii).
  induction (Py.chars s) as [|c l IH]; [reflexivity|].
  simpl. destruct (Ascii.eqb c "$"); simpl; [exact IH|].
  destruct (Ascii.eqb c ","); simpl; [exact IH | now rewrite IH].
Qed.

Lemma strip_amount_text s :
  amount_text s ->
  List.filter (fun c => negb (Ascii.eqb c "$" || Ascii.eqb c ",")) (Py.chars s) = digits_of s.
Proof.
  unfold amount_text, digits_of.
  induction 1 as [|c l Hc _ IH]; [reflexivity|].
  destruct Hc as [Hc | [-> | ->]]; simpl; try exact IH.
  assert (Ascii.eqb c "$" = false /\ Ascii.eqb c "," = false) as [-> ->].
  { clear -Hc. destruct c as [[] [] [] [] [] [] [] []]; try discriminate Hc; split; reflexivity. }
  simpl. now rewrite Hc, IH.
Qed.

Lemma truthy_amount_text s : digits_of s <> [] -> Py.truthy s = true.
Proof. destruct s; [intros H; now contradiction H | reflexivity]. Qed.

(** The collector's parser on a single amount. *)
Lemma collector_parse_amount_bare (a : string) :
  amount_text a -> digits_of a <> [] ->
  CongressDataCollector._parse_amount a
  = Some (Py.of_int (Py.digits_value (digits_of a))).
Proof.
  intros Ha Na. unfold CongressDataCollector._parse_amount.
  rewrite (truthy_amount_text a Na). cbn [negb].
  rewrite collector_cleaned, (strip_amount_text a Ha).
  apply float_digits; [apply digits_digits_of | exact Na].
Qed.

Lemma digits_tail_hyphen a rest :
  digits a -> Py.digits_tail (a ++ "-"%char :: rest) = (a, "-"%char :: rest).
Proof.
  induction 1 as [|c a Hc _ IH]; [reflexivity|].
  cbn [app Py.digits_tail]. now rewrite Hc, IH.
Qed.

Lemma digits_rev l : digits l -> digits (rev l).
Proof.
  unfold digits. rewrite !List.Forall_forall. intros H x Hx. apply H. now apply in_rev.
Qed.

Lemma lstrip_digit_first l r : digits l -> l <> [] -> Py.lstrip (l ++ r) = (l ++ r)%list.
Proof.
  intros [|c l' Hc _] N; [congruence|].
  cbn [app Py.lstrip]. now rewrite (digit_not_space c Hc).
Qed.

Lemma strip_range a b :
  digits a -> digits b -> a <> [] -> b <> [] ->
  Py.strip (a ++ "-"%char :: b) = (a ++ "-"%char :: b)%list.
Proof.
  intros Ha Hb Na Nb. unfold Py.strip.
  rewrite (lstrip_digit_first a _ Ha Na).
  replace (rev (a ++ "-"%char :: b)) with (rev b ++ "-"%char :: rev a)%list.
  - rewrite (lstrip_digit_first (rev b) _ (digits_rev b Hb)).
    + rewrite rev_app_distr. cbn [rev]. rewrite !rev_involutive, <- app_assoc. reflexivity.
    + intros E. apply Nb. rewrite <- (rev_involutive b), E. reflexivity.
  - rewrite rev_app_distr. cbn [rev]. now rewrite <- app_assoc.
Qed.

(** Two runs of digits joined by a hyphen are not a float literal. *)
Lemma float_range a b :
  digits a -> digits b -> a <> [] -> b <> [] ->
  Py.float (Py.str (a ++ "-"%char :: b)) = None.
Proof.
  intros Ha Hb Na Nb. unfold Py.float. rewrite chars_str, (strip_range a b Ha Hb Na Nb).
  pose proof (digits_tail_hyphen) as T.
  destruct Ha as [|c a Hc Ha]; [congruence|].
  destruct (digit_not_sign c Hc) as [E1 E2].
  destruct (digit_not_letter c Hc) as (E3 & E4 & E5).
  cbn [app]. unfold Py.read_sign. rewrite E1, E2. simpl map. rewrite E3.
  unfold Py.str. simpl string_of_list_ascii. cbn [String.eqb]. rewrite E4, E5. simpl orb. cbv iota.
  unfold Py.read_decimal, Py.read_mantissa, Py.digitpart.
  rewrite Hc, (T a b Ha). reflexivity.
Qed.

(** The collector's parser on a range. *)
Lemma collector_parse_amount_range (lo hi : string) :
  amount_text lo -> amount_text hi -> digits_of lo <> [] -> digits_of hi <> [] ->
  CongressDataCollector._parse_amount (lo ++ "-" ++ hi) = None.
Proof.
  intros Hlo Hhi Nlo Nhi. unfold CongressDataCollector._parse_amount.
  assert (T : Py.truthy (lo ++ "-" ++ hi) = true).
  { destruct lo; [now contradiction Nlo | reflexivity]. }
  rewrite T. cbn [negb]. rewrite collector_cleaned, !chars_app, !List.filter_app.
  rewrite (strip_amount_text lo Hlo), (strip_amount_text hi Hhi).
  apply float_range; auto using digits_digits_of.
Qed.

(** ** C2: amount parsing *)

(** C2, as stated, fails: a text that is not an amount does not leave the
    amount columns unset in the scraper, which stores zero for both; and
    the collector's parser, which reads one column at a time, does not
    read a range. *)
Lemma c2_garbage_amount_stored_as_zero :
  let s := exec (RealDataScraper._save_trade Sample.offline "John Doe" "AAPL" "P" "N/A")
                (new_session empty_db) in
  map (fun t => (amount_min t, amount_max t)) (trades (db s))
    = [(Some (Py.of_int 0), Some (Py.of_int 0))]
  /\ map (fun t => (amount_min t, amount_max t)) (trades (db s)) <> [(None, None)]
  /\ CongressDataCollector._parse_amount "1,000-5,000" = None.
Proof. vm_compute. repeat split. discriminate. Qed.

(** C2 (amended): the scraper's [_parse_amount] reads a range of two
    amounts (digits with dollar signs and commas) joined by a hyphen as
    the pair of their values, so "1,000-5,000" gives 1000 and 5000; it
    reads a single amount as that value twice, so "$2500" gives 2500 and
    2500; on a text without digits it returns zero for both; and it
    returns a pair on every text.  The collector's [_parse_amount],
    which reads one column, gives the value of a single amount, so
    "$2500" gives 2500, and nothing for the empty text, for a text that
    is not a number and for every range. *)
Theorem parse_amount_spec :
  (forall lo hi st,
     amount_text lo -> amount_text hi -> digits_of lo <> [] -> digits_of hi <> [] ->
     RealDataScraper._parse_amount (lo ++ "-" ++ hi) st
     = (inr (Py.of_int (Py.digits_value (digits_of lo)),
             Py.of_int (Py.digits_value (digits_of hi))), st)) /\
  (forall st, RealDataScraper._parse_amount "1,000-5,000" st
              = (inr (Py.of_int 1000, Py.of_int 5000), st)) /\
  (forall a st,
     amount_text a -> digits_of a <> [] ->
     RealDataScraper._parse_amount a st
     = (inr (Py.of_int (Py.digits_value (digits_of a)),
             Py.of_int (Py.digits_value (digits_of a))), st)) /\
  (forall st, RealDataScraper._parse_amount "$2500" st
              = (inr (Py.of_int 2500, Py.of_int 2500), st)) /\
  (forall s st, digit_free s ->
     (RealDataScraper._parse_amount s st).1 = inr (Py.of_int 0, Py.of_int 0)) /\
  (forall s st, exists r, (RealDataScraper._parse_amount s st).1 = inr r) /\
  (forall a, amount_text a -> digits_of a <> [] ->
     CongressDataCollector._parse_amount a
     = Some (Py.of_int (Py.digits_value (digits_of a)))) /\
  (forall lo hi,
     amount_text lo -> amount_text hi -> digits_of lo <> [] -> digits_of hi <> [] ->
     CongressDataCollector._parse_amount (lo ++ "-" ++ hi) = None) /\
  CongressDataCollector._parse_amount "$2500" = Some (Py.of_int 2500) /\
  CongressDataCollector._parse_amount "" = None /\
  CongressDataCollector._parse_amount "N/A" = None /\
  CongressDataCollector._parse_amount "1,000-5,000" = None.
Proof.
  repeat split; try reflexivity.
  - intros lo hi st H1 H2 H3 H4. unfold RealDataScraper._parse_amount.
    now rewrite parse_amount_body_range.
  - intros a st H1 H2. unfold RealDataScraper._parse_amount.
    now rewrite parse_amount_body_bare.
  - intros s st. apply scraper_parse_amount_digit_free.
  - intros s st. apply scraper_parse_amount_total.
  - apply collector_parse_amount_bare.
  - apply collector_parse_amount_range.
Qed.

Lemma parse_amount_spec_witness :
  (amount_text "$1,001" /\ amount_text "$15,000"
   /\ digits_of "$1,001" <> [] /\ digits_of "$15,000" <> []
   /\ RealDataScraper._parse_amount ("$1,001" ++ "-" ++ "$15,000") (new_session empty_db)
      = (inr (Py.of_int 1001, Py.of_int 15000), new_session empty_db))
  /\ (digit_free "N/A"
      /\ (RealDataScraper._parse_amount "N/A" (new_session empty_db)).1
         = inr (Py.of_int 0, Py.of_int 0)).
Proof.
  assert (T1 : amount_text "$1,001") by (repeat constructor; auto).
  assert (T2 : amount_text "$15,000") by (repeat constructor; auto).
  assert (D1 : digits_of "$1,001" <> []) by discriminate.
  assert (D2 : digits_of "$15,000" <> []) by discriminate.
  assert (F : digit_free "N/A") by (repeat constructor).
  refine (conj (conj T1 (conj T2 (conj D1 (conj D2 _)))) (conj F _)).
  - exact (proj1 parse_amount_spec "$1,001" "$15,000" (new_session empty_db) T1 T2 D1 D2).
  - exact (proj1 (proj2 (proj2 (proj2 (proj2 parse_amount_spec)))) "N/A" (new_session empty_db) F).
Defined.

(** ** The query service *)

Lemma offset_limit_length {A} (skip limit : Z) (l : list A) :
  0 <= limit -> Z.of_nat (length (Sql.offset_limit skip limit l)) <= limit.
Proof. intros H. unfold Sql.offset_limit. rewrite length_take. lia. Qed.

(** A listing handler: the two pagination parameters are validated, then
    one statement is run, whose rows are cut to the limit. *)
Lemma paginated_spec {B} (body : Z -> Z -> Db -> list B)
      (skip limit : option Z) (s : session) :
  (forall sk lim d, 0 <= lim -> Z.of_nat (length (body sk lim d)) <= lim) ->
  let handler :=
    (let* skip := Query 0 (Some 0) None skip in
     let* limit := Query 100 (Some 1) (Some 1000) limit in
     query (body skip limit)) in
  (forall n, limit = Some n -> 1000 < n -> handler s = (inl RequestValidationError, s)) /\
  (forall out, (handler s).1 = inr out -> Z.of_nat (length out) <= default 100 limit).
Proof.
  intros Hbody. cbv zeta. unfold bind, Query, raise, ret, query. split.
  - intros n -> Hn. change (default 100 (Some n)) with n.
    replace (n <=? 1000) with false by (symmetry; apply Z.leb_gt; lia).
    rewrite andb_false_r.
    destruct ((0 <=? default 0 skip) && true)%bool; reflexivity.
  - intros out. destruct ((0 <=? default 0 skip) && true)%bool; [|discriminate].
    destruct ((1 <=? default 100 limit) && _)%bool eqn:E; [|discriminate].
    simpl. intros [= <-].
    apply Hbody. apply andb_true_iff in E as [E _]. apply Z.leb_le in E. lia.
Qed.

(** C5: each of the three listings (trades, members, committees)
    returns at most [limit] rows (100 when the limit is omitted), and a
    limit above 1000 is refused with a validation error before any
    statement runs. *)
Theorem listing_limit_bound :
  forall (skip limit : option Z) (s : session),
    (forall member_id chamber party ticker transaction_type start_date end_date
            min_amount max_amount,
        let handler := Trades.get_trades skip limit member_id chamber party ticker
                         transaction_type start_date end_date min_amount max_amount in
        (forall n, limit = Some n -> 1000 < n -> handler s = (inl RequestValidationError, s)) /\
        (forall out, (handler s).1 = inr out -> Z.of_nat (length out) <= default 100 limit)) /\
    (forall chamber party state has_trades,
        let handler := Members.get_members skip limit chamber party state has_trades in
        (forall n, limit = Some n -> 1000 < n -> handler s = (inl RequestValidationError, s)) /\
        (forall out, (handler s).1 = inr out -> Z.of_nat (length out) <= default 100 limit)) /\
    (forall chamber subcommittee,
        let handler := Committees.get_committees skip limit chamber subcommittee in
        (forall n, limit = Some n -> 1000 < n -> handler s = (inl RequestValidationError, s)) /\
        (forall out, (handler s).1 = inr out -> Z.of_nat (length out) <= default 100 limit)).
Proof.
  intros skip limit s. split; [|split]; intros.
  - unfold handler, Trades.get_trades. apply paginated_spec.
    intros sk lim d Hlim. rewrite length_map. now apply offset_limit_length.
  - unfold handler, Members.get_members. apply paginated_spec.
    intros sk lim d Hlim. now apply offset_limit_length.
  - unfold handler, Committees.get_committees. apply paginated_spec.
    intros sk lim d Hlim. now apply offset_limit_length.
Qed.

Lemma listing_limit_bound_witness :
  (Trades.get_trades None (Some 5000) None None None None None None None None None
     Sample.collected = (inl RequestValidationError, Sample.collected))
  /\ (forall out,
        (Members.get_members None (Some 1) None None None None Sample.collected).1 = inr out ->
        Z.of_nat (length out) <= 1)
  /\ (Committees.get_committees None (Some 1001) None None Sample.collected
      = (inl RequestValidationError, Sample.collected)).
Proof.
  split; [|split].
  - apply (proj1 (listing_limit_bound None (Some 5000) Sample.collected)) with (n := 5000);
      [reflexivity | lia].
  - exact (proj2 (proj1 (proj2 (listing_limit_bound None (Some 1) Sample.collected))
                    None None None None)).
  - apply (proj2 (proj2 (listing_limit_bound None (Some 1001) Sample.collected)))
      with (n := 1001); [reflexivity | lia].
Defined.

(** C10: in the trade listing a [member_id] of zero, a [min_amount] of
    zero and a [max_amount] of zero are each treated as if the parameter
    were omitted: whatever the store and the other parameters, the
    handler does exactly what it does without the parameter. *)
Theorem get_trades_zero_is_omitted :
  forall skip limit member_id chamber party ticker transaction_type start_date end_date
         min_amount max_amount (s : session),
    Trades.get_trades skip limit (Some 0) chamber party ticker transaction_type
      start_date end_date min_amount max_amount s
    = Trades.get_trades skip limit None chamber party ticker transaction_type
        start_date end_date min_amount max_amount s
    /\ (forall q, (q == 0)%Q ->
        Trades.get_trades skip limit member_id chamber party ticker transaction_type
          start_date end_date (Some (Py.PFin q)) max_amount s
        = Trades.get_trades skip limit member_id chamber party ticker transaction_type
            start_date end_date None max_amount s)
    /\ (forall q, (q == 0)%Q ->
        Trades.get_trades skip limit member_id chamber party ticker transaction_type
          start_date end_date min_amount (Some (Py.PFin q)) s
        = Trades.get_trades skip limit member_id chamber party ticker transaction_type
            start_date end_date min_amount None s).
Proof.
  intros. split; [reflexivity|].
  assert (Z0 : forall q, (q == 0)%Q -> truthy_float (Some (Py.PFin q)) = false).
  { intros q Hq. simpl. apply (proj2 (Qeq_bool_iff q 0)) in Hq. now rewrite Hq. }
  split; intros q Hq; unfold Trades.get_trades; rewrite (Z0 q Hq); reflexivity.
Qed.

Lemma get_trades_zero_is_omitted_witness :
  ((0 # 7) == 0)%Q /\
  Trades.get_trades None None (Some 1) (Some "Senate") None (Some "aapl") None None None
    (Some (Py.PFin (0 # 7))) (Some (Py.of_int 20000)) Sample.collected
  = Trades.get_trades None None (Some 1) (Some "Senate") None (Some "aapl") None None None
      None (Some (Py.of_int 20000)) Sample.collected.
Proof.
  assert (H : ((0 # 7) == 0)%Q) by reflexivity.
  refine (conj H _).
  exact (proj1 (proj2 (get_trades_zero_is_omitted None None (Some 1) (Some "Senate") None
                         (Some "aapl") None None None None (Some (Py.of_int 20000))
                         Sample.collected)) (0 # 7) H).
Defined.

Example get_trades_filters :
  sum_map id (map trade_id_)
    (Trades.get_trades None None (Some 1) (Some "Senate") None (Some "aapl") None None None
       (Some (Py.of_int 0)) (Some (Py.of_int 20000)) Sample.collected).1
  = inr [1; 4].
Proof. vm_compute. reflexivity. Qed.

(** C7: when the chamber in the path, lower-cased, is neither house nor
    senate, the lookup of members by chamber answers with status 400 and
    leaves the session as it was: no statement has been executed and the
    store is unchanged.  (With pagination parameters out of bounds the
    request is refused as well, by validation, the session equally
    untouched.) *)
Theorem by_chamber_invalid_rejected :
  forall (chamber : string) (s : session),
    Py.lower chamber <> "house" -> Py.lower chamber <> "senate" ->
    (forall skip limit,
        0 <= default 0 skip -> 1 <= default 100 limit <= 1000 ->
        Members.get_members_by_chamber chamber skip limit s
        = (inl (HTTPException 400 "Chamber must be 'House' or 'Senate'"), s)) /\
    (forall skip limit,
        exists e, Members.get_members_by_chamber chamber skip limit s = (inl e, s)).
Proof.
  intros chamber s H1 H2.
  assert (E : existsb (String.eqb (Py.lower chamber)) ["house"; "senate"] = false).
  { simpl. apply String.eqb_neq in H1, H2. now rewrite H1, H2. }
  split.
  - intros skip limit Hs Hl. unfold Members.get_members_by_chamber, bind, Query.
    replace (0 <=? default 0 skip) with true by (symmetry; apply Z.leb_le; lia).
    replace (1 <=? default 100 limit) with true by (symmetry; apply Z.leb_le; lia).
    replace (default 100 limit <=? 1000) with true by (symmetry; apply Z.leb_le; lia).
    rewrite E. reflexivity.
  - intros skip limit. unfold Members.get_members_by_chamber, bind, Query.
    rewrite E.
    destruct (_ && _)%bool; [|simpl; eauto].
    destruct (_ && _)%bool; simpl; eauto.
Qed.

Lemma by_chamber_invalid_rejected_witness :
  Py.lower "XYZ" <> "house" /\ Py.lower "XYZ" <> "senate" /\
  Members.get_members_by_chamber "XYZ" None (Some 10) Sample.collected
  = (inl (HTTPException 400 "Chamber must be 'House' or 'Senate'"), Sample.collected).
Proof.
  assert (H1 : Py.lower "XYZ" <> "house") by discriminate.
  assert (H2 : Py.lower "XYZ" <> "senate") by discriminate.
  refine (conj H1 (conj H2 _)).
  apply (proj1 (by_chamber_invalid_rejected "XYZ" Sample.collected H1 H2)); simpl; lia.
Defined.

Example by_chamber_valid :
  sum_map id (map name) (Members.get_members_by_chamber "SENATE" None None Sample.collected).1
  = inr ["Jane Roe"]
  /\ statements (Members.get_members_by_chamber "SENATE" None None Sample.collected).2
     = S (statements Sample.collected).
Proof. vm_compute. split; reflexivity. Qed.

(** ** Patterns *)

Lemma like_percent_nil eqc p :
  Sql.like_chars eqc ("%"%char :: p) [] = Sql.like_chars eqc p [].
Proof. simpl. apply orb_false_r. Qed.

Lemma like_percent_cons eqc p c s :
  Sql.like_chars eqc ("%"%char :: p) (c :: s)
  = (Sql.like_chars eqc p (c :: s) || Sql.like_chars eqc ("%"%char :: p) s)%bool.
Proof. reflexivity. Qed.

(** A pattern that ends in a percent sign matches the text it starts with. *)
Lemma like_self_percent l : Sql.like_chars Ascii.eqb (l ++ ["%"%char])%list l = true.
Proof.
  induction l as [|c l IH].
  - reflexivity.
  - change ((c :: l) ++ ["%"%char])%list with (c :: (l ++ ["%"%char]))%list.
    destruct (Ascii.eqb c "%") eqn:E.
    + apply Ascii.eqb_eq in E. subst c.
      rewrite like_percent_cons.
      assert (H : Sql.like_chars Ascii.eqb ("%"%char :: (l ++ ["%"%char]))%list l = true).
      { destruct l as [|d l']; [reflexivity|].
        rewrite like_percent_cons, IH. reflexivity. }
      rewrite H. apply orb_true_r.
    + cbn [Sql.like_chars]. rewrite E, Ascii.eqb_refl, orb_true_r. exact IH.
Qed.

Lemma lower_app a b : Py.lower (a ++ b) = Py.lower a ++ Py.lower b.
Proof.
  unfold Py.lower. rewrite chars_app, map_app.
  generalize (map Py.lower_char (Py.chars a)) as x.
  generalize (map Py.lower_char (Py.chars b)) as y.
  intros y x. induction x as [|c x IH]; simpl; [reflexivity | now rewrite IH].
Qed.

(** A name is like the pattern made of it between two percent signs. *)
Lemma ilike_self (n : string) : Sql.ilike n ("%" ++ n ++ "%") = true.
Proof.
  unfold Sql.ilike. rewrite !lower_app, !chars_app.
  change (Py.chars (Py.lower "%")) with ["%"%char]. simpl app.
  destruct (Py.chars (Py.lower n)) as [|c l].
  - reflexivity.
  - rewrite like_percent_cons.
    change (c :: l ++ ["%"%char])%list with ((c :: l) ++ ["%"%char])%list.
    rewrite like_self_percent. reflexivity.
Qed.

Lemma find_app_none {A} (f : A -> bool) (l : list A) (x : A) :
  List.find f l = None -> List.find f (l ++ [x])%list = if f x then Some x else None.
Proof.
  induction l as [|y l IH]; simpl; [reflexivity|].
  destruct (f y); [discriminate | exact IH].
Qed.

Lemma find_app_some {A} (f : A -> bool) (l l' : list A) (m : A) :
  List.find f l = Some m -> List.find f (l ++ l')%list = Some m.
Proof.
  induction l as [|y l IH]; simpl; [discriminate|].
  destruct (f y); [trivial | exact IH].
Qed.

(** ** Loops and handlers *)

(** A [try] whose handler only logs never lets an exception out. *)
Lemma try_except_log_returns (c : M unit) (msg : string) (s : session) :
  (try_except c (fun e => logger_error msg e) s).1 = inr tt.
Proof.
  unfold try_except. destruct (c s) as [[e|[]] s']; reflexivity.
Qed.

Lemma for_each_returns {A} (body : A -> M unit) (xs : list A) :
  (forall x s, (body x s).1 = inr tt) ->
  forall s, (for_each xs body s).1 = inr tt.
Proof.
  intros H. induction xs as [|x xs IH]; intros s; [reflexivity|].
  simpl. unfold bind. specialize (H x s). destruct (body x s) as [[e|[]] s']; simpl in H.
  - discriminate H.
  - apply IH.
Qed.

Lemma exec_for_each_cons {A} (body : A -> M unit) (x : A) (xs : list A) (s : session) :
  (body x s).1 = inr tt ->
  exec (for_each (x :: xs) body) s = exec (for_each xs body) (exec (body x) s).
Proof.
  intros H. unfold exec. simpl. unfold bind.
  destruct (body x s) as [[e|[]] s']; simpl in H; [discriminate H | reflexivity].
Qed.

Lemma exec_for_each_app {A} (body : A -> M unit) (xs ys : list A) :
  (forall x s, (body x s).1 = inr tt) ->
  forall s, exec (for_each (xs ++ ys) body) s
            = exec (for_each ys body) (exec (for_each xs body) s).
Proof.
  intros H. induction xs as [|x xs IH]; intros s; [reflexivity|].
  change ((x :: xs) ++ ys)%list with (x :: (xs ++ ys))%list.
  rewrite !exec_for_each_cons by apply H. apply IH.
Qed.

(** ** The structured feed *)

Section SenateFeed.
Variable fromisoformat : string -> option datetime.
Variable w : World.

Local Abbreviation save := (CongressDataCollector._save_senate_trade fromisoformat).

Lemma save_senate_trade_returns r s : (save r s).1 = inr tt.
Proof. apply try_except_log_returns. Qed.

Lemma save_senate_trade_members r s :
  members (db (exec (save r) s))
  = if Py.truthy (get r "senator" "") then (resolved r (db s)).2 else members (db s).
Proof.
  unfold exec, CongressDataCollector._save_senate_trade, try_except,
    CongressDataCollector._save_senate_trade_body, resolved.
  destruct (Py.truthy (get r "senator" "")); [|reflexivity].
  unfold bind, query, negb. cbn [db].
  destruct (CongressDataCollector.senator_by_name _ (db s)) as [m|];
    unfold CongressDataCollector.parse_datetime, of_option, add_member, ret, raise;
    cbn -[Py.replace_char Py.truthy_opt get];
    destruct (fromisoformat _); cbn -[Py.replace_char Py.truthy_opt get]; try reflexivity;
    destruct (Py.truthy_opt _); cbn -[Py.replace_char Py.truthy_opt get]; try reflexivity;
    destruct (fromisoformat _); reflexivity.
Qed.

Lemma save_senate_trade_trades r s :
  if storable fromisoformat r then
    exists t, trades (db (exec (save r) s)) = (trades (db s) ++ [t])%list
              /\ member_id t = member_id_ (resolved r (db s)).1
              /\ Some (transaction_date t, filing_date t) = dates_of fromisoformat r
  else trades (db (exec (save r) s)) = trades (db s).
Proof.
  unfold storable, dates_of, parse_iso, exec, CongressDataCollector._save_senate_trade,
    try_except, CongressDataCollector._save_senate_trade_body, resolved.
  destruct (Py.truthy (get r "senator" "")); [|reflexivity].
  unfold bind, query, negb. cbn [db andb].
  destruct (CongressDataCollector.senator_by_name _ (db s)) as [m|];
    unfold CongressDataCollector.parse_datetime, of_option, add_member, add_trade, ret, raise;
    cbn -[Py.replace_char Py.truthy_opt get];
    destruct (fromisoformat _); cbn -[Py.replace_char Py.truthy_opt get]; try reflexivity;
    destruct (Py.truthy_opt _); cbn -[Py.replace_char Py.truthy_opt get]; eauto;
    destruct (fromisoformat _); cbn -[Py.replace_char Py.truthy_opt get]; eauto.
Qed.

Lemma save_senate_trade_committed r s : committed (exec (save r) s) = committed s.
Proof.
  unfold exec, CongressDataCollector._save_senate_trade, try_except,
    CongressDataCollector._save_senate_trade_body.
  destruct (Py.truthy (get r "senator" "")); [|reflexivity].
  unfold bind, query, negb. cbn [db].
  destruct (CongressDataCollector.senator_by_name _ (db s)) as [m|];
    unfold CongressDataCollector.parse_datetime, of_option, add_member, ret, raise;
    cbn -[Py.replace_char Py.truthy_opt get];
    destruct (fromisoformat _); cbn -[Py.replace_char Py.truthy_opt get]; try reflexivity;
    destruct (Py.truthy_opt _); cbn -[Py.replace_char Py.truthy_opt get]; try reflexivity;
    destruct (fromisoformat _); reflexivity.
Qed.

(** The member a record resolves to is found again by the same name
    once the record has been handled. *)
Lemma resolved_found r d :
  let '(m, ms) := resolved r d in
  CongressDataCollector.senator_by_name (get r "senator" "")
    {| members := ms; trades := trades d; committees := committees d |} = Some m.
Proof.
  unfold resolved.
  destruct (CongressDataCollector.senator_by_name _ d) as [m|] eqn:E.
  - exact E.
  - unfold CongressDataCollector.senator_by_name in *. cbn [members].
    rewrite (find_app_none _ _ _ E). cbn [name chamber].
    now rewrite ilike_self.
Qed.

Lemma senator_by_name_members n d d' :
  members d = members d' ->
  CongressDataCollector.senator_by_name n d = CongressDataCollector.senator_by_name n d'.
Proof. unfold CongressDataCollector.senator_by_name. now intros ->. Qed.

Lemma batch_returns data s : (for_each data save s).1 = inr tt.
Proof. apply for_each_returns. apply save_senate_trade_returns. Qed.

(** A batch stores one trade for each of its storable records. *)
Lemma batch_trade_count data :
  forall s,
    length (trades (db (exec (for_each data save) s)))
    = (length (trades (db s)) + length (List.filter (storable fromisoformat) data))%nat.
Proof.
  induction data as [|r data IH]; intros s; [unfold exec; simpl; lia|].
  rewrite exec_for_each_cons by apply save_senate_trade_returns.
  rewrite IH. pose proof (save_senate_trade_trades r s) as H.
  cbn [List.filter]. destruct (storable fromisoformat r).
  - destruct H as (t & -> & _). rewrite length_app. cbn [length]. lia.
  - rewrite H. lia.
Qed.

(** Handling a record only appends to the members. *)
Lemma save_senate_trade_appends r s :
  exists extra,
    members (db (exec (CongressDataCollector._save_senate_trade fromisoformat r) s))
    = (members (db s) ++ extra)%list.
Proof.
  rewrite save_senate_trade_members. unfold resolved.
  destruct (Py.truthy _); [|exists []; now rewrite app_nil_r].
  destruct (CongressDataCollector.senator_by_name _ _); cbn [snd];
    [exists []; now rewrite app_nil_r | eauto].
Qed.

Lemma batch_appends data :
  forall s, exists extra,
    members (db (exec (for_each data (CongressDataCollector._save_senate_trade fromisoformat)) s))
    = (members (db s) ++ extra)%list.
Proof.
  induction data as [|r data IH]; intros s.
  - exists []. now rewrite app_nil_r.
  - rewrite exec_for_each_cons by apply save_senate_trade_returns.
    destruct (IH (exec (CongressDataCollector._save_senate_trade fromisoformat r) s))
      as (x2 & E2).
    destruct (save_senate_trade_appends r s) as (x1 & E1).
    exists (x1 ++ x2)%list. now rewrite E2, E1, app_assoc.
Qed.

(** A senator found before a batch is found after it. *)
Lemma batch_keeps_senator data n m s :
  CongressDataCollector.senator_by_name n (db s) = Some m ->
  CongressDataCollector.senator_by_name n
    (db (exec (for_each data (CongressDataCollector._save_senate_trade fromisoformat)) s))
  = Some m.
Proof.
  intros F. destruct (batch_appends data s) as (extra & E).
  unfold CongressDataCollector.senator_by_name in *. rewrite E.
  now apply find_app_some.
Qed.

End SenateFeed.

(** ** The disclosure scraper *)

Section HouseScraper.
Variable w : World.

Lemma save_trade_spec member_name ticker_ transaction_type_ amount s :
  let s' := exec (RealDataScraper._save_trade w member_name ticker_ transaction_type_ amount) s in
  members (db s') = (resolved_by_name member_name (db s)).2 /\
  exists t, trades (db s') = (trades (db s) ++ [t])%list
            /\ member_id t = member_id_ (resolved_by_name member_name (db s)).1
            /\ ticker t = ticker_
            /\ transaction_date t = utcnow w - timedelta_days 30.
Proof.
  unfold exec, RealDataScraper._save_trade, try_except, resolved_by_name.
  unfold bind, query. cbn [db].
  destruct (RealDataScraper.member_by_name member_name (db s)) as [m|];
    unfold RealDataScraper._parse_amount, add_member, add_trade, ret, raise, bind;
    destruct (RealDataScraper._parse_amount_body amount) as [e|[lo hi]];
    cbn; eauto 10.
Qed.

Lemma resolved_by_name_found n d :
  let '(m, ms) := resolved_by_name n d in
  RealDataScraper.member_by_name n
    {| members := ms; trades := trades d; committees := committees d |} = Some m.
Proof.
  unfold resolved_by_name.
  destruct (RealDataScraper.member_by_name n d) as [m|] eqn:E.
  - exact E.
  - unfold RealDataScraper.member_by_name in *. cbn [members].
    rewrite (find_app_none _ _ _ E). cbn [name].
    now rewrite ilike_self.
Qed.

Lemma member_by_name_members n d d' :
  members d = members d' ->
  RealDataScraper.member_by_name n d = RealDataScraper.member_by_name n d'.
Proof. unfold RealDataScraper.member_by_name. now intros ->. Qed.

Lemma save_row_returns row s : (save_row w row s).1 = inr tt.
Proof. destruct row as [[[n tk] ty] a]. apply try_except_log_returns. Qed.

Lemma rows_append rows :
  forall s, exists extra,
    members (db (exec (for_each rows (save_row w)) s)) = (members (db s) ++ extra)%list.
Proof.
  induction rows as [|[[[n tk] ty] a] rows IH]; intros s.
  - exists []. now rewrite app_nil_r.
  - rewrite exec_for_each_cons by apply save_row_returns.
    destruct (IH (exec (save_row w (n, tk, ty, a)) s)) as (x2 & E2).
    destruct (save_trade_spec n tk ty a s) as (E1 & _).
    cbn [save_row] in *. rewrite E2, E1. unfold resolved_by_name.
    destruct (RealDataScraper.member_by_name n (db s)); cbn [snd].
    + eauto.
    + rewrite <- app_assoc. eauto.
Qed.

(** A member found before a run of rows is found after it. *)
Lemma rows_keep_member rows n m s :
  RealDataScraper.member_by_name n (db s) = Some m ->
  RealDataScraper.member_by_name n (db (exec (for_each rows (save_row w)) s)) = Some m.
Proof.
  intros F. destruct (rows_append rows s) as (extra & E).
  unfold RealDataScraper.member_by_name in *. rewrite E.
  now apply find_app_some.
Qed.

End HouseScraper.

(** ** C1: records without a transaction date *)

(** C1, as stated, fails on the scraper: a scraped row carries no
    transaction date, and it is stored all the same, dated thirty days
    before the run. *)
Lemma c1_scraped_row_gets_default_date :
  let s0 := new_session empty_db in
  let s := exec (RealDataScraper._save_trade Sample.online
                   "John Doe" "AAPL" "P" "$1,001 - $15,000") s0 in
  length (trades (db s)) = S (length (trades (db s0))) /\
  map transaction_date (trades (db s)) = [utcnow Sample.online - timedelta_days 30] /\
  ~ (length (trades (db s)) <= length (trades (db s0)))%nat.
Proof. vm_compute. repeat split. lia. Qed.

(** C1 (amended): in the structured feed, a record whose transaction
    date is absent (the parser refusing the empty text) or cannot be
    parsed is not stored: the trades seen by the session and the
    committed rows are as before (a member may have been created for
    it).  The scraper, whose rows have no date, stores every row with
    the date thirty days before the run. *)
Theorem undated_record_not_stored :
  forall (fromisoformat : string -> option datetime) (w : World),
    (forall (trade_data : raw) (s : session),
        (trade_data !! "transaction_date" = None /\ fromisoformat "" = None) \/
        (exists d, trade_data !! "transaction_date" = Some d
                   /\ fromisoformat (Py.replace_char "Z" "+00:00" d) = None) ->
        let s' := exec (CongressDataCollector._save_senate_trade fromisoformat trade_data) s in
        trades (db s') = trades (db s) /\ committed s' = committed s) /\
    (forall member_name ticker_ transaction_type_ amount (s : session),
        exists t,
          trades (db (exec (RealDataScraper._save_trade w member_name ticker_
                              transaction_type_ amount) s))
          = (trades (db s) ++ [t])%list
          /\ transaction_date t = utcnow w - timedelta_days 30).
Proof.
  intros fromisoformat w. split.
  - intros r s H s'. split; [|apply save_senate_trade_committed].
    pose proof (save_senate_trade_trades fromisoformat r s) as T.
    assert (E : dates_of fromisoformat r = None).
    { unfold dates_of, parse_iso, get.
      destruct H as [[-> H] | (d & -> & H)]; cbn [default from_option id].
      - change (Py.replace_char "Z" "+00:00" "") with "". now rewrite H.
      - now rewrite H. }
    unfold storable in T. rewrite E in T.
    rewrite andb_false_r in T. exact T.
  - intros n tk ty a s.
    destruct (save_trade_spec w n tk ty a s) as (_ & t & Ht & _ & _ & Hd). eauto.
Qed.

Lemma undated_record_not_stored_witness :
  (Sample.undated_record !! "transaction_date" = None /\ Sample.date_only "" = None) /\
  trades (db (exec (CongressDataCollector._save_senate_trade Sample.date_only
                      Sample.undated_record) Sample.collected))
  = trades (db Sample.collected).
Proof.
  assert (H : Sample.undated_record !! "transaction_date" = None /\ Sample.date_only "" = None)
    by (split; reflexivity).
  refine (conj H _).
  exact (proj1 (proj1 (undated_record_not_stored Sample.date_only Sample.online)
                  Sample.undated_record Sample.collected (or_introl H))).
Defined.

Example misdated_record_not_stored :
  Sample.misdated_record !! "transaction_date" = Some "01/05/2024" /\
  let s := exec (CongressDataCollector._save_senate_trade Sample.date_only
                   Sample.misdated_record) (new_session empty_db) in
  trades (db s) = [] /\ map name (members (db s)) = ["Jane Roe"]
  /\ map text (log s) = ["Error saving Senate trade"].
Proof. vm_compute. repeat split. Qed.

(** ** C3: resolution of the legislator *)

(** C3: two records with the same subject name, handled in one
    session in either order and with any records of the same source in
    between, create at most one member: the first creates at most one,
    the second none, and the second is attached to the member the first
    was attached to.  In the structured feed the member is looked up by
    name (case-insensitive pattern) and chamber (Senate) and created in
    the Senate; in the scraper it is looked up by name and created in
    the House. *)
Theorem legislator_resolution_idempotent :
  forall (fromisoformat : string -> option datetime) (w : World),
    (forall (r1 r2 : raw) (between : list raw) (s : session),
        get r1 "senator" "" = get r2 "senator" "" ->
        let save := CongressDataCollector._save_senate_trade fromisoformat in
        let s1 := exec (save r1) s in
        let s1' := exec (for_each between save) s1 in
        let s2 := exec (save r2) s1' in
        (length (members (db s1)) <= S (length (members (db s))))%nat /\
        members (db s2) = members (db s1') /\
        (Py.truthy (get r1 "senator" "") = true ->
         exists m,
           CongressDataCollector.senator_by_name (get r1 "senator" "") (db s1) = Some m
           /\ CongressDataCollector.senator_by_name (get r2 "senator" "") (db s1') = Some m
           /\ Sql.ilike (name m) ("%" ++ get r2 "senator" "" ++ "%") = true
           /\ chamber m = "Senate"
           /\ (CongressDataCollector.senator_by_name (get r1 "senator" "") (db s) = None ->
               members (db s1) = (members (db s) ++ [m])%list
               /\ name m = get r1 "senator" "")
           /\ (trades (db s2) = trades (db s1') \/
               exists t, trades (db s2) = (trades (db s1') ++ [t])%list
                         /\ member_id t = member_id_ m))) /\
    (forall (n tk1 ty1 a1 tk2 ty2 a2 : string)
            (between : list (string * string * string * string)) (s : session),
        let s1 := exec (RealDataScraper._save_trade w n tk1 ty1 a1) s in
        let s1' := exec (for_each between (save_row w)) s1 in
        let s2 := exec (RealDataScraper._save_trade w n tk2 ty2 a2) s1' in
        (length (members (db s1)) <= S (length (members (db s))))%nat /\
        members (db s2) = members (db s1') /\
        exists m,
          RealDataScraper.member_by_name n (db s1) = Some m
          /\ RealDataScraper.member_by_name n (db s1') = Some m
          /\ Sql.ilike (name m) ("%" ++ n ++ "%") = true
          /\ (RealDataScraper.member_by_name n (db s) = None ->
              members (db s1) = (members (db s) ++ [m])%list
              /\ name m = n /\ chamber m = "House")
          /\ exists t, trades (db s2) = (trades (db s1') ++ [t])%list
                       /\ member_id t = member_id_ m).
Proof.
  intros fromisoformat w. split.
  - intros r1 r2 between s Hn save s1 s1' s2.
    pose proof (save_senate_trade_members fromisoformat r1 s) as M1.
    pose proof (save_senate_trade_members fromisoformat r2 s1') as M2.
    pose proof (save_senate_trade_trades fromisoformat r2 s1') as T2.
    fold save in M1, M2, T2. fold s1 in M1. fold s2 in M2, T2. rewrite <- Hn in M2.
    destruct (Py.truthy (get r1 "senator" "")) eqn:Et.
    2:{ rewrite M2, M1. repeat split; [lia | discriminate]. }
    pose proof (resolved_found r1 (db s)) as F.
    destruct (resolved r1 (db s)) as [m ms] eqn:R. cbn [snd] in M1.
    rewrite (senator_by_name_members _ _ (db s1)) in F by (now rewrite M1).
    pose proof (batch_keeps_senator fromisoformat between _ _ s1 F) as F'.
    fold save in F'. fold s1' in F'.
    assert (R2 : resolved r2 (db s1') = (m, members (db s1'))).
    { unfold resolved. rewrite <- Hn, F'. reflexivity. }
    rewrite R2 in M2, T2. cbn [fst snd] in M2, T2.
    split.
    { rewrite M1. unfold resolved in R.
      destruct (CongressDataCollector.senator_by_name _ (db s)); injection R as <- <-.
      - lia.
      - rewrite length_app. simpl. lia. }
    split; [exact M2|].
    intros _. exists m. rewrite <- Hn. split; [exact F|]. split; [exact F'|].
    pose proof F as Fm. unfold CongressDataCollector.senator_by_name in Fm.
    apply List.find_some in Fm as [_ Fm]. apply andb_true_iff in Fm as [F1 F2].
    apply String.eqb_eq in F2. split; [exact F1|]. split; [exact F2|]. split.
    + intros H. unfold resolved in R. rewrite H in R. injection R as <- <-.
      split; [now rewrite M1 | reflexivity].
    + destruct (storable fromisoformat r2).
      * right. destruct T2 as (t & T2 & Hid & _). eauto.
      * now left.
  - intros n tk1 ty1 a1 tk2 ty2 a2 between s s1 s1' s2.
    destruct (save_trade_spec w n tk1 ty1 a1 s) as (M1 & _).
    destruct (save_trade_spec w n tk2 ty2 a2 s1') as (M2 & t & T2 & Hid & _).
    fold s1 in M1. fold s2 in M2, T2.
    pose proof (resolved_by_name_found n (db s)) as F.
    destruct (resolved_by_name n (db s)) as [m ms] eqn:R. cbn [snd] in M1.
    rewrite (member_by_name_members _ _ (db s1)) in F by (now rewrite M1).
    pose proof (rows_keep_member w between _ _ s1 F) as F'. fold s1' in F'.
    assert (R2 : resolved_by_name n (db s1') = (m, members (db s1'))).
    { unfold resolved_by_name. rewrite F'. reflexivity. }
    rewrite R2 in M2, Hid. cbn [fst snd] in M2, Hid.
    split.
    { rewrite M1. unfold resolved_by_name in R.
      destruct (RealDataScraper.member_by_name n (db s)); injection R as <- <-.
      - lia.
      - rewrite length_app. simpl. lia. }
    split; [exact M2|].
    exists m. split; [exact F|]. split; [exact F'|].
    pose proof F as Fm. unfold RealDataScraper.member_by_name in Fm.
    apply List.find_some in Fm as [_ Fm]. split; [exact Fm|]. split.
    + intros H. unfold resolved_by_name in R. rewrite H in R. injection R as <- <-.
      repeat split. now rewrite M1.
    + eauto.
Qed.

Lemma legislator_resolution_idempotent_witness :
  get Sample.misdated_record "senator" "" = get Sample.good_record "senator" "" /\
  let save := CongressDataCollector._save_senate_trade Sample.date_only in
  let s1 := exec (save Sample.misdated_record) (new_session empty_db) in
  let s1' := exec (for_each [Sample.undated_record] save) s1 in
  let s2 := exec (save Sample.good_record) s1' in
  members (db s2) = members (db s1').
Proof.
  assert (H : get Sample.misdated_record "senator" "" = get Sample.good_record "senator" "")
    by reflexivity.
  refine (conj H _).
  exact (proj1 (proj2 (proj1 (legislator_resolution_idempotent Sample.date_only Sample.online)
                         Sample.misdated_record Sample.good_record [Sample.undated_record]
                         (new_session empty_db) H))).
Defined.

Example same_senator_twice :
  let s := exec (for_each [Sample.misdated_record; Sample.good_record; Sample.good_record]
                   (CongressDataCollector._save_senate_trade Sample.date_only))
                (new_session empty_db) in
  map (fun m => (member_id_ m, name m, chamber m)) (members (db s)) = [(1, "Jane Roe", "Senate")]
  /\ map member_id (trades (db s)) = [1; 1].
Proof. vm_compute. split; reflexivity. Qed.

(** ** C8: one record at a time *)

(** C8: while a batch of the structured feed is processed, an exception
    raised by a record is caught within that record: the loop over the
    batch never raises; what it does on the records after any record is
    what it does from the session that record left; a record that
    raises stores no trade and is logged; and the batch stores exactly
    one trade for each record that names a senator and has readable
    dates, whatever the other records are.  A file that is fetched is
    processed as its batch. *)
Theorem batch_fault_isolation :
  forall (fromisoformat : string -> option datetime) (w : World),
    let save := CongressDataCollector._save_senate_trade fromisoformat in
    (forall data s, (for_each data save s).1 = inr tt) /\
    (forall before r after s,
        exec (for_each (before ++ r :: after) save) s
        = exec (for_each after save) (exec (save r) (exec (for_each before save) s))) /\
    (forall r s e,
        (CongressDataCollector._save_senate_trade_body fromisoformat r s).1 = inl e ->
        trades (db (exec (save r) s)) = trades (db s)
        /\ exists l, log (exec (save r) s)
                     = (l ++ [{| lvl := ERROR; text := "Error saving Senate trade";
                                 cause := Some e |}])%list) /\
    (forall data s,
        length (trades (db (exec (for_each data save) s)))
        = (length (trades (db s)) + length (List.filter (storable fromisoformat) data))%nat) /\
    (forall url data s,
        senate_stock_file w url = Response 200 (Some data) ->
        CongressDataCollector._process_senate_file fromisoformat w url s
        = (inr tt, exec (for_each data save) s)).
Proof.
  intros fromisoformat w save. split; [|split; [|split; [|split]]].
  - intros. apply batch_returns.
  - intros before r after s.
    rewrite exec_for_each_app by apply save_senate_trade_returns.
    rewrite exec_for_each_cons by apply save_senate_trade_returns. reflexivity.
  - intros r s e H. split.
    + pose proof (save_senate_trade_trades fromisoformat r s) as T.
      unfold storable, dates_of, parse_iso in T. revert H T.
      unfold save, exec, CongressDataCollector._save_senate_trade, try_except,
        CongressDataCollector._save_senate_trade_body.
      destruct (Py.truthy (get r "senator" "")); [|discriminate].
      unfold bind, query, negb. cbn [db andb].
      destruct (CongressDataCollector.senator_by_name _ (db s)) as [m|];
        unfold CongressDataCollector.parse_datetime, of_option, add_member, add_trade, ret, raise;
        cbn -[Py.replace_char Py.truthy_opt get];
        destruct (fromisoformat _); cbn -[Py.replace_char Py.truthy_opt get];
        try (intros _ T; exact T);
        destruct (Py.truthy_opt _); cbn -[Py.replace_char Py.truthy_opt get];
        try discriminate;
        destruct (fromisoformat _); cbn -[Py.replace_char Py.truthy_opt get];
        try discriminate; intros _ T; exact T.
    + revert H.
      unfold save, exec, CongressDataCollector._save_senate_trade, try_except.
      destruct (CongressDataCollector._save_senate_trade_body fromisoformat r s)
        as [[e'|[]] s']; cbn; [|discriminate].
      intros [= ->]. eauto.
  - intros. apply batch_trade_count.
  - intros url data s H. subst save.
    unfold CongressDataCollector._process_senate_file, try_except, bind, fetch.
    rewrite H. cbn -[for_each].
    pose proof (batch_returns fromisoformat data s) as B. unfold exec.
    destruct (for_each data _ s) as [[e|[]] s']; cbn in B |- *;
      [discriminate B | reflexivity].
Qed.

Lemma batch_fault_isolation_witness :
  senate_stock_file Sample.online "u1"
  = Response 200 (Some [Sample.misdated_record; Sample.good_record; Sample.undated_record]) /\
  CongressDataCollector._process_senate_file Sample.date_only Sample.online "u1"
    (new_session empty_db)
  = (inr tt,
     exec (for_each [Sample.misdated_record; Sample.good_record; Sample.undated_record]
             (CongressDataCollector._save_senate_trade Sample.date_only))
          (new_session empty_db)).
Proof.
  assert (H : senate_stock_file Sample.online "u1"
              = Response 200 (Some [Sample.misdated_record; Sample.good_record;
                                    Sample.undated_record])) by reflexivity.
  refine (conj H _).
  exact (proj2 (proj2 (proj2 (proj2 (batch_fault_isolation Sample.date_only Sample.online))))
           "u1" _ (new_session empty_db) H).
Defined.

Example bad_records_around_a_good_one :
  let s := exec (for_each [Sample.misdated_record; Sample.good_record; Sample.undated_record]
                   (CongressDataCollector._save_senate_trade Sample.date_only))
                (new_session empty_db) in
  map ticker (trades (db s)) = ["AAPL"]
  /\ map text (log s) = ["Error saving Senate trade"; "Error saving Senate trade"].
Proof. vm_compute. split; reflexivity. Qed.

(** ** C6: the statistics *)

Section OrderByFacts.
Context {A : Type} (key : A -> nat).

Local Abbreviation desc := (fun a b : A => (key b <=? key a)%nat).
Local Abbreviation R := (fun a b : A => (key b <= key a)%nat).

Lemma insert_row_perm x l : Permutation (Sql.insert_row desc x l) (x :: l).
Proof.
  induction l as [|y l IH]; simpl; [reflexivity|].
  destruct (key x <=? key y)%nat; [|reflexivity].
  rewrite IH. apply perm_swap.
Qed.

Lemma insert_row_sorted x l :
  StronglySorted R l -> StronglySorted R (Sql.insert_row desc x l).
Proof.
  induction 1 as [|y l Hs IH Hy]; simpl.
  - repeat constructor.
  - destruct (key x <=? key y)%nat eqn:E.
    + apply Nat.leb_le in E. constructor; [exact IH|].
      rewrite List.Forall_forall in *. intros z Hz.
      apply (Permutation_in _ (insert_row_perm x l)) in Hz as [<- | Hz]; auto.
    + apply Nat.leb_gt in E. constructor; [constructor; assumption|].
      constructor; [lia|].
      rewrite List.Forall_forall in *. intros z Hz. specialize (Hy z Hz). simpl in Hy. lia.
Qed.

Lemma order_by_from acc l :
  StronglySorted R acc ->
  StronglySorted R (fold_left (fun acc x => Sql.insert_row desc x acc) l acc)
  /\ Permutation (fold_left (fun acc x => Sql.insert_row desc x acc) l acc) (l ++ acc).
Proof.
  revert acc. induction l as [|x l IH]; intros acc Hacc; simpl.
  - split; [assumption | reflexivity].
  - destruct (IH _ (insert_row_sorted x acc Hacc)) as [S P]. split; [exact S|].
    rewrite P, insert_row_perm. symmetry. apply Permutation_middle.
Qed.

Lemma order_by_sorted l : StronglySorted R (Sql.order_by desc l).
Proof. apply order_by_from. constructor. Qed.

Lemma order_by_perm l : Permutation (Sql.order_by desc l) l.
Proof.
  unfold Sql.order_by. rewrite (proj2 (order_by_from [] l (SSorted_nil _))).
  now rewrite app_nil_r.
Qed.

Lemma take_sorted n l : StronglySorted R l -> StronglySorted R (take n l).
Proof.
  intros H. revert n. induction H as [|y l Hs IH Hy]; intros [|n]; simpl; try constructor.
  - apply IH.
  - rewrite List.Forall_forall in *. intros z Hz. apply Hy.
    apply list_elem_of_In. apply list_elem_of_In in Hz.
    exact (subseteq_take n l z Hz).
Qed.
End OrderByFacts.

Lemma recorded_count_key k k' rows :
  recorded k' (Trades.count_key String.eqb k rows)
  = if String.eqb k' k then S (recorded k rows) else recorded k' rows.
Proof.
  induction rows as [|[k0 n] rows IH]; simpl.
  - destruct (String.eqb k' k); reflexivity.
  - destruct (String.eqb k k0) eqn:E; simpl.
    + apply String.eqb_eq in E. subst k0. destruct (String.eqb k' k); reflexivity.
    + rewrite IH. destruct (String.eqb k' k0) eqn:E0; [|reflexivity].
      apply String.eqb_eq in E0. subst k0.
      rewrite String.eqb_sym in E. now rewrite E.
Qed.

Lemma keys_count_key k rows k' :
  In k' (map fst (Trades.count_key String.eqb k rows)) <-> k' = k \/ In k' (map fst rows).
Proof.
  induction rows as [|[k0 n] rows IH]; simpl.
  - split; intros [H | []]; left; congruence.
  - destruct (String.eqb k k0) eqn:E; simpl.
    + apply String.eqb_eq in E. subst k0.
      split; [intros [H | H] | intros [H | [H | H]]]; auto.
    + rewrite IH. split; [intros [H | [H | H]] | intros [H | [H | H]]]; auto.
Qed.

Lemma nodup_count_key k rows :
  NoDup (map fst rows) -> NoDup (map fst (Trades.count_key String.eqb k rows)).
Proof.
  induction rows as [|[k0 n] rows IH]; simpl; intros H.
  - apply NoDup_singleton.
  - destruct (String.eqb k k0) eqn:E; simpl; [exact H|].
    apply NoDup_cons in H as [H1 H2]. apply NoDup_cons. split; [|auto].
    rewrite list_elem_of_In, keys_count_key. intros [-> | H3].
    + now rewrite String.eqb_refl in E.
    + apply H1. now apply list_elem_of_In.
Qed.

Lemma positive_count_key k rows :
  Forall (fun r : string * nat => (0 < r.2)%nat) rows ->
  Forall (fun r : string * nat => (0 < r.2)%nat) (Trades.count_key String.eqb k rows).
Proof.
  induction 1 as [|[k0 n] rows Hn Hrows IH]; simpl.
  - repeat constructor.
  - destruct (String.eqb k k0); constructor; simpl in *; auto; lia.
Qed.

Lemma recorded_in k n rows :
  NoDup (map fst rows) -> In (k, n) rows -> recorded k rows = n.
Proof.
  induction rows as [|[k0 n0] rows IH]; simpl; intros H Hin; [destruct Hin|].
  destruct Hin as [E | Hin].
  - injection E as -> ->. now rewrite String.eqb_refl.
  - apply NoDup_cons in H as [H1 H2].
    destruct (String.eqb k k0) eqn:E; [|auto].
    apply String.eqb_eq in E. subst k0. exfalso. apply H1.
    apply list_elem_of_In. change k with (fst (k, n)). now apply in_map.
Qed.

Lemma group_count_from keys :
  forall acc,
    NoDup (map fst acc) ->
    Forall (fun r : string * nat => (0 < r.2)%nat) acc ->
    let rows := fold_left (fun acc k => Trades.count_key String.eqb k acc) keys acc in
    NoDup (map fst rows)
    /\ Forall (fun r : string * nat => (0 < r.2)%nat) rows
    /\ forall k, recorded k rows = (recorded k acc + occurrences k keys)%nat.
Proof.
  induction keys as [|k0 keys IH]; intros acc N P; simpl.
  - repeat split; auto.
  - destruct (IH _ (nodup_count_key k0 acc N) (positive_count_key k0 acc P)) as (N' & P' & C).
    repeat split; auto. intros k. rewrite C, recorded_count_key.
    unfold occurrences. simpl. destruct (String.eqb k k0) eqn:E; simpl; [|lia].
    apply String.eqb_eq in E. subst k0. lia.
Qed.

(** Grouped rows: one row per key, with the number of its occurrences. *)
Lemma group_count_spec keys :
  NoDup (map fst (Trades.group_count String.eqb keys)) /\
  forall k n, In (k, n) (Trades.group_count String.eqb keys) ->
              n = occurrences k keys /\ (0 < n)%nat.
Proof.
  destruct (group_count_from keys [] NoDup_nil_2 (List.Forall_nil _)) as (N & P & C).
  split; [exact N|]. intros k n Hin. split.
  - rewrite <- (recorded_in k n _ N Hin). apply C.
  - rewrite List.Forall_forall in P. exact (P _ Hin).
Qed.

Lemma occurrences_map {A} (f : A -> string) k l :
  occurrences k (map f l) = length (List.filter (fun x => String.eqb k (f x)) l).
Proof.
  unfold occurrences. induction l as [|x l IH]; simpl; [reflexivity|].
  destruct (String.eqb k (f x)); simpl; now rewrite IH.
Qed.

(** Rows sorted one after the other: each of the first rows is above
    each of the rows that follow. *)
Lemma sorted_app_above {A} (R : A -> A -> Prop) (l1 l2 : list A) :
  StronglySorted R (l1 ++ l2) -> forall a b, In a l1 -> In b l2 -> R a b.
Proof.
  induction l1 as [|x l1 IH]; simpl; intros H a b Ha Hb; [destruct Ha|].
  apply StronglySorted_inv in H as [H F].
  destruct Ha as [<- | Ha]; [|eauto].
  rewrite List.Forall_forall in F. apply F. apply in_or_app. now right.
Qed.

Lemma group_count_keys_from keys :
  forall acc k,
    In k (map fst (fold_left (fun acc k => Trades.count_key String.eqb k acc) keys acc))
    <-> In k keys \/ In k (map fst acc).
Proof.
  induction keys as [|k0 keys IH]; intros acc k; simpl; [tauto|].
  rewrite IH, keys_count_key. split; [intros [H | [H | H]] | intros [[H | H] | H]]; auto.
Qed.

(** The grouped rows have the keys met, and no other. *)
Lemma group_count_keys keys k :
  In k (map fst (Trades.group_count String.eqb keys)) <-> In k keys.
Proof.
  unfold Trades.group_count. rewrite group_count_keys_from. simpl. tauto.
Qed.

(** There are as many grouped rows as distinct keys. *)
Lemma group_count_length keys :
  length (Trades.group_count String.eqb keys) = length (remove_dups keys).
Proof.
  rewrite <- (length_map fst). apply Permutation_length.
  apply NoDup_Permutation; [apply group_count_spec | apply NoDup_remove_dups|].
  intros k. rewrite elem_of_remove_dups, !list_elem_of_In. apply group_count_keys.
Qed.

(** C6, as stated, fails: the query orders the grouped rows by count
    alone, so the order among tickers with equal counts is the order in
    which the engine yields the groups.  On a store with one trade of
    MSFT and one of AAPL, an engine that yields the groups as first
    stored answers MSFT before AAPL, which is not the lexical order,
    and one that yields them the other way round answers AAPL before
    MSFT: the query itself breaks no tie. *)
Lemma c6_ties_not_lexical :
  sum_map id Trades.top_traded_stocks
    (Trades.get_trading_stats 1700000000000000 id (new_session Sample.two_trades)).1
  = inr [("MSFT", 1%nat); ("AAPL", 1%nat)]
  /\ sum_map id Trades.top_traded_stocks
       (Trades.get_trading_stats 1700000000000000 (@rev _) (new_session Sample.two_trades)).1
     = inr [("AAPL", 1%nat); ("MSFT", 1%nat)]
  /\ String.ltb "AAPL" "MSFT" = true
  /\ (forall rows : list (string * nat), Permutation (id rows) rows)
  /\ (forall rows : list (string * nat), Permutation (rev rows) rows).
Proof.
  split; [vm_compute; reflexivity|]. split; [vm_compute; reflexivity|].
  split; [reflexivity|]. split; intros rows; [reflexivity|].
  symmetry. apply Permutation_rev.
Qed.

(** C6 (amended): whatever the order in which the engine yields the
    grouped rows, the statistics list the top tickers by number of
    trades: as many tickers as there are distinct ones up to 10, each
    once, each with the number of trades stored for it (at least one),
    in descending order of that number, and no ticker left out has more
    trades than a ticker listed; the order among tickers with equal
    numbers is the engine's.  The totals are the numbers of rows, the
    number of committees is reported as zero, the store is not changed,
    and on an empty store every count is zero and every list and map is
    empty. *)
Theorem trading_stats_spec :
  forall (now : datetime) (yield_order : list (string * nat) -> list (string * nat))
         (s : session),
    (forall rows, Permutation (yield_order rows) rows) ->
    exists stats,
      (Trades.get_trading_stats now yield_order s).1 = inr stats
      /\ db (exec (Trades.get_trading_stats now yield_order) s) = db s
      /\ (length (Trades.top_traded_stocks stats) <= 10)%nat
      /\ length (Trades.top_traded_stocks stats)
         = Nat.min 10 (length (remove_dups (map ticker (trades (db s)))))
      /\ StronglySorted (fun a b : string * nat => (b.2 <= a.2)%nat)
                        (Trades.top_traded_stocks stats)
      /\ NoDup (map fst (Trades.top_traded_stocks stats))
      /\ (forall t c, In (t, c) (Trades.top_traded_stocks stats) ->
            c = length (List.filter (fun tr => String.eqb t (ticker tr)) (trades (db s)))
            /\ (0 < c)%nat)
      /\ (forall tr t c,
            In tr (trades (db s)) ->
            ~ In (ticker tr) (map fst (Trades.top_traded_stocks stats)) ->
            In (t, c) (Trades.top_traded_stocks stats) ->
            (length (List.filter (fun x => String.eqb (ticker tr) (ticker x)) (trades (db s)))
             <= c)%nat)
      /\ Trades.total_trades stats = length (trades (db s))
      /\ Trades.total_members stats = length (members (db s))
      /\ Trades.total_committees stats = 0%nat
      /\ (db s = empty_db ->
          stats = {| Trades.total_trades := 0; Trades.total_members := 0;
                     Trades.total_committees := 0; Trades.recent_trades_count := 0;
                     Trades.top_traded_stocks := [];
                     Trades.trades_by_chamber := ∅; Trades.trades_by_party := ∅ |}).
Proof.
  intros now yo s Hyo. eexists. split; [reflexivity|]. split; [reflexivity|].
  cbn [Trades.top_traded_stocks Trades.total_trades Trades.total_members
       Trades.total_committees db].
  set (G := Trades.group_count String.eqb (map ticker (trades (db s)))).
  destruct (group_count_spec (map ticker (trades (db s)))) as [N C]. fold G in N, C.
  set (sorted := Sql.order_by _ (yo G)).
  assert (P : Permutation sorted G).
  { subst sorted. rewrite (order_by_perm (fun r : string * nat => r.2)). apply Hyo. }
  assert (S : StronglySorted (fun a b : string * nat => (b.2 <= a.2)%nat) sorted)
    by apply (order_by_sorted (fun r : string * nat => r.2)).
  split; [rewrite length_take; lia|].
  split.
  { rewrite length_take, (Permutation_length P). subst G.
    now rewrite group_count_length. }
  split; [apply (take_sorted (fun r : string * nat => r.2)), S|].
  split.
  { rewrite <- firstn_map. eapply sublist_NoDup; [|apply sublist_take].
    rewrite P. exact N. }
  split.
  { intros t c Hin. rewrite <- occurrences_map. apply C.
    apply (Permutation_in _ P). apply list_elem_of_In.
    apply (subseteq_take 10 sorted). now apply list_elem_of_In. }
  split.
  { intros tr t c Htr Hout Hin.
    assert (Hk : In (ticker tr) (map fst G)) by (apply group_count_keys; now apply in_map).
    apply in_map_iff in Hk as ([k n] & Ek & Hk). simpl in Ek. subst k.
    destruct (C _ _ Hk) as [En _]. rewrite <- occurrences_map, <- En.
    apply (Permutation_in _ (Permutation_sym P)) in Hk.
    rewrite <- (take_drop 10 sorted) in Hk, S.
    apply in_app_or in Hk as [Hk | Hk].
    - exfalso. apply Hout. change (ticker tr) with (fst (ticker tr, n)). now apply in_map.
    - exact (sorted_app_above _ _ _ S _ _ Hin Hk). }
  repeat split.
  intros E. subst sorted G. rewrite E. cbn.
  rewrite (Permutation_nil (Permutation_sym (Hyo []))). reflexivity.
Qed.

Example top_stocks_on_sample :
  sum_map id Trades.top_traded_stocks
    (Trades.get_trading_stats (utcnow Sample.online) id Sample.collected).1
  = inr [("AAPL", 4%nat); ("MSFT", 2%nat); ("GOOGL", 2%nat); ("AMZN", 2%nat);
         ("TSLA", 2%nat); ("NVDA", 2%nat); ("META", 2%nat); ("JPM", 2%nat);
         ("BAC", 2%nat); ("WFC", 2%nat)].
Proof. vm_compute. reflexivity. Qed.

Lemma trading_stats_spec_witness :
  (forall rows : list (string * nat), Permutation (id rows) rows) /\
  exists stats,
    (Trades.get_trading_stats (utcnow Sample.online) id Sample.collected).1 = inr stats
    /\ Trades.top_traded_stocks stats
       = [("AAPL", 4%nat); ("MSFT", 2%nat); ("GOOGL", 2%nat); ("AMZN", 2%nat);
          ("TSLA", 2%nat); ("NVDA", 2%nat); ("META", 2%nat); ("JPM", 2%nat);
          ("BAC", 2%nat); ("WFC", 2%nat)]
    /\ length (Trades.top_traded_stocks stats)
       = Nat.min 10 (length (remove_dups (map ticker (trades (db Sample.collected)))))
    /\ (forall tr t c,
          In tr (trades (db Sample.collected)) ->
          ~ In (ticker tr) (map fst (Trades.top_traded_stocks stats)) ->
          In (t, c) (Trades.top_traded_stocks stats) ->
          (length (List.filter (fun x => String.eqb (ticker tr) (ticker x))
                               (trades (db Sample.collected))) <= c)%nat).
Proof.
  assert (H : forall rows : list (string * nat), Permutation (id rows) rows)
    by (intros rows; reflexivity).
  refine (conj H _).
  destruct (trading_stats_spec (utcnow Sample.online) id Sample.collected H)
    as (stats & E & _ & _ & L & _ & _ & _ & D & _).
  exists stats. split; [exact E|]. split; [|split; [exact L | exact D]].
  pose proof top_stocks_on_sample as T. rewrite E in T. simpl in T.
  now injection T.
Defined.

(** ** C4: the order of the collectors *)

Lemma run_order_app l1 l2 : run_order (l1 ++ l2) = (run_order l1 ++ run_order l2)%list.
Proof. apply omap_app. Qed.

Lemma quiet_ret {A} (a : A) : quiet (ret a).
Proof. intros s. exists []. now rewrite app_nil_r. Qed.

Lemma quiet_raise {A} (e : exn) : quiet (@raise A e).
Proof. intros s. exists []. now rewrite app_nil_r. Qed.

Lemma quiet_of_option {A} (e : exn) (o : option A) : quiet (of_option e o).
Proof. destruct o; [apply quiet_ret | apply quiet_raise]. Qed.

Lemma quiet_query {A} (q : Db -> A) : quiet (query q).
Proof. intros s. exists []. now rewrite app_nil_r. Qed.

Lemma quiet_add_member mk : quiet (add_member mk).
Proof. intros s. exists []. now rewrite app_nil_r. Qed.

Lemma quiet_add_trade mk : quiet (add_trade mk).
Proof. intros s. exists []. now rewrite app_nil_r. Qed.

Lemma quiet_add_committee mk : quiet (add_committee mk).
Proof. intros s. exists []. now rewrite app_nil_r. Qed.

Lemma quiet_commit : quiet commit.
Proof. intros s. exists []. now rewrite app_nil_r. Qed.

Lemma quiet_rollback : quiet rollback.
Proof. intros s. exists []. now rewrite app_nil_r. Qed.

Lemma announces_logger l msg e :
  announces (logger l msg e) (run_order [{| lvl := l; text := msg; cause := e |}]).
Proof. intros s. eexists. split; reflexivity. Qed.

Lemma quiet_logger l msg e :
  started {| lvl := l; text := msg; cause := e |} = None -> quiet (logger l msg e).
Proof.
  intros H s. eexists. split; [reflexivity|]. unfold run_order. simpl. now rewrite H.
Qed.

(** What a sequence announces when its second part is quiet. *)
Lemma announces_bind {A B} (c : M A) (k : A -> M B) cs :
  announces c cs -> (forall a, quiet (k a)) -> announces (bind c k) cs.
Proof.
  intros Hc Hk s. unfold bind. destruct (Hc s) as (x1 & E1 & R1).
  destruct (c s) as [[e|a] s']; cbn [snd] in *.
  - eauto.
  - destruct (Hk a s') as (x2 & E2 & R2). exists (x1 ++ x2)%list.
    rewrite E2, E1, <- app_assoc, run_order_app, R1, R2, app_nil_r. auto.
Qed.

Lemma quiet_bind {A B} (c : M A) (k : A -> M B) :
  quiet c -> (forall a, quiet (k a)) -> quiet (bind c k).
Proof. apply announces_bind. Qed.

Lemma announces_try_except {A} (c : M A) (h : exn -> M A) cs :
  announces c cs -> (forall e, quiet (h e)) -> announces (try_except c h) cs.
Proof.
  intros Hc Hh s. unfold try_except. destruct (Hc s) as (x1 & E1 & R1).
  destruct (c s) as [[e|a] s']; cbn [snd] in *.
  - destruct (Hh e s') as (x2 & E2 & R2). exists (x1 ++ x2)%list.
    rewrite E2, E1, <- app_assoc, run_order_app, R1, R2, app_nil_r. auto.
  - eauto.
Qed.

Lemma quiet_try_except {A} (c : M A) (h : exn -> M A) :
  quiet c -> (forall e, quiet (h e)) -> quiet (try_except c h).
Proof. apply announces_try_except. Qed.

Lemma quiet_for_each {A} (xs : list A) (body : A -> M unit) :
  (forall x, quiet (body x)) -> quiet (for_each xs body).
Proof.
  intros H. induction xs as [|x xs IH]; simpl.
  - apply quiet_ret.
  - apply quiet_bind; [apply H | intros _; exact IH].
Qed.

Lemma quiet_fetch {A} (r : http A) : quiet (fetch r).
Proof.
  destruct r as [|code body]; simpl; [apply quiet_raise|].
  destruct (code =? 200); [|apply quiet_ret].
  apply quiet_bind; [apply quiet_of_option | intros; apply quiet_ret].
Qed.

Create HintDb quiet.
#[local] Hint Resolve quiet_ret quiet_raise quiet_of_option quiet_query quiet_add_member
  quiet_add_trade quiet_add_committee quiet_commit quiet_rollback quiet_fetch : quiet.

(** Quietness of a computation built from the pieces above: sequences,
    handlers and loops are taken apart, tests are split, and a logged
    line is checked not to be a starting line. *)
Ltac quiet_step :=
  match goal with
  | |- quiet (bind _ _) => apply quiet_bind; [|intros ?]
  | |- quiet (try_except _ _) => apply quiet_try_except; [|intros ?]
  | |- quiet (for_each _ _) => apply quiet_for_each; intros ?
  | |- quiet (logger_info _) => apply quiet_logger; reflexivity
  | |- quiet (logger_warning _) => apply quiet_logger; reflexivity
  | |- quiet (logger_error _ _) => apply quiet_logger; reflexivity
  | |- quiet (match ?x with _ => _ end) => destruct x
  | |- quiet _ => solve [auto with quiet]
  end.
Ltac quiet_tac := repeat quiet_step.

Lemma returns_try_except_log (c : M unit) (msg : string) :
  returns (try_except c (fun e => logger_error msg e)).
Proof. intros s. exists tt. apply try_except_log_returns. Qed.

Lemma returns_seq {A B} (c1 : M A) (c2 : M B) :
  returns c1 -> returns c2 -> returns (c1 ;; c2).
Proof.
  intros H1 H2 s. unfold bind. destruct (H1 s) as [a E].
  destruct (c1 s) as [[e|a'] s']; cbn in E; [discriminate E|]. apply H2.
Qed.

Lemma announces_seq {A B} (c1 : M A) (c2 : M B) xs ys :
  returns c1 -> announces c1 xs -> announces c2 ys -> announces (c1 ;; c2) (xs ++ ys).
Proof.
  intros R H1 H2 s. unfold bind. destruct (R s) as [a E]. destruct (H1 s) as (x1 & E1 & R1).
  destruct (c1 s) as [[e|a'] s']; cbn in E, E1; [discriminate E|].
  destruct (H2 s') as (x2 & E2 & R2). exists (x1 ++ x2)%list.
  rewrite E2, E1, <- app_assoc, run_order_app, R1, R2. auto.
Qed.

(** A collector: it logs its starting line, does quiet work, and logs
    whatever is raised. *)
Lemma announces_collector (start_line error_line : string) (work : M unit) (c : collector) :
  started {| lvl := INFO; text := start_line; cause := None |} = Some c ->
  (forall e, started {| lvl := ERROR; text := error_line; cause := Some e |} = None) ->
  quiet work ->
  announces (try_except (logger_info start_line ;; work)
                        (fun e => logger_error error_line e)) [c].
Proof.
  intros Hs He Hw. apply announces_try_except.
  - apply announces_bind; [|intros _; exact Hw].
    intros s. eexists. split; [reflexivity|]. unfold run_order. simpl. now rewrite Hs.
  - intros e. apply quiet_logger, He.
Qed.

Section Announcements.
Variable fromisoformat : string -> option datetime.
Variable w : World.

Lemma quiet_scraper_parse_amount a : quiet (RealDataScraper._parse_amount a).
Proof. unfold RealDataScraper._parse_amount. quiet_tac. Qed.

Lemma quiet_save_trade n tk ty a : quiet (RealDataScraper._save_trade w n tk ty a).
Proof.
  unfold RealDataScraper._save_trade. quiet_tac. apply quiet_scraper_parse_amount.
Qed.

Lemma quiet_process_house_disclosure url :
  quiet (RealDataScraper._process_house_disclosure w url).
Proof.
  unfold RealDataScraper._process_house_disclosure, RealDataScraper._process_member_trades,
    RealDataScraper._extract_trade_from_row.
  quiet_tac; apply quiet_save_trade.
Qed.

Lemma quiet_add_senate_sample_data : quiet (RealDataScraper._add_senate_sample_data w).
Proof. unfold RealDataScraper._add_senate_sample_data. quiet_tac. Qed.

Lemma quiet_scrape_senate_disclosures : quiet (RealDataScraper.scrape_senate_disclosures w).
Proof.
  unfold RealDataScraper.scrape_senate_disclosures. quiet_tac.
  apply quiet_add_senate_sample_data.
Qed.

Lemma announces_scrape_house_disclosures :
  announces (RealDataScraper.scrape_house_disclosures w) [DisclosureScraper].
Proof.
  unfold RealDataScraper.scrape_house_disclosures.
  apply announces_collector; [reflexivity | reflexivity |].
  quiet_tac. apply quiet_process_house_disclosure.
Qed.

Lemma announces_scrape_real_data :
  announces (RealDataScraper.scrape_real_data w) [DisclosureScraper].
Proof.
  unfold RealDataScraper.scrape_real_data.
  apply (announces_bind _ _ _ announces_scrape_house_disclosures). intros _.
  quiet_tac. apply quiet_scrape_senate_disclosures.
Qed.

Lemma quiet_save_senate_trade r :
  quiet (CongressDataCollector._save_senate_trade fromisoformat r).
Proof.
  unfold CongressDataCollector._save_senate_trade,
    CongressDataCollector._save_senate_trade_body, CongressDataCollector.parse_datetime.
  quiet_tac.
Qed.

Lemma quiet_process_senate_file url :
  quiet (CongressDataCollector._process_senate_file fromisoformat w url).
Proof.
  unfold CongressDataCollector._process_senate_file. quiet_tac.
  apply quiet_save_senate_trade.
Qed.

Lemma announces_collect_senate_stock_data :
  announces (CongressDataCollector.collect_senate_stock_data fromisoformat w)
            [SenateStockWatcher].
Proof.
  unfold CongressDataCollector.collect_senate_stock_data.
  apply announces_collector; [reflexivity | reflexivity |].
  quiet_tac. apply quiet_process_senate_file.
Qed.

Lemma announces_collect_house_trading_data :
  announces CongressDataCollector.collect_house_trading_data [HouseTradingData].
Proof.
  unfold CongressDataCollector.collect_house_trading_data,
    CongressDataCollector._collect_capitol_gains_data,
    CongressDataCollector._collect_stock_act_disclosures.
  apply announces_collector; [reflexivity | reflexivity |]. quiet_tac.
Qed.

Lemma announces_collect_propublica_data api_key :
  announces (CongressDataCollector.collect_propublica_data w api_key) [ProPublica].
Proof.
  unfold CongressDataCollector.collect_propublica_data,
    CongressDataCollector._collect_propublica_members,
    CongressDataCollector._collect_propublica_committees,
    CongressDataCollector._save_propublica_member,
    CongressDataCollector._save_propublica_committee.
  apply announces_collector; [reflexivity | reflexivity |]. quiet_tac.
Qed.

End Announcements.

(** What holds of the outcome of the last steps of a sequence holds of
    the outcome of the sequence, when the first steps return. *)
Lemma outcome_seq {A B} (c1 : M A) (c2 : M B) (P : (exn + B) * session -> Prop) :
  returns c1 -> (forall s, P (c2 s)) -> forall s, P ((c1 ;; c2) s).
Proof.
  intros R H s. unfold bind. destruct (R s) as [a E].
  destruct (c1 s) as [[e|a'] s']; cbn in E; [discriminate E | apply H].
Qed.

(** C4, as stated, fails on the order: in a run with a key the
    collector that needs the key starts before the scraper of the
    disclosure sites, not after it. *)
Lemma c4_api_runs_before_scraper :
  let order :=
    run_order (log (exec (CongressDataCollector.collect_congress_data
                            Sample.date_only Sample.online (Some "key"))
                         (new_session empty_db))) in
  order = [SenateStockWatcher; HouseTradingData; ProPublica; DisclosureScraper]
  /\ (exists before between after,
        order = (before ++ ProPublica :: between ++ DisclosureScraper :: after)%list)
  /\ ~ (exists before between after,
          order = (before ++ DisclosureScraper :: between ++ ProPublica :: after)%list).
Proof.
  set (order := run_order _).
  assert (E : order = [SenateStockWatcher; HouseTradingData; ProPublica; DisclosureScraper])
    by (vm_compute; reflexivity).
  cbv zeta. rewrite E. split; [reflexivity|]. split.
  - exists [SenateStockWatcher; HouseTradingData], [], []. reflexivity.
  - intros (before & between & after & H).
    destruct before as [|b1 [|b2 [|b3 [|b4 before]]]]; simpl in H; try discriminate H.
    + injection H as _ _ _ H. destruct between; discriminate H.
    + injection H as _ _ _ _ H. destruct before; discriminate H.
Qed.

(** C4 (amended): a collection run starts the collectors one after the
    other in a fixed order: the structured feed, then the two House
    sources (which only log that they are not implemented), then the
    collector that needs a key, only when a non-empty key is supplied,
    and last the scraper of the disclosure sites.  Whatever the sources
    answer, the run returns without an exception, commits, and logs its
    completion.  Without a key the run is the same sequence with the
    keyed collector left out. *)
Theorem collection_order :
  forall (fromisoformat : string -> option datetime) (w : World)
         (propublica_api_key : option string) (s : session),
    let run := CongressDataCollector.collect_congress_data fromisoformat w propublica_api_key in
    (run s).1 = inr tt
    /\ (exists extra,
          log (exec run s) = (log s ++ extra)%list
          /\ run_order extra
             = ([SenateStockWatcher; HouseTradingData]
                ++ (if Py.truthy_opt propublica_api_key then [ProPublica] else [])
                ++ [DisclosureScraper])%list)
    /\ committed (exec run s) = db (exec run s)
    /\ (exists l, log (exec run s)
                  = (l ++ [{| lvl := INFO; text := "Data collection completed successfully";
                              cause := None |}])%list)
    /\ (Py.truthy_opt propublica_api_key = false ->
        run s = (CongressDataCollector.collect_senate_stock_data fromisoformat w ;;
                 CongressDataCollector.collect_house_trading_data ;;
                 try_except (RealDataScraper.scrape_real_data w)
                            (fun e => logger_error "Error scraping real data" e) ;;
                 commit ;;
                 logger_info "Data collection completed successfully") s).
Proof.
  intros fromisoformat w key s run.
  set (keyed := match key with
                | Some api_key =>
                    if Py.truthy api_key
                    then CongressDataCollector.collect_propublica_data w api_key
                    else ret tt
                | None => ret tt
                end).
  assert (Rk : returns keyed).
  { subst keyed. destruct key as [k|]; [destruct (Py.truthy k)|];
      try (intros s'; exists tt; reflexivity).
    apply returns_try_except_log. }
  assert (Ak : announces keyed (if Py.truthy_opt key then [ProPublica] else [])).
  { subst keyed. destruct key as [k|]; simpl; [destruct (Py.truthy k)|];
      try apply quiet_ret.
    apply announces_collect_propublica_data. }
  assert (R1 : returns (CongressDataCollector.collect_senate_stock_data fromisoformat w))
    by apply returns_try_except_log.
  assert (R2 : returns CongressDataCollector.collect_house_trading_data)
    by apply returns_try_except_log.
  assert (R4 : returns (try_except (RealDataScraper.scrape_real_data w)
                          (fun e => logger_error "Error scraping real data" e)))
    by apply returns_try_except_log.
  assert (R5 : returns (commit ;; logger_info "Data collection completed successfully"))
    by (intros s'; exists tt; reflexivity).
  assert (R : returns run).
  { subst run. unfold CongressDataCollector.collect_congress_data. fold keyed.
    do 4 (apply returns_seq; [assumption|]). exact R5. }
  set (P := fun o : (exn + unit) * session =>
              committed o.2 = db o.2
              /\ exists l, log o.2
                           = (l ++ [{| lvl := INFO;
                                       text := "Data collection completed successfully";
                                       cause := None |}])%list).
  assert (O : forall s', P (run s')).
  { subst run. unfold CongressDataCollector.collect_congress_data. fold keyed.
    do 4 (apply (outcome_seq _ _ P); [assumption|]).
    intros s'. split; [reflexivity|]. eexists. reflexivity. }
  split; [|split; [|split; [|split]]].
  - destruct (R s) as [[] E]. exact E.
  - assert (A : announces run
                  ([SenateStockWatcher] ++ [HouseTradingData]
                   ++ (if Py.truthy_opt key then [ProPublica] else [])
                   ++ [DisclosureScraper] ++ [])%list).
    { subst run. unfold CongressDataCollector.collect_congress_data. fold keyed.
      apply announces_seq; [assumption | apply announces_collect_senate_stock_data |].
      apply announces_seq; [assumption | apply announces_collect_house_trading_data |].
      apply announces_seq; [assumption | assumption |].
      apply announces_seq; [assumption | |].
      - apply announces_try_except; [apply announces_scrape_real_data|].
        intros e. apply quiet_logger. reflexivity.
      - apply quiet_bind; [apply quiet_commit|]. intros _. apply quiet_logger. reflexivity. }
    destruct (A s) as (extra & E1 & E2). exists extra. split; [exact E1|].
    rewrite E2, app_nil_r. reflexivity.
  - apply O.
  - apply O.
  - intros F. subst run keyed. unfold CongressDataCollector.collect_congress_data.
    destruct key as [k|]; [simpl in F; rewrite F|]; reflexivity.
Qed.

Lemma collection_order_witness :
  Py.truthy_opt None = false /\
  run_order (log (exec (CongressDataCollector.collect_congress_data
                          Sample.date_only Sample.online None) (new_session empty_db)))
  = [SenateStockWatcher; HouseTradingData; DisclosureScraper].
Proof.
  refine (conj eq_refl _).
  destruct (proj1 (proj2 (collection_order Sample.date_only Sample.online None
                            (new_session empty_db)))) as (extra & E1 & E2).
  rewrite E1. exact E2.
Defined.

(** ** The listings on the sample store *)

Example get_members_ordered :
  sum_map id (map name)
    (Members.get_members None None None None None (Some true) Sample.collected).1
  = inr ["Jane Roe"; "John Doe"]
  /\ sum_map id (map name)
       (Members.get_members (Some 1) (Some 5) None None None None Sample.collected).1
     = inr ["John Doe"]
  /\ sum_map id (map name)
       (Members.get_members None None (Some "House") (Some "Unknown") None (Some false)
          Sample.collected).1
     = inr [].
Proof. vm_compute. repeat split. Qed.

Example get_trades_recent_first :
  sum_map id (map trade_id_)
    (Trades.get_trades None (Some 3) None None None None None None None None None
       Sample.collected).1
  = inr [1; 4; 5].
Proof. vm_compute. reflexivity. Qed.

Example stats_on_sample :
  sum_map id (fun st => (Trades.total_trades st, Trades.total_members st,
                         Trades.trades_by_chamber st !! "Senate",
                         Trades.trades_by_chamber st !! "House",
                         Trades.trades_by_party st !! Some "Unknown"))
    (Trades.get_trading_stats (utcnow Sample.online) id Sample.collected).1
  = inr (23%nat, 2%nat, Some 21%nat, Some 2%nat, Some 2%nat).
Proof. vm_compute. reflexivity. Qed.

(** * Further properties *)

(** ** Rows of a listing *)

Lemma filter_if_In {A} (present : bool) (cond : A -> bool) (rows : list A) (x : A) :
  In x (filter_if present cond rows) -> In x rows /\ (present = true -> cond x = true).
Proof.
  unfold filter_if. destruct present.
  - rewrite filter_In. intros [H1 H2]. auto.
  - intros H. split; [exact H | discriminate].
Qed.

Lemma offset_limit_In {A} (skip limit : Z) (l : list A) (x : A) :
  In x (Sql.offset_limit skip limit l) -> In x l.
Proof.
  unfold Sql.offset_limit. intros H. apply list_elem_of_In in H. apply list_elem_of_In.
  apply (subseteq_drop (Z.to_nat skip) l), (subseteq_take (Z.to_nat limit) _), H.
Qed.

Lemma trades_join_members_In (d : Db) (t : Trade) (m : Member) :
  In (t, m) (trades_join_members d)
  <-> In t (trades d) /\ In m (members d) /\ member_id_ m = member_id t.
Proof.
  unfold trades_join_members. rewrite in_flat_map. split.
  - intros (t' & Ht & H). apply in_map_iff in H as (m' & [= <- <-] & H).
    apply filter_In in H as [Hm E]. apply Z.eqb_eq in E. auto.
  - intros (Ht & Hm & E). exists t. split; [exact Ht|].
    apply in_map. apply filter_In. split; [exact Hm | now apply Z.eqb_eq].
Qed.

Lemma members_join_trades_In (d : Db) (m : Member) (t : Trade) :
  In (m, t) (members_join_trades d)
  <-> In m (members d) /\ In t (trades d) /\ member_id t = member_id_ m.
Proof.
  unfold members_join_trades. rewrite in_flat_map. split.
  - intros (m' & Hm & H). apply in_map_iff in H as (t' & [= <- <-] & H).
    apply filter_In in H as [Ht E]. apply Z.eqb_eq in E. auto.
  - intros (Hm & Ht & E). exists m. split; [exact Hm|].
    apply in_map. apply filter_In. split; [exact Ht | now apply Z.eqb_eq].
Qed.

Section Ordering.
Context {A : Type} (leb : A -> A -> bool).
Hypothesis leb_total : forall a b, leb a b = true \/ leb b a = true.

Local Abbreviation follows := (fun a b : A => leb a b = true).

Lemma insert_row_permutation x l : Permutation (Sql.insert_row leb x l) (x :: l).
Proof.
  induction l as [|y l IH]; simpl; [reflexivity|].
  destruct (leb y x); [|reflexivity].
  rewrite IH. apply perm_swap.
Qed.

Lemma insert_row_HdRel a x l :
  leb a x = true -> HdRel follows a l -> HdRel follows a (Sql.insert_row leb x l).
Proof.
  intros Hx Hl. destruct l as [|y l]; simpl.
  - now constructor.
  - destruct (leb y x); constructor; [|exact Hx]. now inversion Hl.
Qed.

Lemma insert_row_Sorted x l : Sorted follows l -> Sorted follows (Sql.insert_row leb x l).
Proof.
  induction 1 as [|y l Hs IH Hy]; simpl.
  - repeat constructor.
  - destruct (leb y x) eqn:E.
    + constructor; [exact IH|]. now apply insert_row_HdRel.
    + constructor; [now constructor|]. constructor.
      destruct (leb_total x y) as [H|H]; [exact H | congruence].
Qed.

Lemma order_by_acc_permutation acc l :
  Permutation (fold_left (fun acc x => Sql.insert_row leb x acc) l acc) (l ++ acc).
Proof.
  revert acc. induction l as [|x l IH]; intros acc; simpl; [reflexivity|].
  rewrite IH, insert_row_permutation. symmetry. apply Permutation_middle.
Qed.

Lemma order_by_permutation l : Permutation (Sql.order_by leb l) l.
Proof.
  unfold Sql.order_by. rewrite order_by_acc_permutation. now rewrite app_nil_r.
Qed.

Lemma order_by_acc_Sorted acc l :
  Sorted follows acc ->
  Sorted follows (fold_left (fun acc x => Sql.insert_row leb x acc) l acc).
Proof.
  revert acc. induction l as [|x l IH]; intros acc Hacc; simpl; [assumption|].
  apply IH, insert_row_Sorted, Hacc.
Qed.

Lemma order_by_Sorted l : Sorted follows (Sql.order_by leb l).
Proof. apply order_by_acc_Sorted. constructor. Qed.

Lemma order_by_In l x : In x (Sql.order_by leb l) <-> In x l.
Proof.
  split; apply Permutation_in; [|symmetry]; apply order_by_permutation.
Qed.
End Ordering.

Lemma Sorted_take {A} (R : A -> A -> Prop) (n : nat) (l : list A) :
  Sorted R l -> Sorted R (take n l).
Proof.
  intros H. revert n. induction H as [|y l Hs IH Hy]; intros [|n]; simpl; try constructor.
  - apply IH.
  - destruct Hy as [|z l Hz]; destruct n; simpl; constructor. exact Hz.
Qed.

Lemma Sorted_drop {A} (R : A -> A -> Prop) (n : nat) (l : list A) :
  Sorted R l -> Sorted R (drop n l).
Proof.
  intros H. revert n. induction H as [|y l Hs IH Hy]; intros [|n]; simpl; try constructor;
    auto.
Qed.

Lemma Sorted_map {A B} (f : A -> B) (R : B -> B -> Prop) (l : list A) :
  Sorted (fun a b => R (f a) (f b)) l -> Sorted R (map f l).
Proof.
  induction 1 as [|y l Hs IH Hy]; simpl; constructor; [exact IH|].
  destruct Hy; simpl; constructor. assumption.
Qed.

(** The rows of a page are rows of the ordered listing, in its order. *)
Lemma page_Sorted {A} (leb : A -> A -> bool) (skip limit : Z) (l : list A) :
  (forall a b, leb a b = true \/ leb b a = true) ->
  Sorted (fun a b => leb a b = true) (Sql.offset_limit skip limit (Sql.order_by leb l)).
Proof.
  intros T. unfold Sql.offset_limit. apply Sorted_take, Sorted_drop. now apply order_by_Sorted.
Qed.

Lemma page_In {A} (leb : A -> A -> bool) (skip limit : Z) (l : list A) (x : A) :
  In x (Sql.offset_limit skip limit (Sql.order_by leb l)) -> In x l.
Proof. intros H. apply offset_limit_In in H. now apply order_by_In in H. Qed.

Lemma by_date_total {A} (date : A -> datetime) (a b : A) :
  (date b <=? date a) = true \/ (date a <=? date b) = true.
Proof. rewrite !Z.leb_le. lia. Qed.

Lemma by_name_total {A} (name_ : A -> string) (a b : A) :
  String.leb (name_ a) (name_ b) = true \/ String.leb (name_ b) (name_ a) = true.
Proof. apply String.leb_total. Qed.

(** A handler with the two pagination parameters runs its statement
    exactly when both are within their bounds. *)
Lemma paged_inv {B} (dflt hi : Z) (body : Z -> Z -> Db -> B)
      (skip limit : option Z) (s : session) (out : B) :
  ((let* skip := Query 0 (Some 0) None skip in
    let* limit := Query dflt (Some 1) (Some hi) limit in
    query (body skip limit)) s).1 = inr out ->
  0 <= default 0 skip /\ 1 <= default dflt limit <= hi
  /\ out = body (default 0 skip) (default dflt limit) (db s).
Proof.
  unfold bind, Query, ret, raise, query.
  destruct (0 <=? default 0 skip) eqn:E1; simpl; [|discriminate].
  destruct (1 <=? default dflt limit) eqn:E2; simpl; [|discriminate].
  destruct (default dflt limit <=? hi) eqn:E3; simpl; [|discriminate].
  intros [= <-]. apply Z.leb_le in E1, E2, E3. auto.
Qed.

Lemma paged_run {B} (dflt hi : Z) (body : Z -> Z -> Db -> B)
      (skip limit : option Z) (s : session) :
  0 <= default 0 skip -> 1 <= default dflt limit <= hi ->
  ((let* skip := Query 0 (Some 0) None skip in
    let* limit := Query dflt (Some 1) (Some hi) limit in
    query (body skip limit)) s).1 = inr (body (default 0 skip) (default dflt limit) (db s)).
Proof.
  intros H1 [H2 H3]. unfold bind, Query, ret, raise, query.
  apply Z.leb_le in H1, H2, H3. rewrite H1, H2, H3. reflexivity.
Qed.

(** ** Look-ups by key *)

(** X1 (get_trade): the look-up of a trade by its key answers with a
    stored trade that has the key and whose member is stored; it
    answers 404 exactly when no stored trade with the key has its member
    stored, so also for a stored trade whose member is missing. *)
Theorem get_trade_spec (trade_id : Z) (s : session) :
  match (Trades.get_trade trade_id s).1 with
  | inr t =>
      trade_id_ t = trade_id /\ In t (trades (db s))
      /\ exists m, In m (members (db s)) /\ member_id_ m = member_id t
  | inl e =>
      e = HTTPException 404 "Trade not found"
      /\ forall t m, In t (trades (db s)) -> trade_id_ t = trade_id ->
                     In m (members (db s)) -> member_id_ m <> member_id t
  end.
Proof.
  unfold Trades.get_trade, bind, query. cbn [fst snd db].
  destruct (head _) as [t|] eqn:E; simpl.
  - apply head_Some_elem_of, list_elem_of_In, in_map_iff in E as ([t' m] & <- & H).
    apply filter_In in H as [H Hid]. apply trades_join_members_In in H as (Ht & Hm & Hk).
    simpl in *. apply Z.eqb_eq in Hid. eauto 6.
  - split; [reflexivity|]. intros t m Ht Hid Hm Hk.
    apply head_None in E. apply map_eq_nil in E.
    assert (H : In (t, m) []); [|destruct H].
    rewrite <- E. apply filter_In. split.
    + now apply trades_join_members_In.
    + now apply Z.eqb_eq.
Qed.

(** X2 (get_member, get_committee): the look-up of a member, or of a
    committee, by its key answers with a stored row that has the key,
    and answers 404 exactly when no stored row has it. *)
Theorem lookup_by_key_spec (key : Z) (s : session) :
  match (Members.get_member key s).1 with
  | inr m => member_id_ m = key /\ In m (members (db s))
  | inl e => e = HTTPException 404 "Member not found"
             /\ forall m, In m (members (db s)) -> member_id_ m <> key
  end
  /\ match (Committees.get_committee key s).1 with
     | inr c => committee_id_ c = key /\ In c (committees (db s))
     | inl e => e = HTTPException 404 "Committee not found"
                /\ forall c, In c (committees (db s)) -> committee_id_ c <> key
     end.
Proof.
  split.
  - unfold Members.get_member, bind, query. cbn [fst snd db].
    destruct (List.find _ _) as [m|] eqn:E; simpl.
    + apply find_some in E as [H E]. apply Z.eqb_eq in E. auto.
    + split; [reflexivity|]. intros m Hm Hk.
      apply (find_none _ _ E) in Hm. apply Z.eqb_neq in Hm. contradiction.
  - unfold Committees.get_committee, bind, query. cbn [fst snd db].
    destruct (List.find _ _) as [c|] eqn:E; simpl.
    + apply find_some in E as [H E]. apply Z.eqb_eq in E. auto.
    + split; [reflexivity|]. intros c Hc Hk.
      apply (find_none _ _ E) in Hc. apply Z.eqb_neq in Hc. contradiction.
Qed.

(** ** Listings of trades *)

Lemma Sorted_impl {A} (R R' : A -> A -> Prop) (l : list A) :
  (forall a b, R a b -> R' a b) -> Sorted R l -> Sorted R' l.
Proof.
  intros H. induction 1 as [|y l Hs IH Hy]; constructor; [exact IH|].
  destruct Hy; constructor. now apply H.
Qed.

(** The trades of a page of joined rows, most recent first. *)
Lemma joined_page_Sorted (skip limit : Z) (l : list (Trade * Member)) :
  Sorted (fun a b => transaction_date b <= transaction_date a)
    (map fst (Sql.offset_limit skip limit
       (Sql.order_by (fun a b => transaction_date b.1 <=? transaction_date a.1) l))).
Proof.
  apply Sorted_map.
  apply (Sorted_impl (fun a b => (transaction_date b.1 <=? transaction_date a.1) = true)).
  - intros a b H. now apply Z.leb_le.
  - apply page_Sorted. intros a b. apply (by_date_total (fun r => transaction_date r.1)).
Qed.

Lemma truthy_opt_Some (x : string) : x <> "" -> Py.truthy_opt (Some x) = true.
Proof. destruct x; [congruence | reflexivity]. Qed.

Lemma truthy_int_Some (x : Z) : x <> 0 -> truthy_int (Some x) = true.
Proof. intros H. simpl. apply Z.eqb_neq in H. now rewrite H. Qed.

Lemma holds_or_ge (a b : option Py.pyfloat) (v : Py.pyfloat) :
  Sql.holds (Sql.or_ (Sql.ge a v) (Sql.ge b v)) = true ->
  exists x, (a = Some x \/ b = Some x) /\ Py.float_le v x = true.
Proof.
  destruct a as [x|], b as [y|]; simpl;
    try destruct (Py.float_le v x) eqn:Ex; try destruct (Py.float_le v y) eqn:Ey;
    simpl; try discriminate; eauto.
Qed.

Lemma holds_or_le (a b : option Py.pyfloat) (v : Py.pyfloat) :
  Sql.holds (Sql.or_ (Sql.le a v) (Sql.le b v)) = true ->
  exists x, (a = Some x \/ b = Some x) /\ Py.float_le x v = true.
Proof.
  destruct a as [x|], b as [y|]; simpl;
    try destruct (Py.float_le x v) eqn:Ex; try destruct (Py.float_le y v) eqn:Ey;
    simpl; try discriminate; eauto.
Qed.

(** X3 (get_trades): every trade of the listing is a stored trade whose
    member is stored, it passes each filter that was given with a value
    that is not zero or empty, and the trades come most recent first. *)
Theorem get_trades_sound
        (skip limit member_id_p : option Z)
        (chamber_p party_p ticker_p transaction_type_p : option string)
        (start_date end_date : option datetime)
        (min_amount max_amount : option Py.pyfloat)
        (s : session) (out : list Trade) :
  (Trades.get_trades skip limit member_id_p chamber_p party_p ticker_p transaction_type_p
     start_date end_date min_amount max_amount s).1 = inr out ->
  Sorted (fun a b => transaction_date b <= transaction_date a) out
  /\ forall t, In t out ->
       In t (trades (db s))
       /\ (forall x, member_id_p = Some x -> x <> 0 -> member_id t = x)
       /\ (forall x, ticker_p = Some x -> x <> "" ->
             Sql.ilike (ticker t) ("%" ++ x ++ "%") = true)
       /\ (forall x, transaction_type_p = Some x -> x <> "" -> transaction_type t = x)
       /\ (forall x, start_date = Some x -> x <= transaction_date t)
       /\ (forall x, end_date = Some x -> transaction_date t <= x)
       /\ (forall x, min_amount = Some x -> Py.float_truthy x = true ->
             exists a, (amount_exact t = Some a \/ amount_min t = Some a)
                       /\ Py.float_le x a = true)
       /\ (forall x, max_amount = Some x -> Py.float_truthy x = true ->
             exists a, (amount_exact t = Some a \/ amount_max t = Some a)
                       /\ Py.float_le a x = true)
       /\ exists m, In m (members (db s)) /\ member_id_ m = member_id t
            /\ (forall x, chamber_p = Some x -> x <> "" -> chamber m = x)
            /\ (forall x, party_p = Some x -> x <> "" -> party m = Some x).
Proof.
  unfold Trades.get_trades. intros H. apply paged_inv in H as (_ & _ & ->).
  split; [apply joined_page_Sorted|].
  intros t Ht. apply in_map_iff in Ht as ([t' m] & <- & Hr). apply page_In in Hr.
  apply filter_if_In in Hr as [Hr Hmax]. apply filter_if_In in Hr as [Hr Hmin].
  apply filter_if_In in Hr as [Hr Hend]. apply filter_if_In in Hr as [Hr Hstart].
  apply filter_if_In in Hr as [Hr Htype]. apply filter_if_In in Hr as [Hr Hticker].
  apply filter_if_In in Hr as [Hr Hparty]. apply filter_if_In in Hr as [Hr Hchamber].
  apply filter_if_In in Hr as [Hr Hmember].
  apply trades_join_members_In in Hr as (Ht & Hm & Hk). cbn [fst snd] in *.
  split; [exact Ht|]. split; [|split; [|split; [|split; [|split; [|split; [|split]]]]]].
  - intros x -> Hx. apply Z.eqb_eq. apply Hmember. now apply truthy_int_Some.
  - intros x -> Hx. apply Hticker. now apply truthy_opt_Some.
  - intros x -> Hx. apply String.eqb_eq. apply Htype. now apply truthy_opt_Some.
  - intros x ->. apply Z.leb_le. now apply Hstart.
  - intros x ->. apply Z.leb_le. now apply Hend.
  - intros x -> Hx. apply holds_or_ge. now apply Hmin.
  - intros x -> Hx. apply holds_or_le. now apply Hmax.
  - exists m. split; [exact Hm|]. split; [exact Hk|]. split.
    + intros x -> Hx. apply String.eqb_eq. apply Hchamber. now apply truthy_opt_Some.
    + intros x -> Hx. specialize (Hparty (truthy_opt_Some x Hx)). simpl in Hparty.
      unfold eq_opt_string in Hparty. destruct (party m) as [p|]; [|discriminate].
      apply String.eqb_eq in Hparty. now subst.
Qed.

Lemma get_trades_sound_witness :
  exists out,
    (Trades.get_trades None (Some 3) (Some 1) (Some "Senate") None (Some "aapl") None
       (Some 1690000000000000) None (Some (Py.of_int 5000)) None Sample.collected).1 = inr out
    /\ Sorted (fun a b => transaction_date b <= transaction_date a) out.
Proof.
  eexists ?[out].
  assert (H : (Trades.get_trades None (Some 3) (Some 1) (Some "Senate") None (Some "aapl") None
                 (Some 1690000000000000) None (Some (Py.of_int 5000)) None
                 Sample.collected).1 = inr ?out) by (vm_compute; reflexivity).
  exact (conj H (proj1 (get_trades_sound _ _ _ _ _ _ _ _ _ _ _ _ _ H))).
Defined.

(** X4 (get_recent_trades): the listing of recent trades is refused
    unless the number of days is between 1 and 365 and the limit between
    1 and 500; otherwise it holds at most [limit] trades, each stored,
    with its member stored and dated no earlier than the given number of
    days before the reading of the clock, most recent first. *)
Theorem get_recent_trades_spec (now : datetime) (days limit : option Z) (s : session) :
  (~ (1 <= default 30 days <= 365 /\ 1 <= default 50 limit <= 500) ->
   Trades.get_recent_trades now days limit s = (inl RequestValidationError, s))
  /\ (forall out,
        (Trades.get_recent_trades now days limit s).1 = inr out ->
        Z.of_nat (length out) <= default 50 limit <= 500
        /\ Sorted (fun a b => transaction_date b <= transaction_date a) out
        /\ forall t, In t out ->
             In t (trades (db s))
             /\ (exists m, In m (members (db s)) /\ member_id_ m = member_id t)
             /\ now - default 30 days * 86400000000 <= transaction_date t).
Proof.
  unfold Trades.get_recent_trades, bind, Query, ret, raise, query.
  destruct (1 <=? default 30 days) eqn:E1, (default 30 days <=? 365) eqn:E2;
    cbn [andb]; cbv iota beta;
    try (split; [reflexivity | discriminate]).
  destruct (1 <=? default 50 limit) eqn:E3, (default 50 limit <=? 500) eqn:E4;
    cbn [andb]; cbv iota beta;
    try (split; [reflexivity | discriminate]).
  apply Z.leb_le in E1, E2, E3, E4. split; [intros H; exfalso; apply H; lia|].
  cbn [fst snd db]. intros out [= <-]. split; [|split].
  - rewrite length_map, length_take. lia.
  - apply (joined_page_Sorted 0 (default 50 limit)).
  - intros t Ht. apply in_map_iff in Ht as ([t' m] & <- & Hr).
    apply (page_In _ 0 (default 50 limit)) in Hr. apply filter_In in Hr as [Hr Hd].
    apply trades_join_members_In in Hr as (Ht & Hm & Hk). cbn [fst snd] in *.
    apply Z.leb_le in Hd. unfold timedelta_days in Hd. eauto.
Qed.

Lemma get_recent_trades_spec_witness :
  Trades.get_recent_trades 1700000000000000 (Some 366) None Sample.collected
  = (inl RequestValidationError, Sample.collected)
  /\ exists out,
       (Trades.get_recent_trades 1700000000000000 (Some 60) (Some 2) Sample.collected).1
       = inr out
       /\ Z.of_nat (length out) <= 2 <= 500.
Proof.
  split.
  - apply (proj1 (get_recent_trades_spec 1700000000000000 (Some 366) None Sample.collected)).
    simpl. lia.
  - eexists ?[out].
    assert (H : (Trades.get_recent_trades 1700000000000000 (Some 60) (Some 2)
                   Sample.collected).1 = inr ?out) by (vm_compute; reflexivity).
    exact (conj H (proj1 (proj2 (get_recent_trades_spec _ _ _ _) _ H))).
Defined.

(** X5 (get_trades_by_member): the listing of the trades of a member
    holds only stored trades attached to the given key, most recent
    first; the members are not consulted, so a key that no trade carries
    gives the empty listing and not a 404, and when the trades of the key
    fit in the first page all of them are listed, whether or not a member
    with the key is stored. *)
Theorem get_trades_by_member_spec (member_id_p : Z) (skip limit : option Z) (s : session) :
  0 <= default 0 skip -> 1 <= default 100 limit <= 1000 ->
  exists out,
    (Trades.get_trades_by_member member_id_p skip limit s).1 = inr out
    /\ Sorted (fun a b => transaction_date b <= transaction_date a) out
    /\ (forall t, In t out -> In t (trades (db s)) /\ member_id t = member_id_p)
    /\ ((forall t, In t (trades (db s)) -> member_id t <> member_id_p) -> out = [])
    /\ (default 0 skip = 0 ->
        Z.of_nat (length (List.filter (fun t => member_id t =? member_id_p) (trades (db s))))
        <= default 100 limit ->
        Permutation out
          (List.filter (fun t => member_id t =? member_id_p) (trades (db s)))).
Proof.
  intros Hs Hl. eexists. split; [apply paged_run; assumption|].
  cbv beta. split; [|split; [|split]].
  - apply (Sorted_impl (fun a b => (transaction_date b <=? transaction_date a) = true)).
    + intros a b H. now apply Z.leb_le.
    + apply page_Sorted. intros a b. apply (by_date_total transaction_date).
  - intros t Ht. apply page_In in Ht. apply filter_In in Ht as [Ht E].
    apply Z.eqb_eq in E. auto.
  - intros H.
    assert (E : List.filter (fun t => member_id t =? member_id_p) (trades (db s)) = []).
    { destruct (List.filter _ _) as [|t l] eqn:E; [reflexivity|].
      assert (Ht : In t (t :: l)) by now left.
      rewrite <- E in Ht. apply filter_In in Ht as [Ht Ek]. apply Z.eqb_eq in Ek.
      now destruct (H t Ht). }
    rewrite E. unfold Sql.offset_limit, Sql.order_by. simpl.
    rewrite drop_nil. apply take_nil.
  - intros E0 Hn. unfold Sql.offset_limit. rewrite E0. change (Z.to_nat 0) with 0%nat.
    rewrite drop_0, take_ge; [apply order_by_permutation|].
    rewrite (Permutation_length (order_by_permutation _ _)). lia.
Qed.

Lemma get_trades_by_member_spec_witness :
  exists out,
    (Trades.get_trades_by_member 99 None None Sample.collected).1 = inr out /\ out = [].
Proof.
  destruct (get_trades_by_member_spec 99 None None Sample.collected)
    as (out & H & _ & _ & He & _); [simpl; lia | simpl; lia |].
  exists out. split; [exact H|]. apply He.
  assert (F : forallb (fun t => negb (member_id t =? 99)) (trades (db Sample.collected))
              = true) by (vm_compute; reflexivity).
  intros t Ht E. apply (proj1 (forallb_forall _ _) F) in Ht.
  rewrite E, Z.eqb_refl in Ht. discriminate Ht.
Defined.

(** ** The case of letters in searches and paths *)

Lemma lower_upper_char (c : ascii) : Py.lower_char (Py.upper_char c) = Py.lower_char c.
Proof. destruct c as [[] [] [] [] [] [] [] []]; reflexivity. Qed.

Lemma lower_lower_char (c : ascii) : Py.lower_char (Py.lower_char c) = Py.lower_char c.
Proof. destruct c as [[] [] [] [] [] [] [] []]; reflexivity. Qed.

Lemma upper_lower_char (c : ascii) : Py.upper_char (Py.lower_char c) = Py.upper_char c.
Proof. destruct c as [[] [] [] [] [] [] [] []]; reflexivity. Qed.

Lemma cased_lower_char (c : ascii) :
  (Py.is_upper (Py.lower_char c) || Py.is_lower (Py.lower_char c))%bool
  = (Py.is_upper c || Py.is_lower c)%bool.
Proof. destruct c as [[] [] [] [] [] [] [] []]; reflexivity. Qed.

Lemma lower_upper (s : string) : Py.lower (Py.upper s) = Py.lower s.
Proof.
  unfold Py.lower, Py.upper. rewrite chars_str, map_map. f_equal.
  apply map_ext. intros c. apply lower_upper_char.
Qed.

Lemma truthy_lower (s : string) : Py.truthy (Py.lower s) = Py.truthy s.
Proof. destruct s; reflexivity. Qed.

Lemma truthy_upper (s : string) : Py.truthy (Py.upper s) = Py.truthy s.
Proof. destruct s; reflexivity. Qed.

Lemma title_from_lower (prev_cased : bool) (l : list ascii) :
  Py.title_from prev_cased (map Py.lower_char l) = Py.title_from prev_cased l.
Proof.
  revert prev_cased. induction l as [|c l IH]; intros prev_cased; simpl; [reflexivity|].
  rewrite cased_lower_char, IH, lower_lower_char, upper_lower_char. reflexivity.
Qed.

(** The title form of a text depends only on its lower-case form. *)
Lemma title_lower (s : string) : Py.title (Py.lower s) = Py.title s.
Proof. unfold Py.title, Py.lower. now rewrite chars_str, title_from_lower. Qed.

(** X6 (get_trades_by_ticker, get_trades, search_members): a search by
    ticker, the ticker filter of the listing of trades and a search of
    members by name give the same answer for two texts that differ only
    in the case of their letters. *)
Theorem search_ignores_case (a b : string) (s : session) :
  Py.lower a = Py.lower b ->
  (forall skip limit,
      Trades.get_trades_by_ticker a skip limit s = Trades.get_trades_by_ticker b skip limit s)
  /\ (forall skip limit member_id_p chamber_p party_p transaction_type_p start_date end_date
             min_amount max_amount,
         Trades.get_trades skip limit member_id_p chamber_p party_p (Some a)
           transaction_type_p start_date end_date min_amount max_amount s
         = Trades.get_trades skip limit member_id_p chamber_p party_p (Some b)
             transaction_type_p start_date end_date min_amount max_amount s)
  /\ (forall skip limit,
         Members.search_members a skip limit s = Members.search_members b skip limit s).
Proof.
  intros H. split; [|split]; intros.
  - unfold Trades.get_trades_by_ticker, Sql.ilike.
    rewrite !lower_app, !lower_upper, H. reflexivity.
  - unfold Trades.get_trades, Sql.ilike.
    change (default "" (Some a)) with a. change (default "" (Some b)) with b.
    change (Py.truthy_opt (Some a)) with (Py.truthy a).
    change (Py.truthy_opt (Some b)) with (Py.truthy b).
    rewrite <- (truthy_lower a), <- (truthy_lower b), !lower_app, H. reflexivity.
  - unfold Members.search_members, Sql.ilike. rewrite !lower_app, H. reflexivity.
Qed.

Lemma search_ignores_case_witness :
  Py.lower "aapl" = Py.lower "AaPl"
  /\ Trades.get_trades_by_ticker "aapl" None None Sample.collected
     = Trades.get_trades_by_ticker "AaPl" None None Sample.collected.
Proof.
  assert (H : Py.lower "aapl" = Py.lower "AaPl") by reflexivity.
  exact (conj H (proj1 (search_ignores_case "aapl" "AaPl" Sample.collected H) None None)).
Defined.

(** X7 (get_members_by_chamber, get_members_by_state,
    get_members_by_party, get_committees_by_chamber): a listing by a
    path segment is the general listing with that one filter: the
    chamber in any capitalisation of House, Senate (or Joint, for
    committees), the state put in capitals, the party as given. *)
Theorem by_path_is_filter (skip limit : option Z) (s : session) :
  (forall c x, In x ["House"; "Senate"] -> Py.lower c = Py.lower x ->
      Members.get_members_by_chamber c skip limit s
      = Members.get_members skip limit (Some x) None None None s)
  /\ (forall st, st <> "" ->
         Members.get_members_by_state st skip limit s
         = Members.get_members skip limit None None (Some (Py.upper st)) None s)
  /\ (forall p, p <> "" ->
         Members.get_members_by_party p skip limit s
         = Members.get_members skip limit None (Some p) None None s)
  /\ (forall c x, In x ["House"; "Senate"; "Joint"] -> Py.lower c = Py.lower x ->
         Committees.get_committees_by_chamber c skip limit s
         = Committees.get_committees skip limit (Some x) None s).
Proof.
  split; [|split; [|split]].
  - intros c x Hx E. unfold Members.get_members_by_chamber, Members.get_members.
    rewrite <- (title_lower c), E.
    destruct Hx as [<- | [<- | []]]; reflexivity.
  - intros st Hst. unfold Members.get_members_by_state, Members.get_members.
    assert (T : Py.truthy_opt (Some (Py.upper st)) = true).
    { simpl. rewrite truthy_upper. destruct st; [congruence | reflexivity]. }
    rewrite T. reflexivity.
  - intros p Hp. unfold Members.get_members_by_party, Members.get_members.
    rewrite (truthy_opt_Some p Hp). reflexivity.
  - intros c x Hx E. unfold Committees.get_committees_by_chamber, Committees.get_committees.
    rewrite <- (title_lower c), E.
    destruct Hx as [<- | [<- | [<- | []]]]; reflexivity.
Qed.

Lemma by_path_is_filter_witness :
  In "Senate" ["House"; "Senate"] /\ Py.lower "sEnAtE" = Py.lower "Senate"
  /\ Members.get_members_by_chamber "sEnAtE" None None Sample.collected
     = Members.get_members None None (Some "Senate") None None None Sample.collected.
Proof.
  assert (H1 : In "Senate" ["House"; "Senate"]) by (right; left; reflexivity).
  assert (H2 : Py.lower "sEnAtE" = Py.lower "Senate") by reflexivity.
  exact (conj H1 (conj H2
    (proj1 (by_path_is_filter None None Sample.collected) "sEnAtE" "Senate" H1 H2))).
Defined.

(** ** A search by name *)

Lemma like_percent_all eqc s : Sql.like_chars eqc ["%"%char] s = true.
Proof.
  induction s as [|c s IH]; [reflexivity|].
  rewrite like_percent_cons, IH. apply orb_true_r.
Qed.

(** A pattern without wildcards followed by a percent sign matches the
    texts that start with it. *)
Lemma like_prefix (t s : list ascii) :
  wildcard_free t ->
  Sql.like_chars Ascii.eqb (t ++ ["%"%char])%list s = true
  <-> exists after, s = (t ++ after)%list.
Proof.
  intros W. revert s. induction W as [|c t [Hp Hu] W IH]; intros s.
  - simpl app. rewrite like_percent_all. split; eauto.
  - change ((c :: t) ++ ["%"%char])%list with (c :: (t ++ ["%"%char]))%list.
    cbn [Sql.like_chars]. rewrite (proj2 (Ascii.eqb_neq c "%") Hp).
    destruct s as [|d s].
    + split; [discriminate | intros [a H]; discriminate].
    + rewrite (proj2 (Ascii.eqb_neq c "_") Hu). cbn [orb].
      rewrite andb_true_iff, Ascii.eqb_eq, IH. split.
      * intros [-> [a ->]]. exists a. reflexivity.
      * intros [a [= -> ->]]. eauto.
Qed.

(** A percent sign in front lets the rest of the pattern start anywhere. *)
Lemma like_anywhere eqc (p s : list ascii) :
  Sql.like_chars eqc ("%"%char :: p) s = true
  <-> exists before rest, s = (before ++ rest)%list /\ Sql.like_chars eqc p rest = true.
Proof.
  induction s as [|c s IH].
  - rewrite like_percent_nil. split.
    + intros H. exists [], []. auto.
    + intros (b & r & E & H). symmetry in E. apply app_eq_nil in E as [-> ->]. exact H.
  - rewrite like_percent_cons, orb_true_iff, IH. split.
    + intros [H | (b & r & -> & H)].
      * exists [], (c :: s). auto.
      * exists (c :: b), r. auto.
    + intros (b & r & E & H). destruct b as [|c' b].
      * simpl in E. subst r. left. exact H.
      * injection E as -> ->. right. eauto.
Qed.

Lemma like_occurs (t s : list ascii) :
  wildcard_free t ->
  Sql.like_chars Ascii.eqb ("%"%char :: t ++ ["%"%char])%list s = true <-> occurs_in t s.
Proof.
  intros W. rewrite like_anywhere. unfold occurs_in. split.
  - intros (b & r & -> & H). apply like_prefix in H as [a ->]; eauto.
  - intros (b & a & ->). exists b, (t ++ a)%list. split; [reflexivity|].
    apply like_prefix; eauto.
Qed.

Lemma lower_char_wildcard (c : ascii) :
  c <> "%"%char /\ c <> "_"%char ->
  Py.lower_char c <> "%"%char /\ Py.lower_char c <> "_"%char.
Proof.
  intros [H1 H2].
  destruct c as [[] [] [] [] [] [] [] []];
    try (split; intros E; vm_compute in E; discriminate E);
    exfalso; (apply H1; reflexivity) || (apply H2; reflexivity).
Qed.

Lemma chars_lower (s : string) : Py.chars (Py.lower s) = map Py.lower_char (Py.chars s).
Proof. unfold Py.lower. apply chars_str. Qed.

Lemma ilike_occurs (subject text : string) :
  wildcard_free (Py.chars text) ->
  Sql.ilike subject ("%" ++ text ++ "%") = true
  <-> occurs_in (Py.chars (Py.lower text)) (Py.chars (Py.lower subject)).
Proof.
  intros W. unfold Sql.ilike. rewrite !lower_app, !chars_app.
  change (Py.chars (Py.lower "%")) with ["%"%char]. simpl app.
  apply like_occurs. rewrite chars_lower. unfold wildcard_free in *.
  rewrite List.Forall_forall in *. intros c Hc.
  apply in_map_iff in Hc as (c' & <- & Hc'). apply lower_char_wildcard. auto.
Qed.

(** X8 (search_members): for a text with no percent sign and no
    underscore, the members found are stored members whose name contains
    the text, letters compared without regard to case, in the order of
    their names; when the first page can hold every member, all such
    members are found. *)
Theorem search_members_substring (name_p : string) (skip limit : option Z) (s : session) :
  wildcard_free (Py.chars name_p) ->
  0 <= default 0 skip -> 1 <= default 20 limit <= 100 ->
  exists out,
    (Members.search_members name_p skip limit s).1 = inr out
    /\ Sorted (fun a b => String.leb (name a) (name b) = true) out
    /\ (forall m, In m out ->
          In m (members (db s))
          /\ occurs_in (Py.chars (Py.lower name_p)) (Py.chars (Py.lower (name m))))
    /\ (default 0 skip = 0 -> Z.of_nat (length (members (db s))) <= default 20 limit ->
        forall m, In m (members (db s)) ->
          occurs_in (Py.chars (Py.lower name_p)) (Py.chars (Py.lower (name m))) ->
          In m out).
Proof.
  intros W Hs Hl. eexists. split; [apply paged_run; assumption|].
  cbv beta. split; [|split].
  - apply page_Sorted. intros a b. apply (by_name_total name).
  - intros m Hm. apply page_In in Hm. apply filter_In in Hm as [Hm E].
    split; [exact Hm|]. now apply ilike_occurs.
  - intros E0 Hn m Hm Ho. unfold Sql.offset_limit. rewrite E0.
    change (Z.to_nat 0) with 0%nat. rewrite drop_0, take_ge.
    + apply order_by_In, filter_In. split; [exact Hm|]. now apply ilike_occurs.
    + rewrite (Permutation_length (order_by_permutation _ _)).
      pose proof (filter_length_le
                    (fun m => Sql.ilike (name m) ("%" ++ name_p ++ "%")) (members (db s))).
      lia.
Qed.

Lemma search_members_substring_witness :
  exists out,
    (Members.search_members "DOE" None None Sample.collected).1 = inr out
    /\ forall m, In m out ->
         In m (members (db Sample.collected))
         /\ occurs_in (Py.chars (Py.lower "DOE")) (Py.chars (Py.lower (name m))).
Proof.
  assert (W : wildcard_free (Py.chars "DOE")).
  { repeat constructor; discriminate. }
  destruct (search_members_substring "DOE" None None Sample.collected W)
    as (out & H & _ & Hin & _); [simpl; lia | simpl; lia |].
  exists out. exact (conj H Hin).
Defined.

(** ** Listings of members and of committees *)

(** X9 (get_members): every member of the listing is a stored member
    that passes each filter given with a value that is not empty; with
    has_trades true it has a stored trade, with has_trades false it has
    none; the members come in the order of their names. *)
Theorem get_members_sound
        (skip limit : option Z) (chamber_p party_p state_p : option string)
        (has_trades : option bool) (s : session) (out : list Member) :
  (Members.get_members skip limit chamber_p party_p state_p has_trades s).1 = inr out ->
  Sorted (fun a b => String.leb (name a) (name b) = true) out
  /\ forall m, In m out ->
       In m (members (db s))
       /\ (forall x, chamber_p = Some x -> x <> "" -> chamber m = x)
       /\ (forall x, party_p = Some x -> x <> "" -> party m = Some x)
       /\ (forall x, state_p = Some x -> x <> "" -> state m = x)
       /\ (has_trades = Some true ->
           exists t, In t (trades (db s)) /\ member_id t = member_id_ m)
       /\ (has_trades = Some false ->
           forall t, In t (trades (db s)) -> member_id t <> member_id_ m).
Proof.
  unfold Members.get_members. intros H. apply paged_inv in H as (_ & _ & ->).
  split; [apply page_Sorted; intros a b; apply (by_name_total name)|].
  intros m Hm. apply page_In in Hm.
  assert (Hq : In m (filter_if (Py.truthy_opt state_p)
                       (fun m => String.eqb (state m) (default "" state_p))
                       (filter_if (Py.truthy_opt party_p)
                          (fun m => eq_opt_string (party m) (default "" party_p))
                          (filter_if (Py.truthy_opt chamber_p)
                             (fun m => String.eqb (chamber m) (default "" chamber_p))
                             (members (db s)))))
               /\ (has_trades = Some true ->
                   existsb (fun t => member_id t =? member_id_ m) (trades (db s)) = true)
               /\ (has_trades = Some false ->
                   existsb (fun t => member_id t =? member_id_ m) (trades (db s)) = false)).
  { destruct has_trades as [[]|].
    - apply filter_In in Hm as [Hm E]. repeat split; [exact Hm | auto | discriminate].
    - apply filter_In in Hm as [Hm E]. apply negb_true_iff in E.
      repeat split; [exact Hm | discriminate | auto].
    - repeat split; [exact Hm | discriminate | discriminate]. }
  destruct Hq as (Hq & Hany & Hnone).
  apply filter_if_In in Hq as [Hq Hstate]. apply filter_if_In in Hq as [Hq Hparty].
  apply filter_if_In in Hq as [Hq Hchamber].
  split; [exact Hq|]. split; [|split; [|split; [|split]]].
  - intros x -> Hx. apply String.eqb_eq. apply Hchamber. now apply truthy_opt_Some.
  - intros x -> Hx. specialize (Hparty (truthy_opt_Some x Hx)). simpl in Hparty.
    unfold eq_opt_string in Hparty. destruct (party m) as [p|]; [|discriminate].
    apply String.eqb_eq in Hparty. now subst.
  - intros x -> Hx. apply String.eqb_eq. apply Hstate. now apply truthy_opt_Some.
  - intros E. apply Hany, existsb_exists in E as (t & Ht & Ek). apply Z.eqb_eq in Ek. eauto.
  - intros E t Ht Ek. specialize (Hnone E).
    assert (X : existsb (fun t => member_id t =? member_id_ m) (trades (db s)) = true).
    { apply existsb_exists. exists t. split; [exact Ht | now apply Z.eqb_eq]. }
    congruence.
Qed.

Lemma get_members_sound_witness :
  exists out,
    (Members.get_members None None None None None (Some true) Sample.collected).1 = inr out
    /\ Sorted (fun a b => String.leb (name a) (name b) = true) out.
Proof.
  eexists ?[out].
  assert (H : (Members.get_members None None None None None (Some true)
                 Sample.collected).1 = inr ?out) by (vm_compute; reflexivity).
  exact (conj H (proj1 (get_members_sound _ _ _ _ _ _ _ _ H))).
Defined.

(** X10 (get_committees, get_main_committees, get_subcommittees): the
    listing of main committees holds only stored committees that are not
    subcommittees, the listing of subcommittees only stored
    subcommittees, of the given parent when one is given that is not
    zero, and the general listing only committees with the given flag
    and chamber; each in the order of the names. *)
Theorem committee_listings_sound (skip limit : option Z) (s : session) :
  (forall chamber_p out,
      (Committees.get_main_committees skip limit chamber_p s).1 = inr out ->
      Sorted (fun a b => String.leb (committee_name a) (committee_name b) = true) out
      /\ forall c, In c out ->
           In c (committees (db s)) /\ subcommittee c = false
           /\ (forall x, chamber_p = Some x -> x <> "" -> committee_chamber c = x))
  /\ (forall parent out,
         (Committees.get_subcommittees skip limit parent s).1 = inr out ->
         Sorted (fun a b => String.leb (committee_name a) (committee_name b) = true) out
         /\ forall c, In c out ->
              In c (committees (db s)) /\ subcommittee c = true
              /\ (forall x, parent = Some x -> x <> 0 -> parent_committee_id c = Some x))
  /\ (forall chamber_p flag out,
         (Committees.get_committees skip limit chamber_p flag s).1 = inr out ->
         Sorted (fun a b => String.leb (committee_name a) (committee_name b) = true) out
         /\ forall c, In c out ->
              In c (committees (db s))
              /\ (forall x, chamber_p = Some x -> x <> "" -> committee_chamber c = x)
              /\ (forall x, flag = Some x -> subcommittee c = x)).
Proof.
  split; [|split].
  - intros chamber_p out H. unfold Committees.get_main_committees in H.
    apply paged_inv in H as (_ & _ & ->).
    split; [apply page_Sorted; intros a b; apply (by_name_total committee_name)|].
    intros c Hc. apply page_In in Hc. apply filter_if_In in Hc as [Hc Hch].
    apply filter_In in Hc as [Hc Hsub]. apply Bool.eqb_prop in Hsub.
    repeat split; [exact Hc | exact Hsub |].
    intros x -> Hx. apply String.eqb_eq. apply Hch. now apply truthy_opt_Some.
  - intros parent out H. unfold Committees.get_subcommittees in H.
    apply paged_inv in H as (_ & _ & ->).
    split; [apply page_Sorted; intros a b; apply (by_name_total committee_name)|].
    intros c Hc. apply page_In in Hc. apply filter_if_In in Hc as [Hc Hp].
    apply filter_In in Hc as [Hc Hsub]. apply Bool.eqb_prop in Hsub.
    repeat split; [exact Hc | exact Hsub |].
    intros x -> Hx. specialize (Hp (truthy_int_Some x Hx)). simpl in Hp.
    destruct (parent_committee_id c) as [p|]; [|discriminate].
    apply Z.eqb_eq in Hp. now subst.
  - intros chamber_p flag out H. unfold Committees.get_committees in H.
    apply paged_inv in H as (_ & _ & ->).
    split; [apply page_Sorted; intros a b; apply (by_name_total committee_name)|].
    intros c Hc. apply page_In in Hc.
    assert (Hq : In c (filter_if (Py.truthy_opt chamber_p)
                         (fun c => String.eqb (committee_chamber c) (default "" chamber_p))
                         (committees (db s)))
                 /\ forall x, flag = Some x -> subcommittee c = x).
    { destruct flag as [f|].
      - apply filter_In in Hc as [Hc E]. apply Bool.eqb_prop in E.
        split; [exact Hc|]. now intros x [= <-].
      - split; [exact Hc | discriminate]. }
    destruct Hq as [Hq Hflag]. apply filter_if_In in Hq as [Hq Hch].
    repeat split; [exact Hq | | exact Hflag].
    intros x -> Hx. apply String.eqb_eq. apply Hch. now apply truthy_opt_Some.
Qed.

Lemma committee_listings_sound_witness :
  (Committees.get_subcommittees None None (Some 1)
     (new_session Sample.with_committees)).1
  = inr [Sample.health_care; Sample.taxation]
  /\ Sorted (fun a b => String.leb (committee_name a) (committee_name b) = true)
            [Sample.health_care; Sample.taxation]
  /\ forall c, In c [Sample.health_care; Sample.taxation] ->
       In c (committees Sample.with_committees) /\ subcommittee c = true
       /\ (forall x, Some 1 = Some x -> x <> 0 -> parent_committee_id c = Some x).
Proof.
  assert (H : (Committees.get_subcommittees None None (Some 1)
                 (new_session Sample.with_committees)).1
              = inr [Sample.health_care; Sample.taxation]) by (vm_compute; reflexivity).
  exact (conj H (proj1 (proj2 (committee_listings_sound None None
                                 (new_session Sample.with_committees)))
                   (Some 1) _ H)).
Defined.

(** ** The most active members *)

Local Abbreviation same_member := (fun a b : Member => member_id_ a =? member_id_ b).
Local Abbreviation key_of := (fun r : Member * nat => member_id_ r.1).

Lemma counted_count_key (m : Member) (z : Z) (rows : list (Member * nat)) :
  counted z (Trades.count_key same_member m rows)
  = if z =? member_id_ m then S (counted (member_id_ m) rows) else counted z rows.
Proof.
  induction rows as [|[m0 n] rows IH]; simpl.
  - destruct (z =? member_id_ m); reflexivity.
  - destruct (member_id_ m =? member_id_ m0) eqn:E; simpl.
    + apply Z.eqb_eq in E. rewrite <- E.
      destruct (z =? member_id_ m); reflexivity.
    + rewrite IH. destruct (z =? member_id_ m0) eqn:E0; [|reflexivity].
      apply Z.eqb_eq in E0. subst z. rewrite Z.eqb_sym in E. now rewrite E.
Qed.

Lemma keys_of_count_key (m : Member) (rows : list (Member * nat)) (z : Z) :
  In z (map key_of (Trades.count_key same_member m rows))
  <-> z = member_id_ m \/ In z (map key_of rows).
Proof.
  induction rows as [|[m0 n] rows IH]; simpl.
  - split; intros [H | []]; left; congruence.
  - destruct (member_id_ m =? member_id_ m0) eqn:E; simpl.
    + apply Z.eqb_eq in E. rewrite E.
      split; [intros [H | H] | intros [H | [H | H]]]; auto.
    + rewrite IH. split; [intros [H | [H | H]] | intros [H | [H | H]]]; auto.
Qed.

Lemma nodup_keys_count_key (m : Member) (rows : list (Member * nat)) :
  NoDup (map key_of rows) -> NoDup (map key_of (Trades.count_key same_member m rows)).
Proof.
  induction rows as [|[m0 n] rows IH]; simpl; intros H.
  - apply NoDup_singleton.
  - destruct (member_id_ m =? member_id_ m0) eqn:E; simpl; [exact H|].
    apply NoDup_cons in H as [H1 H2]. apply NoDup_cons. split; [|auto].
    rewrite list_elem_of_In, keys_of_count_key. intros [E' | H3].
    + rewrite E', Z.eqb_refl in E. discriminate E.
    + apply H1. now apply list_elem_of_In.
Qed.

Lemma rows_of_count_key (m : Member) (rows : list (Member * nat)) (r : Member * nat) :
  In r (Trades.count_key same_member m rows) -> r.1 = m \/ In r.1 (map fst rows).
Proof.
  induction rows as [|[m0 n] rows IH]; simpl.
  - intros [<- | []]. now left.
  - destruct (member_id_ m =? member_id_ m0); simpl.
    + intros [<- | H]; [right; left; reflexivity|].
      right. right. now apply in_map.
    + intros [<- | H]; [right; left; reflexivity|].
      destruct (IH H) as [E | E]; auto.
Qed.

Lemma counted_in (m : Member) (n : nat) (rows : list (Member * nat)) :
  NoDup (map key_of rows) -> In (m, n) rows -> counted (member_id_ m) rows = n.
Proof.
  induction rows as [|[m0 n0] rows IH]; simpl; intros H Hin; [destruct Hin|].
  destruct Hin as [E | Hin].
  - injection E as -> ->. now rewrite Z.eqb_refl.
  - apply NoDup_cons in H as [H1 H2].
    destruct (member_id_ m =? member_id_ m0) eqn:E; [|auto].
    apply Z.eqb_eq in E. exfalso. apply H1. rewrite <- E.
    apply list_elem_of_In. change (member_id_ m) with (key_of (m, n)). now apply in_map.
Qed.

Lemma group_members_from (keys : list Member) :
  forall acc,
    NoDup (map key_of acc) ->
    let rows := fold_left (fun acc m => Trades.count_key same_member m acc) keys acc in
    NoDup (map key_of rows)
    /\ (forall r, In r rows -> In r.1 keys \/ In r.1 (map fst acc))
    /\ forall z, counted z rows
                 = (counted z acc
                    + length (List.filter (fun m => (z =? member_id_ m)%Z) keys))%nat.
Proof.
  induction keys as [|m0 keys IH]; intros acc N; simpl.
  - repeat split; auto. intros r Hr. right. now apply in_map.
  - destruct (IH _ (nodup_keys_count_key m0 acc N)) as (N' & P' & C).
    repeat split; [exact N' | |].
    + intros r Hr. destruct (P' r Hr) as [H | H]; [auto|].
      apply in_map_iff in H as (r' & E & H). apply rows_of_count_key in H.
      rewrite E in H. destruct H as [H | H]; auto.
    + intros z. rewrite C, counted_count_key.
      destruct (z =? member_id_ m0) eqn:E; simpl; [|lia].
      apply Z.eqb_eq in E. subst z. lia.
Qed.

(** The grouped rows of members: one row per key, holding a member that
    was met and the number of rows met with its key. *)
Lemma group_members_spec (keys : list Member) :
  NoDup (map key_of (Trades.group_count same_member keys))
  /\ forall m n, In (m, n) (Trades.group_count same_member keys) ->
       In m keys
       /\ n = length (List.filter (fun m' => member_id_ m =? member_id_ m') keys).
Proof.
  destruct (group_members_from keys [] NoDup_nil_2) as (N & P & C).
  split; [exact N|]. intros m n Hin. split.
  - destruct (P _ Hin) as [H | []]. exact H.
  - rewrite <- (counted_in m n _ N Hin). apply C.
Qed.

Lemma filter_pairs_with {B} (p : Member -> bool) (m : Member) (l : list B) :
  length (List.filter p (map fst (map (pair m) l))) = if p m then length l else 0%nat.
Proof.
  induction l as [|x l IH]; simpl; [now destruct (p m)|].
  destruct (p m) eqn:E; simpl; rewrite IH; reflexivity.
Qed.

Lemma join_rows_absent (trades_ : list Trade) (ms : list Member) (z : Z) :
  ~ In z (map member_id_ ms) ->
  length (List.filter (fun m' => z =? member_id_ m')
            (map fst (flat_map (fun m =>
               map (pair m) (List.filter (fun t => member_id t =? member_id_ m) trades_))
               ms)))
  = 0%nat.
Proof.
  induction ms as [|m0 ms IH]; simpl; intros N; [reflexivity|].
  rewrite map_app, List.filter_app, length_app, IH by tauto.
  rewrite (filter_pairs_with (fun m' => z =? member_id_ m')).
  destruct (z =? member_id_ m0) eqn:E; [|reflexivity].
  apply Z.eqb_eq in E. subst z. tauto.
Qed.

(** With one member per key, the rows of the join that carry the key of
    a stored member are as many as its trades. *)
Lemma join_rows_of_member (trades_ : list Trade) (ms : list Member) (z : Z) :
  NoDup (map member_id_ ms) -> In z (map member_id_ ms) ->
  length (List.filter (fun m' => z =? member_id_ m')
            (map fst (flat_map (fun m =>
               map (pair m) (List.filter (fun t => member_id t =? member_id_ m) trades_))
               ms)))
  = length (List.filter (fun t => member_id t =? z) trades_).
Proof.
  induction ms as [|m0 ms IH]; simpl; intros N Hz; [destruct Hz|].
  apply NoDup_cons in N as [N1 N2]. rewrite list_elem_of_In in N1.
  rewrite map_app, List.filter_app, length_app,
    (filter_pairs_with (fun m' => z =? member_id_ m')).
  destruct (z =? member_id_ m0) eqn:E.
  - apply Z.eqb_eq in E. subst z. rewrite join_rows_absent by exact N1. lia.
  - apply Z.eqb_neq in E. destruct Hz as [Hz | Hz]; [congruence|].
    now rewrite (IH N2 Hz).
Qed.

Lemma Sorted_impl_In {A} (R R' : A -> A -> Prop) (l : list A) :
  (forall a b, In a l -> In b l -> R a b -> R' a b) -> Sorted R l -> Sorted R' l.
Proof.
  intros H Hs. induction Hs as [|y l Hs IH Hy]; constructor.
  - apply IH. intros a b Ha Hb. apply H; now right.
  - destruct Hy as [|z l Hz]; constructor. apply H; [now left | right; now left | exact Hz].
Qed.

(** X11 (get_most_active_traders): whatever the order in which the
    engine yields the grouped rows, the listing holds at most [limit]
    members, [limit] being at most 100; each is a stored member with at
    least one stored trade, no key comes twice, and when no two stored
    members share a key the members come in descending order of the
    number of their trades. *)
Theorem most_active_spec
        (yield_order : list (Member * nat) -> list (Member * nat))
        (limit : option Z) (s : session) (out : list Member) :
  (forall rows, Permutation (yield_order rows) rows) ->
  (Members.get_most_active_traders yield_order limit s).1 = inr out ->
  Z.of_nat (length out) <= default 10 limit <= 100
  /\ NoDup (map member_id_ out)
  /\ (forall m, In m out ->
        In m (members (db s))
        /\ exists t, In t (trades (db s)) /\ member_id t = member_id_ m)
  /\ (NoDup (map member_id_ (members (db s))) ->
      Sorted (fun a b => (trade_count (db s) b <= trade_count (db s) a)%nat) out).
Proof.
  intros Hy. unfold Members.get_most_active_traders, bind, Query, ret, raise, query.
  destruct (1 <=? default 10 limit) eqn:E1, (default 10 limit <=? 100) eqn:E2;
    cbn [andb]; cbv iota beta; try discriminate.
  apply Z.leb_le in E1, E2. cbn [fst snd db]. intros [= <-].
  set (G := Trades.group_count same_member (map fst (members_join_trades (db s)))).
  set (O := Sql.order_by (fun a b : Member * nat => (b.2 <=? a.2)%nat) (yield_order G)).
  destruct (group_members_spec (map fst (members_join_trades (db s)))) as [N C].
  fold G in N, C.
  assert (PO : Permutation O G).
  { unfold O. rewrite order_by_permutation. apply Hy. }
  assert (InG : forall r, In r (take (Z.to_nat (default 10 limit)) O) -> In r G).
  { intros r Hr. apply (Permutation_in _ PO).
    apply list_elem_of_In. apply list_elem_of_In in Hr.
    exact (subseteq_take _ _ _ Hr). }
  split; [|split; [|split]].
  - rewrite length_map, length_take. lia.
  - rewrite map_map, <- firstn_map. apply (sublist_NoDup _ (map key_of O)).
    + apply NoDup_ListNoDup. apply (Permutation_NoDup (l := map key_of G)).
      * apply Permutation_map. now symmetry.
      * apply NoDup_ListNoDup, N.
    + apply sublist_take.
  - intros m Hm. apply in_map_iff in Hm as ([m' n] & <- & Hr). apply InG in Hr.
    apply C in Hr as [Hr _]. apply in_map_iff in Hr as ([m'' t] & E & Hr).
    simpl in E. subst m''. apply members_join_trades_In in Hr as (Hm & Ht & Ek).
    simpl. eauto.
  - intros U. apply Sorted_map.
    apply (Sorted_impl_In (fun a b : Member * nat => (b.2 <=? a.2)%nat = true)).
    + assert (K : forall r, In r (take (Z.to_nat (default 10 limit)) O) ->
                            r.2 = trade_count (db s) r.1).
      { intros [m n] Hr. apply InG in Hr. apply C in Hr as [Hr ->].
        apply in_map_iff in Hr as ([m'' t] & E & Hr). simpl in E. subst m''.
        apply members_join_trades_In in Hr as (Hm & _ & _).
        unfold members_join_trades.
        rewrite (join_rows_of_member _ _ _ U) by now apply in_map.
        reflexivity. }
      intros a b Ha Hb H. apply Nat.leb_le in H. rewrite <- (K a Ha), <- (K b Hb). exact H.
    + apply Sorted_take. apply order_by_Sorted.
      intros a b. rewrite !Nat.leb_le. lia.
Qed.

Lemma most_active_spec_witness :
  exists out,
    (Members.get_most_active_traders id (Some 1) Sample.collected).1 = inr out
    /\ Z.of_nat (length out) <= 1 <= 100.
Proof.
  assert (Hy : forall rows : list (Member * nat), Permutation (id rows) rows)
    by (intros rows; reflexivity).
  eexists ?[out].
  assert (H : (Members.get_most_active_traders id (Some 1) Sample.collected).1 = inr ?out)
    by (vm_compute; reflexivity).
  exact (conj H (proj1 (most_active_spec id (Some 1) Sample.collected _ Hy H))).
Defined.

(** ** The clean-up scripts *)

Lemma key_injective {A} (key : A -> Z) (l : list A) (a b : A) :
  NoDup (map key l) -> In a l -> In b l -> key a = key b -> a = b.
Proof.
  induction l as [|x l IH]; simpl; intros N Ha Hb E; [destruct Ha|].
  apply NoDup_cons in N as [N1 N2]. rewrite list_elem_of_In in N1.
  destruct Ha as [<- | Ha], Hb as [<- | Hb]; auto.
  - exfalso. apply N1. rewrite E. now apply in_map.
  - exfalso. apply N1. rewrite <- E. now apply in_map.
Qed.

Lemma filter_twice {A} (f g : A -> bool) (l : list A) :
  List.filter f (List.filter g l) = List.filter (fun x => (g x && f x)%bool) l.
Proof.
  induction l as [|x l IH]; simpl; [reflexivity|].
  destruct (g x); simpl; [destruct (f x)|]; now rewrite IH.
Qed.

Lemma nodup_keys_filter {A} (key : A -> Z) (p : A -> bool) (l : list A) :
  NoDup (map key l) -> NoDup (map key (List.filter p l)).
Proof.
  induction l as [|x l IH]; simpl; intros N; [exact N|].
  apply NoDup_cons in N as [N1 N2]. destruct (p x); simpl; [|auto].
  apply NoDup_cons. split; [|auto]. rewrite list_elem_of_In in *.
  intros H. apply N1. apply in_map_iff in H as (y & E & H).
  apply filter_In in H as [H _]. rewrite <- E. now apply in_map.
Qed.

(** Among rows with distinct keys, removing the keys of the rows that
    [p] selects removes exactly those rows. *)
Lemma filter_out_keys (p : Trade -> bool) (l : list Trade) :
  NoDup (map trade_id_ l) ->
  List.filter
    (fun t' => negb (existsb (fun t => trade_id_ t' =? trade_id_ t) (List.filter p l))) l
  = List.filter (fun t => negb (p t)) l.
Proof.
  intros N. apply filter_ext_in. intros t' Ht'. f_equal.
  destruct (p t') eqn:E.
  - apply existsb_exists. exists t'. split; [now apply filter_In | apply Z.eqb_refl].
  - destruct (existsb _ _) eqn:X; [|reflexivity].
    apply existsb_exists in X as (t & Ht & Ek). apply filter_In in Ht as [Ht Ep].
    apply Z.eqb_eq in Ek.
    rewrite (key_injective trade_id_ l t' t N Ht' Ht Ek) in E. congruence.
Qed.

(** Deleting the trades of a list removes the rows with their keys and
    nothing else. *)
Lemma delete_each (l : list Trade) (s : session) :
  (for_each l Maintenance.delete s).1 = inr tt
  /\ trades (db (exec (for_each l Maintenance.delete) s))
     = List.filter (fun t' => negb (existsb (fun t => trade_id_ t' =? trade_id_ t) l))
                   (trades (db s))
  /\ members (db (exec (for_each l Maintenance.delete) s)) = members (db s)
  /\ committees (db (exec (for_each l Maintenance.delete) s)) = committees (db s)
  /\ committed (exec (for_each l Maintenance.delete) s) = committed s.
Proof.
  revert s. induction l as [|t l IH]; intros s.
  - unfold exec. simpl. repeat split; auto.
    symmetry. apply forallb_filter_id. apply forallb_forall. reflexivity.
  - unfold exec in *. cbn [for_each]. unfold bind at 1 2 3 4 5.
    unfold Maintenance.delete at 1 3 5 7 9.
    destruct (IH (set_db {| members := members (db s);
                            trades := List.filter
                                        (fun t' => negb (trade_id_ t' =? trade_id_ t))
                                        (trades (db s));
                            committees := committees (db s) |} s))
      as (R & T & M & C & K).
    cbn [db set_db members trades committees committed] in T, M, C, K.
    repeat split; auto.
    rewrite T, filter_twice. apply filter_ext. intros t'. simpl.
    now rewrite negb_orb.
Qed.

Lemma bind_ok {A B} (c : M A) (k : A -> M B) (s s1 : session) (a : A) :
  c s = (inr a, s1) -> bind c k s = k a s1.
Proof. intros H. unfold bind. now rewrite H. Qed.

Lemma bind_fail {A B} (c : M A) (k : A -> M B) (s s1 : session) (e : exn) :
  c s = (inl e, s1) -> bind c k s = (inl e, s1).
Proof. intros H. unfold bind. now rewrite H. Qed.

Lemma bind_assoc {A B C} (c : M A) (k1 : A -> M B) (k2 : B -> M C) (s : session) :
  bind (bind c k1) k2 s = bind c (fun a => bind (k1 a) k2) s.
Proof. unfold bind. destruct (c s) as [[e|a] s1]; reflexivity. Qed.

Lemma bind_query {A B} (q : Db -> A) (k : A -> M B) (s : session) :
  bind (query q) k s
  = k (q (db s)) {| db := db s; committed := committed s;
                    statements := S (statements s); log := log s |}.
Proof. reflexivity. Qed.

Lemma bind_logger_info {B} (msg : string) (k : unit -> M B) (s : session) :
  bind (logger_info msg) k s
  = k tt {| db := db s; committed := committed s; statements := statements s;
            log := log s ++ [{| lvl := INFO; text := msg; cause := None |}] |}.
Proof. reflexivity. Qed.

Lemma bind_commit {B} (k : unit -> M B) (s : session) :
  bind commit k s
  = k tt {| db := db s; committed := db s; statements := statements s; log := log s |}.
Proof. reflexivity. Qed.

Lemma bind_delete {B} (t : Trade) (k : unit -> M B) (s : session) :
  bind (Maintenance.delete t) k s
  = k tt (set_db {| members := members (db s);
                    trades := List.filter (fun t' => negb (trade_id_ t' =? trade_id_ t))
                                          (trades (db s));
                    committees := committees (db s) |} s).
Proof. reflexivity. Qed.

Lemma same_but_trades_refl (s : session) : same_but_trades s s.
Proof. unfold same_but_trades. auto. Qed.

Lemma same_but_trades_trans (s1 s2 s3 : session) :
  same_but_trades s1 s2 -> same_but_trades s2 s3 -> same_but_trades s1 s3.
Proof. unfold same_but_trades. intros (A & B & C) (A' & B' & C'). repeat split; congruence. Qed.

Lemma delete_each_same (l : list Trade) (s : session) :
  same_but_trades s (for_each l Maintenance.delete s).2.
Proof.
  destruct (delete_each l s) as (_ & _ & M & C & K). unfold exec in *.
  unfold same_but_trades. auto.
Qed.

(** The statement [if rows: log; delete each] after the query of the
    rows that [p] selects. *)
Lemma delete_matching (p : Trade -> bool) (msg : string) (s : session) :
  let c :=
    (let* l := query (fun d => List.filter p (trades d)) in
     match l with
     | [] => ret tt
     | _ :: _ => logger_info msg ;; for_each l Maintenance.delete
     end) in
  (c s).1 = inr tt
  /\ same_but_trades s (c s).2
  /\ (NoDup (map trade_id_ (trades (db s))) ->
      trades (db (c s).2) = List.filter (fun t => negb (p t)) (trades (db s))).
Proof.
  cbv zeta. rewrite bind_query. cbn [db].
  destruct (List.filter p (trades (db s))) as [|t l] eqn:E.
  - cbn. split; [reflexivity|]. split; [unfold same_but_trades; auto|].
    intros _. symmetry. apply forallb_filter_id. apply forallb_forall. intros t Ht.
    destruct (p t) eqn:Ep; [|reflexivity].
    assert (H : In t []) by (rewrite <- E; now apply filter_In). destruct H.
  - rewrite bind_logger_info.
    match goal with |- context [for_each ?l0 Maintenance.delete ?s0] =>
      destruct (delete_each l0 s0) as (R & T & M & C & K) end.
    unfold exec in *. cbn [db committed] in *.
    split; [exact R|]. split; [unfold same_but_trades; auto|].
    intros N. rewrite T, <- E. now apply filter_out_keys.
Qed.

Lemma delete_sources (srcs : list string) (s : session) :
  let body := fun source_ : string =>
    (let* source_trades :=
       query (fun d =>
         List.filter (fun t => Sql.holds (Sql.eq (source t) source_)) (trades d)) in
     match source_trades with
     | [] => ret tt
     | _ :: _ =>
         logger_info "Removing trades from suspicious source" ;;
         for_each source_trades Maintenance.delete
     end) in
  (for_each srcs body s).1 = inr tt
  /\ same_but_trades s (for_each srcs body s).2
  /\ (NoDup (map trade_id_ (trades (db s))) ->
      trades (db (for_each srcs body s).2)
      = List.filter
          (fun t => negb (existsb (fun source_ => Sql.holds (Sql.eq (source t) source_)) srcs))
          (trades (db s))).
Proof.
  cbv zeta. revert s. induction srcs as [|src srcs IH]; intros s.
  - cbn. split; [reflexivity|]. split; [apply same_but_trades_refl|].
    intros _. symmetry. apply forallb_filter_id. apply forallb_forall. reflexivity.
  - cbn [for_each].
    pose proof (delete_matching (fun t => Sql.holds (Sql.eq (source t) src))
                  "Removing trades from suspicious source" s) as H.
    cbv zeta in H. destruct H as (R & Sm & T).
    match type of R with (?c s).1 = _ => destruct (c s) as [r s1] eqn:E1 end.
    cbn [fst snd] in R, Sm, T. subst r. rewrite (bind_ok _ _ _ _ _ E1).
    destruct (IH s1) as (R' & Sm' & T').
    split; [exact R'|]. split; [exact (same_but_trades_trans _ _ _ Sm Sm')|].
    intros N. specialize (T N). rewrite T', T.
    + rewrite filter_twice. apply filter_ext. intros t. cbn [existsb].
      now rewrite negb_orb.
    + rewrite T. now apply nodup_keys_filter.
Qed.

Lemma member_name_of_run (t : Trade) (s : session) :
  (has_member (members (db s)) t /\ exists n s1,
      Maintenance.member_name_of t s = (inr n, s1) /\ db s1 = db s /\ committed s1 = committed s)
  \/ (orphan (members (db s)) t /\ exists s1,
        Maintenance.member_name_of t s
        = (inl (ValueError "'NoneType' object has no attribute 'name'"), s1)
        /\ db s1 = db s /\ committed s1 = committed s).
Proof.
  unfold Maintenance.member_name_of. rewrite bind_query. cbn [db].
  destruct (List.find _ _) as [m|] eqn:E.
  - left. apply find_some in E as [Hm E]. apply Z.eqb_eq in E.
    split; [exists m; auto|]. eexists _, _. split; [reflexivity|]. auto.
  - right. split.
    + intros m Hm. apply (find_none _ _ E) in Hm. now apply Z.eqb_neq in Hm.
    + eexists. split; [reflexivity|]. auto.
Qed.

Lemma has_member_not_orphan (ms : list Member) (t : Trade) :
  has_member ms t -> orphan ms t -> False.
Proof. intros (m & Hm & E) H. exact (H m Hm E). Qed.

Lemma remove_future_run (l : list Trade) (s : session) :
  let body := fun trade : Trade =>
    (let* _ := Maintenance.member_name_of trade in
     logger_info "Removing future trade" ;;
     Maintenance.delete trade) in
  same_but_trades s (for_each l body s).2
  /\ (Forall (has_member (members (db s))) l ->
      (for_each l body s).1 = inr tt
      /\ trades (db (for_each l body s).2)
         = List.filter (fun t' => negb (existsb (fun t => trade_id_ t' =? trade_id_ t) l))
                       (trades (db s)))
  /\ (Exists (orphan (members (db s))) l ->
      (for_each l body s).1 = inl (ValueError "'NoneType' object has no attribute 'name'")).
Proof.
  cbv zeta. revert s. induction l as [|t l IH]; intros s.
  - cbn. split; [apply same_but_trades_refl|]. split.
    + intros _. split; [reflexivity|].
      symmetry. apply forallb_filter_id. apply forallb_forall. reflexivity.
    + intros H. inversion H.
  - cbn [for_each].
    destruct (member_name_of_run t s) as [[Hm (n & s1 & E & D & K)] | [Ho (s1 & E & D & K)]].
    + rewrite bind_assoc, (bind_ok _ _ _ _ _ E), bind_assoc, bind_logger_info,
        bind_delete.
      match goal with |- context [for_each l _ ?s0] =>
        destruct (IH s0) as (Sm & Ok & Bad); set (s2 := s0) in * end.
      assert (M2 : members (db s2) = members (db s)) by (cbn; now rewrite D).
      assert (Sm2 : same_but_trades s s2).
      { unfold same_but_trades. cbn. rewrite D, K. auto. }
      rewrite M2 in Ok, Bad.
      split; [exact (same_but_trades_trans _ _ _ Sm2 Sm)|]. split.
      * intros F. apply Forall_cons in F as [_ F]. destruct (Ok F) as [R T].
        split; [exact R|]. rewrite T. cbn [s2 db set_db trades]. rewrite D, filter_twice.
        apply filter_ext. intros t'. cbn [existsb]. now rewrite negb_orb.
      * intros X. apply Exists_cons in X as [X | X]; [|auto].
        destruct (has_member_not_orphan _ _ Hm X).
    + rewrite bind_assoc, (bind_fail _ _ _ _ _ E). cbn [fst snd].
      split; [unfold same_but_trades; rewrite D, K; auto|]. split.
      * intros F. apply Forall_cons in F as [F _].
        destruct (has_member_not_orphan _ _ F Ho).
      * reflexivity.
Qed.

Lemma report_sources (rs : list (option string)) (s : session) :
  let body := fun source_ : option string =>
    (let* count :=
       query (fun d =>
         length (List.filter (fun t => bool_decide (source t = source_)) (trades d))) in
     logger_info "  - source") in
  (for_each rs body s).1 = inr tt
  /\ db (for_each rs body s).2 = db s
  /\ committed (for_each rs body s).2 = committed s.
Proof.
  cbv zeta. revert s. induction rs as [|r rs IH]; intros s; [cbn; auto|].
  cbn [for_each]. rewrite bind_assoc, bind_query, bind_logger_info.
  match goal with |- context [for_each rs _ ?s0] => destruct (IH s0) as (R & D & K) end.
  cbn [db committed] in D, K. auto.
Qed.

Ltac delete_step E :=
  match type of E with
  | context [for_each ?l Maintenance.delete ?s0] =>
      let R := fresh "R" in let T := fresh "T" in let M := fresh "M" in
      let C := fresh "C" in let K := fresh "K" in
      let r := fresh "r" in let s1 := fresh "s" in
      destruct (delete_each l s0) as (R & T & M & C & K);
      unfold exec in R, T, M, C, K;
      destruct (for_each l Maintenance.delete s0) as [r s1];
      cbn [fst snd db committed statements log] in R, T, M, C, K, E; subst r
  end.

Lemma clean_sample_data_run (like_eq : ascii -> ascii -> bool) (s : session) :
  NoDup (map trade_id_ (trades (db s))) ->
  (Maintenance.clean_sample_data like_eq s).1 = inr tt
  /\ trades (db (exec (Maintenance.clean_sample_data like_eq) s))
     = List.filter (fun t => negb (sample_trade like_eq t)) (trades (db s))
  /\ members (db (exec (Maintenance.clean_sample_data like_eq) s)) = members (db s)
  /\ committees (db (exec (Maintenance.clean_sample_data like_eq) s)) = committees (db s)
  /\ committed (exec (Maintenance.clean_sample_data like_eq) s)
     = db (exec (Maintenance.clean_sample_data like_eq) s).
Proof.
  intros N. unfold exec.
  destruct (Maintenance.clean_sample_data like_eq s) as [r s'] eqn:E. cbn [fst snd].
  unfold Maintenance.clean_sample_data, try_except, bind, query, logger_info, logger,
    commit, Maintenance.log_remaining in E.
  cbn [db committed statements log fst snd] in E.
  delete_step E. delete_step E.
  injection E as <- <-. cbn [db committed].
  rewrite filter_out_keys in T by exact N.
  rewrite T in T0. rewrite filter_out_keys in T0 by apply nodup_keys_filter, N.
  repeat split; try congruence.
  rewrite T0, filter_twice. apply filter_ext. intros t. unfold sample_trade.
  now rewrite negb_orb.
Qed.

Lemma filter_idem {A} (f : A -> bool) (l : list A) :
  List.filter f (List.filter f l) = List.filter f l.
Proof.
  rewrite filter_twice. apply filter_ext. intros x. now destruct (f x).
Qed.

(** X12 (clean_sample_data): on a store whose trades have distinct
    keys, the script returns, removes exactly the trades that come from
    one of the four sample sources or whose description is like one of
    the three sample patterns, keeps every other trade in place, leaves
    members and committees alone and commits; a second run removes
    nothing more. *)
Theorem clean_sample_data_spec (like_eq : ascii -> ascii -> bool) (s : session) :
  NoDup (map trade_id_ (trades (db s))) ->
  let s' := exec (Maintenance.clean_sample_data like_eq) s in
  (Maintenance.clean_sample_data like_eq s).1 = inr tt
  /\ trades (db s') = List.filter (fun t => negb (sample_trade like_eq t)) (trades (db s))
  /\ members (db s') = members (db s)
  /\ committees (db s') = committees (db s)
  /\ committed s' = db s'
  /\ trades (db (exec (Maintenance.clean_sample_data like_eq) s')) = trades (db s').
Proof.
  intros N s'. destruct (clean_sample_data_run like_eq s N) as (R & T & M & C & K).
  fold s' in T, M, C, K. repeat split; auto.
  assert (N' : NoDup (map trade_id_ (trades (db s')))).
  { rewrite T. now apply nodup_keys_filter. }
  destruct (clean_sample_data_run like_eq s' N') as (_ & T' & _).
  rewrite T', T. apply filter_idem.
Qed.

Lemma clean_future_run (like_eq : ascii -> ascii -> bool) (current_time : datetime)
        (s : session) :
  let s' := exec (Maintenance.clean_future_and_suspicious_data like_eq current_time) s in
  (Maintenance.clean_future_and_suspicious_data like_eq current_time s).1 = inr tt
  /\ (NoDup (map trade_id_ (trades (db s))) ->
      (forall t, In t (trades (db s)) -> current_time < transaction_date t ->
                 has_member (members (db s)) t) ->
      trades (db s')
      = List.filter (fun t => negb (suspicious_trade like_eq current_time t)) (trades (db s))
      /\ members (db s') = members (db s)
      /\ committees (db s') = committees (db s)
      /\ committed s' = db s')
  /\ ((exists t, In t (trades (db s)) /\ current_time < transaction_date t
                 /\ orphan (members (db s)) t) ->
      db s' = committed s /\ committed s' = committed s).
Proof.
  cbv zeta. unfold exec.
  destruct (Maintenance.clean_future_and_suspicious_data like_eq current_time s)
    as [r s'] eqn:E. cbn [fst snd].
  unfold Maintenance.clean_future_and_suspicious_data, try_except in E.
  rewrite bind_query, bind_logger_info in E. cbn [db committed statements log] in E.
  set (future := List.filter (fun t => current_time <? transaction_date t) (trades (db s)))
    in E.
  match type of E with context [bind (for_each future ?body) _ ?s0] =>
    pose proof (remove_future_run future s0) as H; cbv zeta in H;
    destruct H as (Sm & Ok & Bad);
    destruct (for_each future body s0) as [[e|[]] s1] eqn:EL
  end; cbn [db fst snd] in Sm, Ok, Bad.
  - (* the loop over the future trades raised *)
    erewrite bind_fail in E by exact EL.
    unfold bind, logger_error, logger, rollback in E. cbn in E.
    injection E as <- <-. cbn [db committed].
    destruct Sm as (_ & _ & K). split; [reflexivity|]. split.
    + intros N F. assert (X : @inl exn unit e = inr tt); [|discriminate X].
      apply Ok. apply List.Forall_forall. intros t Ht.
      apply filter_In in Ht as [Ht D]. apply Z.ltb_lt in D. auto.
    + intros _. cbn in K. auto.
  - (* the loop returned *)
    erewrite bind_ok in E by exact EL.
    match type of E with context [bind (for_each Maintenance.suspicious_sources ?body) _ s1] =>
      pose proof (delete_sources Maintenance.suspicious_sources s1) as H; cbv zeta in H;
      destruct H as (R2 & Sm2 & T2);
      destruct (for_each Maintenance.suspicious_sources body s1) as [r2 s2] eqn:E2
    end; cbn [fst snd] in R2, Sm2, T2. subst r2.
    erewrite bind_ok in E by exact E2.
    pose proof (delete_matching (Maintenance.fake_description like_eq)
                  "Removing trades with fake descriptions" s2) as H.
    cbv zeta in H. destruct H as (R3 & Sm3 & T3).
    match type of R3 with (?c s2).1 = _ => destruct (c s2) as [r3 s3] eqn:E3 end.
    cbn [fst snd] in R3, Sm3, T3. subst r3.
    rewrite <- bind_assoc in E. erewrite (bind_ok (bind _ _)) in E by exact E3.
    unfold Maintenance.log_remaining in E.
    repeat ((rewrite bind_assoc in E || rewrite bind_query in E
             || rewrite bind_logger_info in E || rewrite bind_commit in E);
            cbn [db committed statements log] in E).
    match type of E with context [for_each ?rs ?body ?s0] =>
      pose proof (report_sources rs s0) as H; cbv zeta in H;
      destruct H as (R4 & D4 & K4); destruct (for_each rs body s0) as [r4 s4]
    end. cbn [fst snd db committed] in R4, D4, K4. subst r4.
    injection E as <- <-. split; [reflexivity|]. split.
    + intros N F.
      assert (FF : Forall (has_member (members (db s))) future).
      { apply List.Forall_forall. intros t Ht.
        apply filter_In in Ht as [Ht D]. apply Z.ltb_lt in D. auto. }
      destruct (Ok FF) as [_ T1]. unfold future in T1. rewrite filter_out_keys in T1 by exact N.
      assert (N1 : NoDup (map trade_id_ (trades (db s1)))).
      { rewrite T1. now apply nodup_keys_filter. }
      specialize (T2 N1).
      assert (N2 : NoDup (map trade_id_ (trades (db s2)))).
      { rewrite T2. now apply nodup_keys_filter. }
      specialize (T3 N2).
      destruct Sm as (M1 & C1 & _), Sm2 as (M2 & C2 & _), Sm3 as (M3 & C3 & _).
      cbn [db] in M1, C1.
      rewrite K4, D4. repeat split; try congruence.
      rewrite T3, T2, T1, !filter_twice. apply filter_ext. intros t.
      unfold suspicious_trade. rewrite !negb_orb. apply andb_assoc.
    + intros (t & Ht & D & O). assert (X : @inr exn unit tt = inl (ValueError "'NoneType' object has no attribute 'name'")); [|discriminate X].
      apply Bad. apply List.Exists_exists. exists t. split; [|exact O].
      apply filter_In. split; [exact Ht | now apply Z.ltb_lt].
Qed.

(** X13 (clean_future_and_suspicious_data): the script always returns.
    On a store whose trades have distinct keys and where every trade
    dated after the reading of the clock has its member stored, it
    removes exactly the trades dated after the reading of the clock, or
    from one of the four listed sources, or with a description like one
    of the four listed patterns, leaves members and committees alone and
    commits.  If some trade dated after the reading of the clock has no
    stored member, the run is rolled back: the session is left with the
    rows as last committed, whatever else was due for removal. *)
Theorem clean_future_spec (like_eq : ascii -> ascii -> bool) (current_time : datetime)
        (s : session) :
  let s' := exec (Maintenance.clean_future_and_suspicious_data like_eq current_time) s in
  (Maintenance.clean_future_and_suspicious_data like_eq current_time s).1 = inr tt
  /\ (NoDup (map trade_id_ (trades (db s))) ->
      (forall t, In t (trades (db s)) -> current_time < transaction_date t ->
                 has_member (members (db s)) t) ->
      trades (db s')
      = List.filter (fun t => negb (suspicious_trade like_eq current_time t)) (trades (db s))
      /\ members (db s') = members (db s)
      /\ committees (db s') = committees (db s)
      /\ committed s' = db s')
  /\ ((exists t, In t (trades (db s)) /\ current_time < transaction_date t
                 /\ orphan (members (db s)) t) ->
      db s' = committed s /\ committed s' = committed s).
Proof. exact (clean_future_run like_eq current_time s). Qed.

Lemma clean_sample_data_spec_witness :
  NoDup (map trade_id_ (trades (db (new_session Sample.two_trades))))
  /\ (Maintenance.clean_sample_data Ascii.eqb (new_session Sample.two_trades)).1 = inr tt.
Proof.
  assert (N : NoDup (map trade_id_ (trades (db (new_session Sample.two_trades)))))
    by (apply NoDup_ListNoDup; repeat constructor; simpl; intuition discriminate).
  exact (conj N (proj1 (clean_sample_data_spec Ascii.eqb (new_session Sample.two_trades) N))).
Defined.

Lemma clean_future_spec_witness :
  NoDup (map trade_id_ (trades (db (new_session Sample.two_trades))))
  /\ trades (db (exec (Maintenance.clean_future_and_suspicious_data Ascii.eqb
                         1600000000000000) (new_session Sample.two_trades)))
     = List.filter (fun t => negb (suspicious_trade Ascii.eqb 1600000000000000 t))
                   (trades (db (new_session Sample.two_trades))).
Proof.
  assert (N : NoDup (map trade_id_ (trades (db (new_session Sample.two_trades)))))
    by (apply NoDup_ListNoDup; repeat constructor; simpl; intuition discriminate).
  refine (conj N _).
  refine (proj1 (proj1 (proj2 (clean_future_spec Ascii.eqb 1600000000000000
                                 (new_session Sample.two_trades))) N _)).
  intros t Ht _. eexists.
  split; [left; reflexivity|].
  destruct Ht as [<- | [<- | []]]; reflexivity.
Defined.

(** ** What a collection keeps true of the store *)

Lemma triple_conseq {A} (P P' : session -> Prop) (Q Q' : exn + A -> session -> Prop)
      (c : M A) :
  (forall s, P' s -> P s) -> (forall r s, Q r s -> Q' r s) ->
  triple P c Q -> triple P' c Q'.
Proof. unfold triple. auto. Qed.

Lemma triple_ret {A} (P : session -> Prop) (a : A) (Q : exn + A -> session -> Prop) :
  (forall s, P s -> Q (inr a) s) -> triple P (ret a) Q.
Proof. unfold triple, ret. auto. Qed.

Lemma triple_bind {A B} (P : session -> Prop) (c : M A) (k : A -> M B)
      (Q1 : exn + A -> session -> Prop) (Q : exn + B -> session -> Prop) :
  triple P c Q1 ->
  (forall e s, Q1 (inl e) s -> Q (inl e) s) ->
  (forall a, triple (Q1 (inr a)) (k a) Q) ->
  triple P (bind c k) Q.
Proof.
  unfold triple, bind. intros Hc He Hk s Hs. specialize (Hc s Hs).
  destruct (c s) as [[e|a] s1]; simpl in *; auto.
Qed.

Lemma keeps_ret {A} (I : session -> Prop) (a : A) : keeps I (ret a).
Proof. intros s H. exact H. Qed.

Lemma keeps_raise {A} (I : session -> Prop) (e : exn) : keeps I (@raise A e).
Proof. intros s H. exact H. Qed.

Lemma keeps_bind {A B} (I : session -> Prop) (c : M A) (k : A -> M B) :
  keeps I c -> (forall a, keeps I (k a)) -> keeps I (bind c k).
Proof.
  intros Hc Hk. apply (triple_bind I c k (fun _ s => I s)); auto.
Qed.

Lemma keeps_try_except {A} (I : session -> Prop) (c : M A) (h : exn -> M A) :
  keeps I c -> (forall e, keeps I (h e)) -> keeps I (try_except c h).
Proof.
  unfold keeps, triple, try_except. intros Hc Hh s Hs. specialize (Hc s Hs).
  destruct (c s) as [[e|a] s1]; simpl in *; auto.
Qed.

Lemma keeps_for_each {A} (I : session -> Prop) (xs : list A) (body : A -> M unit) :
  (forall x, keeps I (body x)) -> keeps I (for_each xs body).
Proof.
  intros H. induction xs as [|x xs IH]; simpl.
  - apply keeps_ret.
  - apply keeps_bind; auto.
Qed.

Lemma keeps_of_option {A} (I : session -> Prop) (e : exn) (o : option A) :
  keeps I (of_option e o).
Proof. destruct o; [apply keeps_ret | apply keeps_raise]. Qed.

Lemma keeps_logger (I : session -> Prop) (l : level) (msg : string) (e : option exn) :
  on_rows I -> keeps I (logger l msg e).
Proof. intros R s H. apply (R s); [reflexivity | reflexivity | exact H]. Qed.

Lemma keeps_query {A} (I : session -> Prop) (q : Db -> A) :
  on_rows I -> keeps I (query q).
Proof. intros R s H. apply (R s); [reflexivity | reflexivity | exact H]. Qed.

(** A query, with what it read. *)
Lemma triple_query {A} (I : session -> Prop) (q : Db -> A) :
  on_rows I ->
  triple I (query q)
    (fun r s => match r with inr a => I s /\ a = q (db s) | inl _ => I s end).
Proof.
  intros R s H. split; [|reflexivity].
  apply (R s); [reflexivity | reflexivity | exact H].
Qed.

Lemma keeps_fetch {A} (I : session -> Prop) (r : http A) : keeps I (fetch r).
Proof.
  destruct r as [|status_code body]; simpl; [apply keeps_raise|].
  destruct (status_code =? 200); [|apply keeps_ret].
  apply keeps_bind; [apply keeps_of_option | intros b; apply keeps_ret].
Qed.

(** *** Fresh keys *)

Lemma fresh_id_above (ids : list Z) (x : Z) : In x ids -> x < fresh_id ids.
Proof.
  unfold fresh_id. induction ids as [|y ids IH]; simpl; [tauto|].
  intros [-> | H]; [lia|]. specialize (IH H). lia.
Qed.

Lemma fresh_id_new (ids : list Z) : ~ In (fresh_id ids) ids.
Proof. intros H. apply fresh_id_above in H. lia. Qed.

Lemma NoDup_snoc {A} (l : list A) (x : A) : NoDup l -> ~ In x l -> NoDup (l ++ [x]).
Proof.
  intros N H. apply NoDup_app. split; [exact N|]. split; [|apply NoDup_singleton].
  intros y Hy Hx. apply list_elem_of_In in Hy. apply list_elem_of_In in Hx.
  destruct Hx as [<- | []]. contradiction.
Qed.

Lemma has_member_app (ms extra : list Member) (t : Trade) :
  has_member ms t -> has_member (ms ++ extra) t.
Proof. intros (m & Hm & E). exists m. split; [apply in_or_app; now left | exact E]. Qed.

(** *** The rows of a session *)

Lemma grows_refl (d : Db) : grows d d.
Proof. repeat split; exists []; now rewrite app_nil_r. Qed.

Lemma grows_trans (d1 d2 d3 : Db) : grows d1 d2 -> grows d2 d3 -> grows d1 d3.
Proof.
  intros ([a Ha] & [b Hb] & [c Hc]) ([a' Ha'] & [b' Hb'] & [c' Hc']).
  repeat split; eexists.
  - rewrite Ha', Ha, <- app_assoc. reflexivity.
  - rewrite Hb', Hb, <- app_assoc. reflexivity.
  - rewrite Hc', Hc, <- app_assoc. reflexivity.
Qed.

Lemma sound_on_rows (d0 : Db) : on_rows (sound_from d0).
Proof. intros s s' D K. unfold sound_from. now rewrite D, K. Qed.

Lemma sound_with_on_rows (d0 : Db) (known : list Member) : on_rows (sound_with d0 known).
Proof. intros s s' D K. unfold sound_with, sound_from. now rewrite D, K. Qed.

Lemma keeps_commit (d0 : Db) : keeps (sound_from d0) commit.
Proof.
  intros s (W & W' & G & G'). unfold sound_from. simpl.
  split; [exact W|]. split; [exact W|].
  split; [exact (grows_trans _ _ _ G G') | apply grows_refl].
Qed.

Lemma keeps_rollback (d0 : Db) : keeps (sound_from d0) rollback.
Proof.
  intros s (W & W' & G & G'). unfold sound_from. simpl.
  split; [exact W'|]. split; [exact W'|]. split; [exact G | apply grows_refl].
Qed.

(** A new member gets a new key. *)
Lemma triple_add_member (d0 : Db) (mk : Z -> Member) :
  (forall id, member_id_ (mk id) = id) ->
  triple (sound_from d0) (add_member mk)
    (fun r s => match r with
                | inr m => sound_with d0 [m] s
                | inl _ => sound_from d0 s
                end).
Proof.
  intros Hid s ((N1 & N2 & N3 & F) & W' & G & ([a Ha] & Gt & Gc)).
  unfold add_member, sound_with, sound_from. simpl. split.
  2:{ intros m [<- | []]. apply in_or_app. right. now left. }
  split; [|split; [exact W' | split; [exact G|]]].
  - unfold well_keyed. simpl.
    split; [|split; [exact N2 | split; [exact N3|]]].
    + rewrite map_app. simpl. rewrite Hid. apply NoDup_snoc; [exact N1 | apply fresh_id_new].
    + intros t Ht. apply has_member_app. auto.
  - unfold grows. simpl. split; [|split; [exact Gt | exact Gc]].
    rewrite Ha, <- app_assoc. eauto.
Qed.

Lemma keeps_add_member (d0 : Db) (mk : Z -> Member) :
  (forall id, member_id_ (mk id) = id) -> keeps (sound_from d0) (add_member mk).
Proof.
  intros Hid s Hs. pose proof (triple_add_member d0 mk Hid s Hs) as H. cbv beta in H.
  destruct (add_member mk s).1; [exact H | apply H].
Qed.

(** A new trade gets a new key; its member must be known. *)
Lemma keeps_add_trade (d0 : Db) (known : list Member) (m : Member) (mk : Z -> Trade) :
  In m known ->
  (forall id, trade_id_ (mk id) = id) ->
  (forall id, member_id (mk id) = member_id_ m) ->
  keeps (sound_with d0 known) (add_trade mk).
Proof.
  intros Hk Hid Hm s (((N1 & N2 & N3 & F) & W' & G & (Gm & [b Hb] & Gc)) & Hin).
  unfold add_trade, sound_with, sound_from. simpl. split; [|exact Hin].
  split; [|split; [exact W' | split; [exact G|]]].
  - unfold well_keyed. simpl.
    split; [exact N1|]. split; [|split; [exact N3|]].
    + rewrite map_app. simpl. rewrite Hid. apply NoDup_snoc; [exact N2 | apply fresh_id_new].
    + intros t Ht. apply in_app_or in Ht as [Ht | [<- | []]]; [auto|].
      exists m. split; [auto | symmetry; apply Hm].
  - unfold grows. simpl. split; [exact Gm|]. split; [|exact Gc].
    rewrite Hb, <- app_assoc. eauto.
Qed.

(** A new committee gets a new key. *)
Lemma keeps_add_committee (d0 : Db) (mk : Z -> Committee) :
  (forall id, committee_id_ (mk id) = id) -> keeps (sound_from d0) (add_committee mk).
Proof.
  intros Hid s ((N1 & N2 & N3 & F) & W' & G & (Gm & Gt & [c Hcs])).
  unfold add_committee, sound_from. simpl.
  split; [|split; [exact W' | split; [exact G|]]].
  - unfold well_keyed. simpl. split; [exact N1|]. split; [exact N2|].
    split; [|exact F].
    rewrite map_app. simpl. rewrite Hid. apply NoDup_snoc; [exact N3 | apply fresh_id_new].
  - unfold grows. simpl. split; [exact Gm|]. split; [exact Gt|].
    rewrite Hcs, <- app_assoc. eauto.
Qed.

(** A computation that keeps the members known keeps the session sound,
    and the members known as long as it does not raise. *)
Lemma triple_known (d0 : Db) (known : list Member) {A} (c : M A) :
  keeps (sound_with d0 known) c ->
  triple (sound_with d0 known) c
    (fun r s => match r with
                | inr _ => sound_with d0 known s
                | inl _ => sound_from d0 s
                end).
Proof.
  intros H s Hs. specialize (H s Hs). cbv beta in H.
  destruct (c s).1; [apply H | exact H].
Qed.

Lemma known_keeps_sound (d0 : Db) (known : list Member) {A} (c : M A) :
  keeps (sound_with d0 known) c ->
  triple (sound_with d0 known) c (fun _ s => sound_from d0 s).
Proof. intros H s Hs. apply (H s Hs). Qed.

Lemma keeps_bind_ret {A B} (I : session -> Prop) (a : A) (k : A -> M B) :
  keeps I (k a) -> keeps I (bind (ret a) k).
Proof. intros H s Hs. exact (H s Hs). Qed.

Lemma keeps_bind_raise {A B} (I : session -> Prop) (e : exn) (k : A -> M B) :
  keeps I (bind (raise e) k).
Proof. intros s Hs. exact Hs. Qed.

Create HintDb keeps.
#[local] Hint Resolve keeps_ret keeps_raise keeps_of_option keeps_fetch keeps_commit
  keeps_rollback sound_on_rows sound_with_on_rows : keeps.

Ltac keeps_step :=
  match goal with
  | |- keeps _ (bind _ _) => apply keeps_bind; [|intros ?]
  | |- keeps _ (try_except _ _) => apply keeps_try_except; [|intros ?]
  | |- keeps _ (for_each _ _) => apply keeps_for_each; intros ?
  | |- keeps _ (logger_info _) => apply keeps_logger
  | |- keeps _ (logger_warning _) => apply keeps_logger
  | |- keeps _ (logger_error _ _) => apply keeps_logger
  | |- keeps _ (query _) => apply keeps_query
  | |- keeps _ (match ?x with _ => _ end) => destruct x
  | |- _ => solve [auto with keeps]
  end.
Ltac keeps_tac := repeat keeps_step.

Section Soundness.
Variable fromisoformat : string -> option datetime.
Variable w : World.
Variable d0 : Db.

Local Abbreviation sound := (sound_from d0).

Lemma keeps_scraper_parse_amount (I : session -> Prop) (a : string) :
  on_rows I -> keeps I (RealDataScraper._parse_amount a).
Proof. intros R. unfold RealDataScraper._parse_amount. keeps_tac; exact R. Qed.

(** The member found by a query, or created, is stored. *)
Lemma triple_resolve (found : option Member) (p : Member -> bool) (mk : Z -> Member) :
  (forall id, member_id_ (mk id) = id) ->
  triple (fun s => sound s /\ found = List.find p (members (db s)))
    (match found with Some m => ret m | None => add_member mk end)
    (fun r s => match r with
                | inr m => sound_with d0 [m] s
                | inl _ => sound s
                end).
Proof.
  intros Hid. destruct found as [m|].
  - apply triple_ret. intros s [H E]. split; [exact H|].
    intros m' [<- | []]. symmetry in E. apply find_some in E. apply E.
  - apply (triple_conseq (sound_from d0)) with (3 := triple_add_member d0 mk Hid); auto.
    now intros s [H _].
Qed.

Lemma triple_found {A} (q : Db -> A) :
  triple sound (query q)
    (fun r s => match r with inr a => sound s /\ a = q (db s) | inl _ => sound s end).
Proof. apply triple_query, sound_on_rows. Qed.

Lemma keeps_save_trade (n tk ty a : string) :
  keeps sound (RealDataScraper._save_trade w n tk ty a).
Proof.
  unfold RealDataScraper._save_trade. apply keeps_try_except; [|intros e; keeps_tac].
  eapply triple_bind; [apply triple_found | auto | intros found].
  eapply triple_bind; [apply triple_resolve; reflexivity | auto | intros m].
  eapply triple_bind;
    [apply triple_known, keeps_scraper_parse_amount, sound_with_on_rows | auto
     | intros [lo hi]].
  apply known_keeps_sound.
  apply keeps_bind; [|intros _; keeps_tac].
  apply (keeps_add_trade d0 [m] m); [now left | reflexivity | reflexivity].
Qed.

Lemma keeps_process_house_disclosure (url : string) :
  keeps sound (RealDataScraper._process_house_disclosure w url).
Proof.
  unfold RealDataScraper._process_house_disclosure, RealDataScraper._process_member_trades,
    RealDataScraper._extract_trade_from_row.
  keeps_tac; apply keeps_save_trade.
Qed.

Lemma keeps_scrape_house_disclosures :
  keeps sound (RealDataScraper.scrape_house_disclosures w).
Proof.
  unfold RealDataScraper.scrape_house_disclosures. keeps_tac.
  apply keeps_process_house_disclosure.
Qed.

Lemma keeps_add_senate_sample_data :
  keeps sound (RealDataScraper._add_senate_sample_data w).
Proof.
  unfold RealDataScraper._add_senate_sample_data.
  apply keeps_try_except; [|intros e; keeps_tac].
  eapply triple_bind; [apply triple_found | auto | intros senate_members].
  apply (triple_conseq (sound_with d0 senate_members) _ (fun _ s => sound s));
    [| auto |].
  { intros s [H ->]. split; [exact H|]. intros m Hm. now apply filter_In in Hm. }
  destruct senate_members as [|m0 ms] eqn:E.
  { apply known_keeps_sound. keeps_tac. }
  rewrite <- E. apply known_keeps_sound.
  apply keeps_bind; [|intros _].
  - apply keeps_for_each. intros i.
    destruct (senate_members !! (i mod length senate_members)%nat) as [m|] eqn:L;
      cbn [of_option]; [apply keeps_bind_ret | apply keeps_bind_raise].
    apply (keeps_add_trade d0 senate_members m); [|reflexivity | reflexivity].
    apply list_elem_of_In. exact (list_elem_of_lookup_2 _ _ _ L).
  - intros s Hs.
    assert (K : keeps sound (commit ;; logger_info "Added Senate sample data"))
      by keeps_tac.
    split; [exact (K s (proj1 Hs))|]. apply Hs.
Qed.

Lemma keeps_scrape_real_data : keeps sound (RealDataScraper.scrape_real_data w).
Proof.
  unfold RealDataScraper.scrape_real_data, RealDataScraper.scrape_senate_disclosures.
  keeps_tac; [apply keeps_scrape_house_disclosures | apply keeps_add_senate_sample_data].
Qed.

Lemma keeps_save_senate_trade (r : raw) :
  keeps sound (CongressDataCollector._save_senate_trade fromisoformat r).
Proof.
  unfold CongressDataCollector._save_senate_trade,
    CongressDataCollector._save_senate_trade_body, CongressDataCollector.parse_datetime.
  apply keeps_try_except; [|intros e; keeps_tac].
  destruct (negb _); [apply keeps_ret|].
  eapply triple_bind; [apply triple_found | auto | intros found].
  eapply triple_bind; [apply triple_resolve; reflexivity | auto | intros m].
  eapply triple_bind; [apply triple_known; keeps_tac | auto | intros transaction_date_].
  eapply triple_bind; [apply triple_known; keeps_tac | auto | intros filing_date_].
  apply known_keeps_sound.
  apply (keeps_add_trade d0 [m] m); [now left | reflexivity | reflexivity].
Qed.

Lemma keeps_collect_senate_stock_data :
  keeps sound (CongressDataCollector.collect_senate_stock_data fromisoformat w).
Proof.
  unfold CongressDataCollector.collect_senate_stock_data,
    CongressDataCollector._process_senate_file.
  keeps_tac; apply keeps_save_senate_trade.
Qed.

Lemma keeps_collect_house_trading_data :
  keeps sound CongressDataCollector.collect_house_trading_data.
Proof.
  unfold CongressDataCollector.collect_house_trading_data,
    CongressDataCollector._collect_capitol_gains_data,
    CongressDataCollector._collect_stock_act_disclosures.
  keeps_tac.
Qed.

Lemma keeps_save_propublica_member (member_data : raw) (chamber_ : string) :
  keeps sound (CongressDataCollector._save_propublica_member member_data chamber_).
Proof.
  unfold CongressDataCollector._save_propublica_member. keeps_tac.
  apply keeps_add_member. reflexivity.
Qed.

Lemma keeps_save_propublica_committee (data : committee_data) (chamber_ : string) :
  keeps sound (CongressDataCollector._save_propublica_committee data chamber_).
Proof.
  unfold CongressDataCollector._save_propublica_committee. keeps_tac.
  apply keeps_add_committee. reflexivity.
Qed.

Lemma keeps_collect_propublica_data (api_key : string) :
  keeps sound (CongressDataCollector.collect_propublica_data w api_key).
Proof.
  unfold CongressDataCollector.collect_propublica_data,
    CongressDataCollector._collect_propublica_members,
    CongressDataCollector._collect_propublica_committees.
  keeps_tac; [apply keeps_save_propublica_member | apply keeps_save_propublica_committee].
Qed.

Lemma keeps_collect_congress_data (key : option string) :
  keeps sound (CongressDataCollector.collect_congress_data fromisoformat w key).
Proof.
  unfold CongressDataCollector.collect_congress_data.
  keeps_tac;
    [apply keeps_collect_senate_stock_data | apply keeps_collect_house_trading_data
     | apply keeps_collect_propublica_data | apply keeps_scrape_real_data].
Qed.

End Soundness.

(** X14 (collect_congress_data, scrape_real_data and every function they
    call): a collection run, and a scraping run, keep a session sound.
    If the keys of each table are distinct and every trade has its
    member, among the rows the session sees and among the committed
    rows, then the same holds after the run, whatever the sources
    answer; and the rows that were committed before the run are still
    the first rows of each table, unchanged: a run only adds rows. *)
Theorem collection_keeps_store_sound
        (fromisoformat : string -> option datetime) (w : World) (key : option string)
        (d0 : Db) (s : session) :
  sound_from d0 s ->
  (let s' := exec (CongressDataCollector.collect_congress_data fromisoformat w key) s in
   sound_from d0 s' /\ grows d0 (db s'))
  /\ (let s' := exec (RealDataScraper.scrape_real_data w) s in
      sound_from d0 s' /\ grows d0 (db s')).
Proof.
  intros H. split; cbv zeta.
  - pose proof (keeps_collect_congress_data fromisoformat w d0 key s H) as K.
    split; [exact K|]. destruct K as (_ & _ & G & G'). exact (grows_trans _ _ _ G G').
  - pose proof (keeps_scrape_real_data w d0 s H) as K.
    split; [exact K|]. destruct K as (_ & _ & G & G'). exact (grows_trans _ _ _ G G').
Qed.

Lemma collection_keeps_store_sound_witness :
  sound_from empty_db (new_session empty_db)
  /\ sound_from empty_db Sample.collected.
Proof.
  assert (W : well_keyed empty_db).
  { unfold well_keyed. simpl.
    split; [apply NoDup_nil_2|]. split; [apply NoDup_nil_2|]. split; [apply NoDup_nil_2|].
    intros t []. }
  assert (H : sound_from empty_db (new_session empty_db)).
  { split; [exact W|]. split; [exact W|]. split; apply grows_refl. }
  exact (conj H (proj1 (proj1 (collection_keeps_store_sound Sample.date_only Sample.online
                                 (Some "key") empty_db (new_session empty_db) H)))).
Defined.

(** ** The amounts read by the scraper *)

Lemma plain_char (c : ascii) :
  Py.is_digit c = true \/ c = "."%char ->
  Py.is_space c = false /\ Ascii.eqb c "-" = false /\ Ascii.eqb c "+" = false
  /\ Py.lower_char c = c /\ Ascii.eqb c "i" = false /\ Ascii.eqb c "n" = false.
Proof.
  intros [H | ->]; [|repeat split; reflexivity].
  destruct (digit_not_sign c H) as [H1 H2]. destruct (digit_not_letter c H) as (H3 & H4 & H5).
  rewrite (digit_not_space c H). repeat split; assumption.
Qed.

Lemma plain_rev (l : list ascii) : plain l -> plain (rev l).
Proof.
  unfold plain. rewrite !List.Forall_forall. intros H x Hx. apply H. now apply in_rev.
Qed.

Lemma lstrip_plain (l : list ascii) : plain l -> Py.lstrip l = l.
Proof.
  intros [|c l' Hc _]; simpl; [reflexivity|].
  destruct (plain_char c Hc) as [-> _]. reflexivity.
Qed.

Lemma strip_plain (l : list ascii) : plain l -> Py.strip l = l.
Proof.
  intros H. unfold Py.strip.
  rewrite (lstrip_plain l H), (lstrip_plain (rev l) (plain_rev l H)).
  apply rev_involutive.
Qed.

Lemma digit_value_nonneg (c : ascii) : Py.is_digit c = true -> 0 <= Py.digit_value c.
Proof.
  destruct c as [[] [] [] [] [] [] [] []]; intros H; try discriminate H;
    vm_compute; discriminate.
Qed.

Lemma digits_value_from (ds : list ascii) (acc : Z) :
  digits ds -> 0 <= acc ->
  0 <= fold_left (fun acc c => 10 * acc + Py.digit_value c) ds acc.
Proof.
  intros H. revert acc. induction H as [|c ds Hc _ IH]; intros acc Ha; simpl; [exact Ha|].
  apply IH. pose proof (digit_value_nonneg c Hc). lia.
Qed.

Lemma digits_value_nonneg (ds : list ascii) : digits ds -> 0 <= Py.digits_value ds.
Proof. intros H. apply digits_value_from; [exact H | lia]. Qed.

Lemma digits_tail_within (n : nat) (l ds r : list ascii) :
  (length l <= n)%nat -> Py.digits_tail l = (ds, r) -> digits ds.
Proof.
  revert l ds r. induction n as [|n IH]; intros l ds r Hn.
  - destruct l; [|simpl in Hn; lia]. intros [= <- <-]. constructor.
  - destruct l as [|c l]; simpl; [intros [= <- <-]; constructor|].
    simpl in Hn. destruct (Py.is_digit c) eqn:Hc.
    + destruct (Py.digits_tail l) as [ds' r'] eqn:E. intros [= <- <-].
      constructor; [exact Hc|]. apply (IH l ds' r'); [lia | exact E].
    + destruct (Ascii.eqb c "_"); [|intros [= <- <-]; constructor].
      destruct l as [|d l]; [intros [= <- <-]; constructor|].
      destruct (Py.is_digit d) eqn:Hd; [|intros [= <- <-]; constructor].
      destruct (Py.digits_tail l) as [ds' r'] eqn:E. intros [= <- <-].
      constructor; [exact Hd|]. apply (IH l ds' r'); [simpl in Hn; lia | exact E].
Qed.

Lemma digits_tail_reads_digits (l ds r : list ascii) :
  Py.digits_tail l = (ds, r) -> digits ds.
Proof. apply (digits_tail_within (length l)). lia. Qed.

Lemma digitpart_reads_digits (l ds r : list ascii) :
  Py.digitpart l = Some (ds, r) -> digits ds.
Proof.
  destruct l as [|c l]; simpl; [discriminate|].
  destruct (Py.is_digit c) eqn:Hc; [|discriminate].
  destruct (Py.digits_tail l) as [ds' r'] eqn:E. intros [= <- <-].
  constructor; [exact Hc|]. exact (digits_tail_reads_digits _ _ _ E).
Qed.

Lemma scale10_nonneg (m e : Z) : 0 <= m -> (0 <= Py.scale10 m e)%Q.
Proof.
  intros H. unfold Py.scale10. destruct (0 <=? e) eqn:E.
  - apply Z.leb_le in E. unfold Qle. simpl. nia.
  - rewrite Qred_correct. unfold Qle. simpl. lia.
Qed.

Lemma read_mantissa_reads_digits (l ip fp r : list ascii) :
  Py.read_mantissa l = Some (ip, fp, r) -> digits (ip ++ fp)%list.
Proof.
  unfold Py.read_mantissa.
  destruct (Py.digitpart l) as [[ip' r']|] eqn:E.
  - pose proof (digitpart_reads_digits _ _ _ E) as Hip.
    assert (N : digits (ip' ++ [])%list) by now rewrite app_nil_r.
    destruct r' as [|c r'']; [intros [= <- <- <-]; exact N|].
    destruct (Ascii.eqb c "."); [|intros [= <- <- <-]; exact N].
    destruct (Py.digitpart r'') as [[fp' r3]|] eqn:E2; [|intros [= <- <- <-]; exact N].
    intros [= <- <- <-]. apply Forall_app. split; [exact Hip|].
    exact (digitpart_reads_digits _ _ _ E2).
  - destruct l as [|c l']; [discriminate|].
    destruct (Ascii.eqb c "."); [|discriminate].
    destruct (Py.digitpart l') as [[fp' r3]|] eqn:E2; [|discriminate].
    intros [= <- <- <-]. exact (digitpart_reads_digits _ _ _ E2).
Qed.

Lemma read_decimal_nonneg (l : list ascii) (q : Q) :
  Py.read_decimal l = Some q -> (0 <= q)%Q.
Proof.
  unfold Py.read_decimal.
  destruct (Py.read_mantissa l) as [[[ip fp] r]|] eqn:E; [|discriminate].
  destruct (Py.read_exponent r) as [e|]; [|discriminate].
  intros [= <-]. apply scale10_nonneg, digits_value_nonneg.
  exact (read_mantissa_reads_digits _ _ _ _ E).
Qed.

(** A text of digits and full stops is read, if at all, as a number
    that is not negative. *)
Lemma float_plain (l : list ascii) (v : Py.pyfloat) :
  plain l -> Py.float (Py.str l) = Some v -> not_negative v.
Proof.
  intros H. unfold Py.float. rewrite chars_str, (strip_plain l H).
  assert (S : Py.read_sign l = (false, l)).
  { destruct H as [|c l' Hc _]; [reflexivity|]. simpl.
    destruct (plain_char c Hc) as (_ & -> & -> & _). reflexivity. }
  rewrite S.
  assert (W : forall word, String.eqb (Py.str (map Py.lower_char l)) word = true ->
                           word = "" \/ exists c word', word = String c word'
                                        /\ (Py.is_digit c = true \/ c = "."%char)).
  { intros word E. apply String.eqb_eq in E. subst word.
    destruct H as [|c l' Hc _]; [now left|]. right. simpl.
    destruct (plain_char c Hc) as (_ & _ & _ & -> & _). eauto. }
  assert (N : forall word c0 word', word = String c0 word' ->
                Py.is_digit c0 = false -> c0 <> "."%char ->
                String.eqb (Py.str (map Py.lower_char l)) word = false).
  { intros word c0 word' -> Hd Hp.
    destruct (String.eqb _ _) eqn:E; [|reflexivity].
    destruct (W _ E) as [X | (c & w' & [= <- <-] & [X | X])];
      [discriminate X | congruence | contradiction]. }
  rewrite (N "inf" "i"%char "nf" eq_refl eq_refl) by discriminate.
  rewrite (N "infinity" "i"%char "nfinity" eq_refl eq_refl) by discriminate.
  rewrite (N "nan" "n"%char "an" eq_refl eq_refl) by discriminate.
  cbn [orb]. destruct (Py.read_decimal l) as [q|] eqn:E; [|discriminate].
  intros [= <-]. unfold not_negative. simpl.
  apply Qle_bool_iff. exact (read_decimal_nonneg _ _ E).
Qed.

Lemma split_on_parts (P : ascii -> Prop) (sep : ascii) (l : list ascii) :
  Forall (fun c => c <> sep -> P c) l -> Forall (Forall P) (Py.split_on sep l).
Proof.
  induction 1 as [|c l Hc _ IH]; simpl.
  - repeat constructor.
  - destruct (Ascii.eqb c sep) eqn:E.
    + constructor; [constructor | exact IH].
    + apply Ascii.eqb_neq in E.
      destruct (Py.split_on sep l) as [|p ps].
      * repeat constructor. auto.
      * inversion IH; subst. constructor; [constructor; auto | assumption].
Qed.

Lemma nth_parts (P : ascii -> Prop) (sep : ascii) (l : list ascii) (i : nat) :
  Forall (fun c => c <> sep -> P c) l ->
  exists p, nth i (Py.split sep (Py.str l)) "" = Py.str p /\ Forall P p.
Proof.
  intros H. unfold Py.split. rewrite chars_str.
  exists (nth i (Py.split_on sep l) []). split.
  - change "" with (Py.str []). apply map_nth.
  - pose proof (split_on_parts P sep l H) as Hs.
    revert i. induction Hs; intros [|i]; simpl; try constructor; auto.
Qed.

Lemma zero_not_negative : not_negative (Py.of_int 0).
Proof. reflexivity. Qed.

Lemma parse_amount_body_not_negative (a : string) (lo hi : Py.pyfloat) :
  RealDataScraper._parse_amount_body a = inr (lo, hi) ->
  not_negative lo /\ not_negative hi.
Proof.
  unfold RealDataScraper._parse_amount_body.
  set (cleaned := List.filter
                    (fun c => (Py.is_digit c || Ascii.eqb c "." || Ascii.eqb c "-")%bool) _).
  assert (C : Forall (fun c => c <> "-"%char -> Py.is_digit c = true \/ c = "."%char)
                     cleaned).
  { apply List.Forall_forall. intros c Hc Hn. apply filter_In in Hc as [_ Hk].
    apply orb_true_iff in Hk as [Hk | Hk]; [|apply Ascii.eqb_eq in Hk; contradiction].
    apply orb_true_iff in Hk as [Hk | Hk]; [now left | right; now apply Ascii.eqb_eq]. }
  destruct (Py.contains_char "-" (Py.str cleaned)) eqn:Hy.
  - destruct (nth_parts _ "-" cleaned 0 C) as (p0 & -> & H0).
    destruct (nth_parts _ "-" cleaned 1 C) as (p1 & -> & H1).
    assert (L : forall lo0, (if Py.truthy (Py.str p0)
                             then match Py.float (Py.str p0) with
                                  | Some v => inr v
                                  | None => inl (ValueError "could not convert string to float")
                                  end
                             else inr (Py.of_int 0)) = inr lo0 -> not_negative lo0).
    { intros lo0. destruct (Py.truthy (Py.str p0)).
      - destruct (Py.float (Py.str p0)) as [v|] eqn:F; [|discriminate].
        intros [= <-]. exact (float_plain p0 v H0 F).
      - intros [= <-]. apply zero_not_negative. }
    destruct (if Py.truthy (Py.str p0) then _ else _) as [e|lo0] eqn:E0; [discriminate|].
    specialize (L lo0 eq_refl).
    destruct (Py.truthy (Py.str p1)).
    + destruct (Py.float (Py.str p1)) as [v|] eqn:F; [|discriminate].
      intros [= <- <-]. split; [exact L | exact (float_plain p1 v H1 F)].
    + intros [= <- <-]. split; exact L.
  - assert (Pl : plain cleaned).
    { unfold Py.contains_char in Hy. rewrite chars_str in Hy.
      apply List.Forall_forall. intros c Hc.
      rewrite List.Forall_forall in C. apply (C c Hc). intros ->.
      assert (X : existsb (Ascii.eqb "-") cleaned = true)
        by (apply existsb_exists; exists "-"%char; split; [exact Hc | reflexivity]).
      congruence. }
    destruct (Py.truthy (Py.str cleaned)).
    + destruct (Py.float (Py.str cleaned)) as [v|] eqn:F; [|discriminate].
      intros [= <- <-]. split; exact (float_plain cleaned v Pl F).
    + intros [= <- <-]. split; apply zero_not_negative.
Qed.

(** X15 (_parse_amount of the scraper): whatever the text, the scraper's
    amount parser returns, without touching the rows, a pair of numbers
    neither of which is negative or not-a-number: a minus sign is only
    ever read as the separator of a range. *)
Theorem scraped_amounts_not_negative (a : string) (s : session) :
  exists lo hi,
    (RealDataScraper._parse_amount a s).1 = inr (lo, hi)
    /\ not_negative lo /\ not_negative hi
    /\ db (RealDataScraper._parse_amount a s).2 = db s
    /\ committed (RealDataScraper._parse_amount a s).2 = committed s.
Proof.
  unfold RealDataScraper._parse_amount.
  destruct (RealDataScraper._parse_amount_body a) as [e|[lo hi]] eqn:E.
  - exists (Py.of_int 0), (Py.of_int 0). repeat split; reflexivity.
  - exists lo, hi. destruct (parse_amount_body_not_negative a lo hi E). repeat split; auto.
Qed.

(** ** The ticker read from an asset text *)

Lemma ticker_shaped_spec (l : list ascii) :
  RealDataScraper.ticker_shaped l = true
  <-> Forall (fun c => Py.is_upper c = true) l /\ (1 <= length l <= 5)%nat.
Proof.
  unfold RealDataScraper.ticker_shaped.
  rewrite !andb_true_iff, forallb_forall, List.Forall_forall, !Nat.leb_le. tauto.
Qed.

Lemma ticker_shaped_rev (l : list ascii) :
  RealDataScraper.ticker_shaped (rev l) = RealDataScraper.ticker_shaped l.
Proof.
  unfold RealDataScraper.ticker_shaped. rewrite length_rev. f_equal. f_equal.
  destruct (forallb Py.is_upper l) eqn:E.
  - apply forallb_forall. intros c Hc. apply in_rev in Hc.
    exact (proj1 (forallb_forall _ _) E c Hc).
  - destruct (forallb Py.is_upper (rev l)) eqn:E'; [|reflexivity].
    rewrite <- E. symmetry. apply forallb_forall. intros c Hc. apply in_rev in Hc.
    exact (proj1 (forallb_forall _ _) E' c Hc).
Qed.

Lemma occurs_in_later (t s : list ascii) (before : list ascii) :
  occurs_in t s -> occurs_in t (before ++ s)%list.
Proof.
  intros (b & a & ->). exists (before ++ b)%list, a. now rewrite <- app_assoc.
Qed.

(** The word the first pattern finds is one to five capital letters
    that stand in the text. *)
Lemma search_word_found (l : list ascii) :
  forall (cur : option (list ascii)) (t : list ascii),
    RealDataScraper.search_word cur l = Some t ->
    RealDataScraper.ticker_shaped t = true
    /\ occurs_in t (rev (default [] cur) ++ l)%list.
Proof.
  induction l as [|c l IH]; intros cur t.
  - simpl. destruct cur as [wd|]; [|discriminate].
    destruct (RealDataScraper.ticker_shaped wd) eqn:E; [|discriminate].
    intros [= <-]. rewrite ticker_shaped_rev. split; [exact E|].
    exists [], []. simpl. now rewrite app_nil_r.
  - cbn [RealDataScraper.search_word].
    destruct (RealDataScraper.is_word_char c).
    + intros H. apply IH in H as [S O]. split; [exact S|].
      simpl in O. now rewrite <- app_assoc in O.
    + destruct cur as [wd|].
      * destruct (RealDataScraper.ticker_shaped wd) eqn:E.
        -- intros [= <-]. rewrite ticker_shaped_rev. split; [exact E|].
           exists [], (c :: l). reflexivity.
        -- intros H. apply IH in H as [S O]. split; [exact S|].
           simpl in O. simpl. apply occurs_in_later.
           apply (occurs_in_later t l [c]). exact O.
      * intros H. apply IH in H as [S O]. split; [exact S|].
        simpl in O. simpl. apply (occurs_in_later t l [c]). exact O.
Qed.

Lemma take_upper_app (l u r : list ascii) :
  RealDataScraper.take_upper l = (u, r) -> l = (u ++ r)%list.
Proof.
  revert u r. induction l as [|c l IH]; simpl; intros u r.
  - now intros [= <- <-].
  - destruct (Py.is_upper c); [|now intros [= <- <-]].
    destruct (RealDataScraper.take_upper l) as [u' r'] eqn:E. intros [= <- <-].
    simpl. f_equal. now apply IH.
Qed.

(** So is the word the second pattern finds between parentheses. *)
Lemma search_parenthesised_found (l t : list ascii) :
  RealDataScraper.search_parenthesised l = Some t ->
  RealDataScraper.ticker_shaped t = true /\ occurs_in t l.
Proof.
  induction l as [|c l IH]; simpl; [discriminate|].
  destruct (Ascii.eqb c "(") eqn:Ec.
  - destruct (RealDataScraper.take_upper l) as [u r] eqn:E.
    apply take_upper_app in E.
    assert (K : RealDataScraper.search_parenthesised l = Some t ->
                RealDataScraper.ticker_shaped t = true /\ occurs_in t (c :: l)).
    { intros H. apply IH in H as [S O]. split; [exact S|].
      exact (occurs_in_later t l [c] O). }
    destruct r as [|d r']; [exact K|].
    destruct (Ascii.eqb d ")" && RealDataScraper.ticker_shaped u)%bool eqn:Ed; [|exact K].
    apply andb_true_iff in Ed as [_ S]. intros [= <-]. split; [exact S|].
    exists [c], (d :: r'). simpl. now rewrite E.
  - intros H. apply IH in H as [S O]. split; [exact S|].
    exact (occurs_in_later t l [c] O).
Qed.

Lemma not_in_spec (x : string) (l : list string) :
  RealDataScraper.not_in x l = true -> ~ In x l.
Proof.
  unfold RealDataScraper.not_in. intros H Hin. apply negb_true_iff in H.
  assert (X : existsb (String.eqb x) l = true).
  { apply existsb_exists. exists x. split; [exact Hin | apply String.eqb_refl]. }
  congruence.
Qed.

(** X16 (_extract_ticker): a ticker read from an asset text is one to
    five capital letters that stand in a row in the text, and is none of
    the six words of the stop list; so a text without a capital letter
    has no ticker. *)
Theorem extract_ticker_shape (asset_text : string) :
  (forall t, RealDataScraper._extract_ticker asset_text = Some t ->
     Forall (fun c => Py.is_upper c = true) (Py.chars t)
     /\ (1 <= length (Py.chars t) <= 5)%nat
     /\ ~ In t RealDataScraper.false_positives
     /\ occurs_in (Py.chars t) (Py.chars asset_text))
  /\ (Forall (fun c => Py.is_upper c = false) (Py.chars asset_text) ->
      RealDataScraper._extract_ticker asset_text = None).
Proof.
  assert (F : forall t, RealDataScraper._extract_ticker asset_text = Some t ->
     Forall (fun c => Py.is_upper c = true) (Py.chars t)
     /\ (1 <= length (Py.chars t) <= 5)%nat
     /\ ~ In t RealDataScraper.false_positives
     /\ occurs_in (Py.chars t) (Py.chars asset_text)).
  { intros t. unfold RealDataScraper._extract_ticker.
    assert (P : forall (p : list ascii -> option (list ascii)) u,
               (forall l t, p l = Some t ->
                            RealDataScraper.ticker_shaped t = true /\ occurs_in t l) ->
               p (Py.chars asset_text) = Some u ->
               RealDataScraper.not_in (Py.str u) RealDataScraper.false_positives = true ->
               Some (Py.str u) = Some t ->
               Forall (fun c => Py.is_upper c = true) (Py.chars t)
               /\ (1 <= length (Py.chars t) <= 5)%nat
               /\ ~ In t RealDataScraper.false_positives
               /\ occurs_in (Py.chars t) (Py.chars asset_text)).
    { intros p u Hp E N [= <-]. rewrite chars_str.
      destruct (Hp _ _ E) as [S O]. apply ticker_shaped_spec in S as [S1 S2].
      repeat split; try assumption; try apply S2. now apply not_in_spec. }
    assert (W : forall l t, RealDataScraper.search_word None l = Some t ->
                            RealDataScraper.ticker_shaped t = true /\ occurs_in t l).
    { intros l u H. exact (search_word_found l None u H). }
    destruct (RealDataScraper.search_word None (Py.chars asset_text)) as [u|] eqn:E1.
    - destruct (RealDataScraper.not_in (Py.str u) RealDataScraper.false_positives) eqn:N1;
        [exact (P _ u W E1 N1)|].
      destruct (RealDataScraper.search_parenthesised (Py.chars asset_text)) as [u'|] eqn:E2;
        [|discriminate].
      destruct (RealDataScraper.not_in (Py.str u') RealDataScraper.false_positives) eqn:N2;
        [|discriminate].
      exact (P _ u' search_parenthesised_found E2 N2).
    - destruct (RealDataScraper.search_parenthesised (Py.chars asset_text)) as [u'|] eqn:E2;
        [|discriminate].
      destruct (RealDataScraper.not_in (Py.str u') RealDataScraper.false_positives) eqn:N2;
        [|discriminate].
      exact (P _ u' search_parenthesised_found E2 N2). }
  split; [exact F|]. intros H.
  destruct (RealDataScraper._extract_ticker asset_text) as [t|] eqn:E; [|reflexivity].
  destruct (F t eq_refl) as (U & [L _] & _ & (b & a & O)).
  destruct (Py.chars t) as [|c l]; [simpl in L; lia|].
  inversion U as [|? ? Hc _]; subst.
  rewrite List.Forall_forall in H. rewrite (H c) in Hc; [discriminate Hc|].
  rewrite O. apply in_or_app. right. now left.
Qed.

Lemma extract_ticker_shape_witness :
  RealDataScraper._extract_ticker "THE Fund (XYZ)" = Some "XYZ"
  /\ ~ In "XYZ" RealDataScraper.false_positives.
Proof.
  assert (H : RealDataScraper._extract_ticker "THE Fund (XYZ)" = Some "XYZ") by reflexivity.
  exact (conj H (proj1 (proj2 (proj2 (proj1 (extract_ticker_shape "THE Fund (XYZ)") "XYZ" H))))).
Defined.

(** ** The sample trades of the Senate *)

(** A loop whose every turn appends one trade that satisfies [P]. *)
Lemma appending_loop {A} (P : Trade -> Prop) (body : A -> M unit) (l : list A) :
  (forall i s, exists t,
      body i s = (inr tt, set_db {| members := members (db s);
                                    trades := (trades (db s) ++ [t])%list;
                                    committees := committees (db s) |} s)
      /\ P t) ->
  forall s, exists new,
    for_each l body s
    = (inr tt, set_db {| members := members (db s);
                         trades := (trades (db s) ++ new)%list;
                         committees := committees (db s) |} s)
    /\ length new = length l /\ Forall P new.
Proof.
  intros H. induction l as [|i l IH]; intros s.
  - exists []. simpl. unfold ret, set_db. rewrite app_nil_r.
    destruct s as [[ms ts cs] c n lg]. simpl. repeat split. constructor.
  - destruct (H i s) as (t & E & Pt). simpl. rewrite (bind_ok _ _ _ _ _ E).
    destruct (IH (set_db {| members := members (db s);
                            trades := (trades (db s) ++ [t])%list;
                            committees := committees (db s) |} s)) as (new & E' & L & F).
    exists (t :: new). rewrite E'. simpl. rewrite <- app_assoc. simpl.
    repeat split; [now rewrite L | now constructor].
Qed.

(** X17 (_add_senate_sample_data): the method always returns and leaves
    members and committees alone.  With no member of the Senate stored
    it adds nothing and commits nothing.  Otherwise it appends exactly
    20 trades, each attached to a stored member of the Senate, each from
    the source Senate Financial Disclosures, each with a lower amount
    that does not exceed the upper one, and commits; its handler, which
    rolls back, is never reached. *)
Theorem add_senate_sample_data_spec (w : World) (s : session) :
  let senators :=
    List.filter (fun m => String.eqb (chamber m) "Senate") (members (db s)) in
  let s' := exec (RealDataScraper._add_senate_sample_data w) s in
  (RealDataScraper._add_senate_sample_data w s).1 = inr tt
  /\ members (db s') = members (db s)
  /\ committees (db s') = committees (db s)
  /\ (senators = [] -> trades (db s') = trades (db s) /\ committed s' = committed s)
  /\ (senators <> [] ->
      exists new,
        trades (db s') = (trades (db s) ++ new)%list
        /\ length new = 20%nat
        /\ Forall (fun t =>
                     (exists m, In m senators /\ member_id t = member_id_ m)
                     /\ source t = Some "Senate Financial Disclosures"
                     /\ exists lo hi, amount_min t = Some (Py.of_int lo)
                                      /\ amount_max t = Some (Py.of_int hi) /\ lo <= hi)
                  new
        /\ committed s' = db s').
Proof.
  cbv zeta. unfold exec, RealDataScraper._add_senate_sample_data, try_except.
  rewrite bind_query. cbn [db committed statements log].
  destruct (List.filter (fun m => String.eqb (chamber m) "Senate") (members (db s)))
    as [|m0 ms] eqn:E.
  - cbn. repeat split; try reflexivity. intros H. now destruct H.
  - set (senators := m0 :: ms).
    match goal with |- context [bind (for_each (seq 0 20) ?body) _ ?s0] =>
      destruct (appending_loop
                  (fun t =>
                     (exists m, In m senators /\ member_id t = member_id_ m)
                     /\ source t = Some "Senate Financial Disclosures"
                     /\ exists lo hi, amount_min t = Some (Py.of_int lo)
                                      /\ amount_max t = Some (Py.of_int hi) /\ lo <= hi)
                  body (seq 0 20)) with (s := s0) as (new & EL & L & F)
    end.
    + intros i s1.
      destruct (lookup_lt_is_Some_2 senators (i mod length senators)%nat) as [m Hm].
      { apply Nat.mod_upper_bound. discriminate. }
      eexists. split.
      * rewrite Hm. cbn [of_option]. reflexivity.
      * cbn [member_id source amount_min amount_max]. split; [|split; [reflexivity|]].
        -- exists m. split; [|reflexivity].
           apply list_elem_of_In. exact (list_elem_of_lookup_2 _ _ _ Hm).
        -- eexists _, _. split; [reflexivity|]. split; [reflexivity|]. lia.
    + rewrite (bind_ok _ _ _ _ _ EL). rewrite bind_commit. cbn.
      repeat split; try reflexivity; try discriminate.
      intros _. exists new. repeat split; assumption.
Qed.

Lemma add_senate_sample_data_spec_witness :
  exists new,
    trades (db (exec (RealDataScraper._add_senate_sample_data Sample.online)
                     (new_session Sample.two_trades)))
    = (trades Sample.two_trades ++ new)%list
    /\ length new = 20%nat.
Proof.
  destruct (proj2 (proj2 (proj2 (proj2
              (add_senate_sample_data_spec Sample.online (new_session Sample.two_trades))))))
    as (new & T & L & _); [discriminate|].
  exists new. exact (conj T L).
Defined.

(** ** Saving what the API lists, twice *)

Lemma like_percent_skip eqc (p s : list ascii) :
  Sql.like_chars eqc p s = true -> Sql.like_chars eqc ("%"%char :: p) s = true.
Proof.
  intros H. destruct s as [|c s].
  - now rewrite like_percent_nil.
  - now rewrite like_percent_cons, H.
Qed.

(** A pattern matches itself, whatever follows on both sides matching. *)
Lemma like_same_prefix (a p t : list ascii) :
  Sql.like_chars Ascii.eqb p t = true ->
  Sql.like_chars Ascii.eqb (a ++ p)%list (a ++ t)%list = true.
Proof.
  intros H. induction a as [|c a IH]; [exact H|].
  change ((c :: a) ++ p)%list with (c :: (a ++ p))%list.
  change ((c :: a) ++ t)%list with (c :: (a ++ t))%list.
  destruct (Ascii.eqb c "%") eqn:E.
  - apply Ascii.eqb_eq in E. subst c.
    rewrite like_percent_cons. apply orb_true_iff. right.
    now apply like_percent_skip.
  - cbn [Sql.like_chars]. rewrite E, Ascii.eqb_refl, orb_true_r. exact IH.
Qed.

(** A name made of two words is like the pattern made of them. *)
Lemma ilike_first_last (a b : string) :
  Sql.ilike (a ++ " " ++ b) ("%" ++ a ++ "%" ++ b ++ "%") = true.
Proof.
  unfold Sql.ilike. rewrite !lower_app, !chars_app.
  change (Py.chars (Py.lower "%")) with ["%"%char].
  change (Py.chars (Py.lower " ")) with [" "%char].
  simpl app. apply like_percent_skip. apply like_same_prefix.
  rewrite like_percent_cons. apply orb_true_iff. right.
  apply like_percent_skip. apply like_self_percent.
Qed.

Lemma save_propublica_member_db (member_data : raw) (chamber_ : string) (s : session) :
  let first_name := Py.format_opt (member_data !! "first_name") in
  let last_name := Py.format_opt (member_data !! "last_name") in
  let known m :=
    (Sql.ilike (name m) ("%" ++ first_name ++ "%" ++ last_name ++ "%")
     && String.eqb (chamber m) (Py.title chamber_))%bool in
  let s' := exec (CongressDataCollector._save_propublica_member member_data chamber_) s in
  trades (db s') = trades (db s) /\ committees (db s') = committees (db s)
  /\ match List.find known (members (db s)) with
     | Some _ => members (db s') = members (db s)
     | None => exists m, members (db s') = (members (db s) ++ [m])%list /\ known m = true
     end.
Proof.
  cbv zeta. unfold exec, CongressDataCollector._save_propublica_member, try_except.
  rewrite bind_query. cbn [db].
  destruct (List.find _ (members (db s))) as [m|] eqn:E.
  - cbn. auto.
  - cbn. split; [reflexivity|]. split; [reflexivity|]. eexists. split; [reflexivity|].
    cbn [name chamber]. now rewrite ilike_first_last, String.eqb_refl.
Qed.

Lemma save_propublica_committee_db (data : committee_data) (chamber_ : string)
      (s : session) :
  let known c := String.eqb (code c) (get (fields data) "id" "") in
  let s' := exec (CongressDataCollector._save_propublica_committee data chamber_) s in
  trades (db s') = trades (db s) /\ members (db s') = members (db s)
  /\ match List.find known (committees (db s)) with
     | Some _ => committees (db s') = committees (db s)
     | None => exists c, committees (db s') = (committees (db s) ++ [c])%list
                         /\ known c = true
     end.
Proof.
  cbv zeta. unfold exec, CongressDataCollector._save_propublica_committee, try_except.
  rewrite bind_query. cbn [db].
  destruct (List.find _ (committees (db s))) as [c|] eqn:E.
  - cbn. auto.
  - cbn. split; [reflexivity|]. split; [reflexivity|]. eexists. split; [reflexivity|].
    cbn [code]. apply String.eqb_refl.
Qed.

Lemma db_eq (d d' : Db) :
  members d = members d' -> trades d = trades d' -> committees d = committees d' -> d = d'.
Proof. destruct d, d'. simpl. now intros -> -> ->. Qed.

(** X18 (_save_propublica_member, _save_propublica_committee): saving
    the same listed member a second time changes no row; saving a
    listed member, or a listed committee, adds at most one row, to its
    own table. *)
Theorem propublica_save_idempotent
        (member_data : raw) (data : committee_data) (chamber_ : string) (s : session) :
  let save_member := CongressDataCollector._save_propublica_member member_data chamber_ in
  let save_committee := CongressDataCollector._save_propublica_committee data chamber_ in
  db (exec save_member (exec save_member s)) = db (exec save_member s)
  /\ (exists extra, members (db (exec save_member s)) = (members (db s) ++ extra)%list
                    /\ (length extra <= 1)%nat
                    /\ trades (db (exec save_member s)) = trades (db s)
                    /\ committees (db (exec save_member s)) = committees (db s))
  /\ (exists extra, committees (db (exec save_committee s)) = (committees (db s) ++ extra)%list
                    /\ (length extra <= 1)%nat
                    /\ trades (db (exec save_committee s)) = trades (db s)
                    /\ members (db (exec save_committee s)) = members (db s)).
Proof.
  cbv zeta.
  pose proof (save_propublica_member_db member_data chamber_ s) as H1.
  pose proof (save_propublica_member_db member_data chamber_
                (exec (CongressDataCollector._save_propublica_member member_data chamber_) s))
    as H2.
  pose proof (save_propublica_committee_db data chamber_ s) as H3.
  cbv zeta in H1, H2, H3.
  destruct H1 as (T1 & C1 & M1), H2 as (T2 & C2 & M2).
  destruct H3 as (T3 & C3 & M3).
  split; [|split].
  - apply db_eq; try assumption.
    destruct (List.find _ (members (db s))) as [m|] eqn:E.
    + rewrite M1 in M2. rewrite E in M2. now rewrite M2, M1.
    + destruct M1 as (m & M1 & K). rewrite M1 in M2.
      rewrite (find_app_none _ _ _ E), K in M2. now rewrite M2, M1.
  - destruct (List.find _ (members (db s))) as [m|].
    + exists []. rewrite app_nil_r. simpl. auto.
    + destruct M1 as (m & M1 & _). exists [m]. simpl. auto.
  - destruct (List.find _ (committees (db s))) as [c|].
    + exists []. rewrite app_nil_r. simpl. auto.
    + destruct M3 as (c & M3 & _). exists [c]. simpl. auto.
Qed.

(** ** The index of the structured feed *)

Lemma bind_ret {A B} (a : A) (k : A -> M B) (s : session) : bind (ret a) k s = k a s.
Proof. reflexivity. Qed.

Lemma for_each_app_run {A} (body : A -> M unit) (l1 l2 : list A) (s s1 : session) :
  for_each l1 body s = (inr tt, s1) ->
  for_each (l1 ++ l2) body s = for_each l2 body s1.
Proof.
  revert s. induction l1 as [|x l1 IH]; intros s; simpl.
  - now intros [= <-].
  - unfold bind. destruct (body x s) as [[e|[]] s0]; [discriminate|]. apply IH.
Qed.

Section SenateIndex.
Variable fromisoformat : string -> option datetime.
Variable w : World.

Local Abbreviation process := (CongressDataCollector._process_senate_file fromisoformat w).
Local Abbreviation entry :=
  (fun file_info : raw =>
     let* file_name := of_option (KeyError "name") (file_info !! "name") in
     if Py.endswith ".json" file_name then
       let* download_url :=
         of_option (KeyError "download_url") (file_info !! "download_url") in
       process download_url
     else ret tt).

Lemma process_senate_file_returns (url : string) (s : session) :
  exists s1, process url s = (inr tt, s1).
Proof.
  pose proof (try_except_log_returns
                (let* response := fetch (senate_stock_file w url) in
                 match response with
                 | Some data =>
                     for_each data (CongressDataCollector._save_senate_trade fromisoformat)
                 | None => ret tt
                 end) "Error processing Senate file" s) as H.
  fold (process url) in H. destruct (process url s) as [r s1]. simpl in H. subst r. eauto.
Qed.

Lemma urls_of_cons (f : raw) (files : list raw) :
  urls_of (f :: files) = (urls_of [f] ++ urls_of files)%list.
Proof.
  unfold urls_of. simpl.
  destruct (f !! "name") as [n|]; [|reflexivity].
  destruct (Py.endswith ".json" n); [|reflexivity].
  now destruct (f !! "download_url").
Qed.

Lemma entry_listed (f : raw) (s : session) :
  listed f ->
  exists s1, entry f s = (inr tt, s1)
             /\ for_each (urls_of [f]) process s = (inr tt, s1).
Proof.
  intros (n & Hn & Hu). unfold urls_of. simpl omap. rewrite Hn.
  cbn [of_option]. rewrite bind_ret.
  destruct (Py.endswith ".json" n).
  - destruct (Hu eq_refl) as [u Hd]. rewrite Hd. cbn [of_option for_each].
    rewrite bind_ret. destruct (process_senate_file_returns u s) as [s1 E1].
    exists s1. split; [exact E1|]. now rewrite (bind_ok _ _ _ _ _ E1).
  - exists s. split; reflexivity.
Qed.

(** The entries that can be read are processed one file at a time. *)
Lemma listed_entries (files : list raw) :
  Forall listed files ->
  forall s, exists s1, for_each files entry s = (inr tt, s1)
                       /\ for_each (urls_of files) process s = (inr tt, s1).
Proof.
  induction 1 as [|f files Hf _ IH]; intros s.
  - exists s. split; reflexivity.
  - destruct (entry_listed f s Hf) as (s1 & E1 & U1). destruct (IH s1) as (s2 & E2 & U2).
    exists s2. split.
    + cbn [for_each]. now rewrite (bind_ok _ _ _ _ _ E1).
    + now rewrite urls_of_cons, (for_each_app_run _ _ _ _ _ U1).
Qed.

(** X19 (collect_senate_stock_data): the files of the index are
    processed in order, one at a time, each entry whose name ends in
    .json through its download address.  An entry without a name stops
    the collection there: the files before it have been processed, the
    files after it are not looked at, and one error is logged. *)
Theorem senate_index_entries (files : list raw) (s : session) :
  let run := CongressDataCollector.collect_senate_stock_data fromisoformat w in
  let announced := exec (logger_info "Collecting Senate Stock Watcher data...") s in
  (senate_stock_index w = Response 200 (Some files) ->
   Forall listed files ->
   run s = for_each (urls_of files) process announced)
  /\ (forall before bad after,
         senate_stock_index w = Response 200 (Some (before ++ bad :: after)%list) ->
         Forall listed before ->
         bad !! "name" = None ->
         run s = (inr tt,
                  exec (logger_error "Error collecting Senate Stock Watcher data"
                                     (KeyError "name"))
                       (exec (for_each (urls_of before) process) announced))).
Proof.
  cbv zeta. unfold CongressDataCollector.collect_senate_stock_data, try_except. split.
  - intros Hi Hf. rewrite bind_logger_info, Hi. cbn [Z.eqb Pos.eqb of_option].
    rewrite bind_ret.
    destruct (listed_entries files Hf
                (exec (logger_info "Collecting Senate Stock Watcher data...") s))
      as (s1 & E1 & U1).
    unfold exec, logger_info, logger in E1, U1 |- *. cbn [snd] in E1, U1 |- *.
    rewrite E1, U1. reflexivity.
  - intros before bad after Hi Hf Hb. rewrite bind_logger_info, Hi.
    cbn [Z.eqb Pos.eqb of_option]. rewrite bind_ret.
    destruct (listed_entries before Hf
                (exec (logger_info "Collecting Senate Stock Watcher data...") s))
      as (s1 & E1 & U1).
    unfold exec, logger_info, logger in E1, U1 |- *. cbn [snd] in E1, U1 |- *.
    rewrite (for_each_app_run _ _ _ _ _ E1), U1.
    cbn [for_each snd]. rewrite bind_assoc, Hb. cbn [of_option]. reflexivity.
Qed.

End SenateIndex.

Lemma senate_index_entries_witness :
  CongressDataCollector.collect_senate_stock_data Sample.date_only Sample.online
    (new_session empty_db)
  = for_each (urls_of [ {[ "name" := "2024.json"; "download_url" := "u1" ]};
                        {[ "name" := "README.md"; "download_url" := "u2" ]} ])
      (CongressDataCollector._process_senate_file Sample.date_only Sample.online)
      (exec (logger_info "Collecting Senate Stock Watcher data...") (new_session empty_db)).
Proof.
  apply (proj1 (senate_index_entries Sample.date_only Sample.online _ (new_session empty_db))).
  - reflexivity.
  - repeat constructor.
    + exists "2024.json". split; [reflexivity|]. intros _. exists "u1". reflexivity.
    + exists "README.md". split; [reflexivity|]. intros _. exists "u2". reflexivity.
Defined.

(** ** A disclosure page and its name *)

Lemma extract_member_name_from_spec (texts : list (option string)) :
  match RealDataScraper._extract_member_name_from texts with
  | Some n =>
      exists before t after,
        texts = (before ++ Some t :: after)%list
        /\ n = Py.str (Py.strip (Py.chars t))
        /\ (3 < String.length n)%nat
        /\ forall t', In (Some t') before ->
                      (String.length (Py.str (Py.strip (Py.chars t'))) <= 3)%nat
  | None =>
      forall t, In (Some t) texts ->
                (String.length (Py.str (Py.strip (Py.chars t))) <= 3)%nat
  end.
Proof.
  induction texts as [|[t|] texts IH]; simpl.
  - intros t [].
  - destruct (Py.truthy _ && (3 <? _))%bool eqn:E.
    + apply andb_true_iff in E as [_ E]. apply Z.ltb_lt in E.
      exists [], t, texts. repeat split; [lia | intros t' []].
    + assert (L : (String.length (Py.str (Py.strip (Py.chars t))) <= 3)%nat).
      { apply andb_false_iff in E as [E | E].
        - destruct (Py.str (Py.strip (Py.chars t))); [simpl; lia | discriminate E].
        - apply Z.ltb_ge in E. lia. }
      destruct (RealDataScraper._extract_member_name_from texts) as [n|].
      * destruct IH as (before & t0 & after & -> & -> & Hn & Hb).
        exists (Some t :: before), t0, after. repeat split; [exact Hn|].
        intros t' [[= <-] | H]; [exact L | auto].
      * intros t' [[= <-] | H]; [exact L | auto].
  - destruct (RealDataScraper._extract_member_name_from texts) as [n|].
    + destruct IH as (before & t0 & after & -> & -> & Hn & Hb).
      exists (None :: before), t0, after. repeat split; [exact Hn|].
      intros t' [H | H]; [discriminate H | auto].
    + intros t' [H | H]; [discriminate H | auto].
Qed.

(** X20 (_extract_member_name, _process_house_disclosure): the name of a
    disclosure page is the first of its selected texts that, once
    stripped, is longer than three characters, stripped.  A page that
    is fetched is processed under that name; a page without such a text
    leaves the session as it was: nothing is stored and nothing is
    logged. *)
Theorem disclosure_page_name (w : World) (disclosure_url : string) (soup : page)
        (s : session) :
  house_disclosure w ("https://clerk.house.gov" ++ disclosure_url)
  = Response 200 (Some soup) ->
  match RealDataScraper._extract_member_name soup with
  | Some n =>
      (exists before t after,
          selected soup = (before ++ Some t :: after)%list
          /\ n = Py.str (Py.strip (Py.chars t))
          /\ (3 < String.length n)%nat
          /\ forall t', In (Some t') before ->
                        (String.length (Py.str (Py.strip (Py.chars t'))) <= 3)%nat)
      /\ RealDataScraper._process_house_disclosure w disclosure_url s
         = RealDataScraper._process_member_trades w n soup s
  | None =>
      (forall t, In (Some t) (selected soup) ->
                 (String.length (Py.str (Py.strip (Py.chars t))) <= 3)%nat)
      /\ RealDataScraper._process_house_disclosure w disclosure_url s = (inr tt, s)
  end.
Proof.
  intros H. pose proof (extract_member_name_from_spec (selected soup)) as N.
  change (RealDataScraper._extract_member_name_from (selected soup))
    with (RealDataScraper._extract_member_name soup) in N.
  unfold RealDataScraper._process_house_disclosure, try_except. rewrite H.
  rewrite (bind_ok _ _ s s (Some soup)) by reflexivity.
  destruct (RealDataScraper._extract_member_name soup) as [n|].
  - split; [exact N|].
    pose proof (try_except_log_returns
                  (for_each (tables soup) (fun rows =>
                     for_each (tail rows) (fun cells =>
                       if (3 <=? length cells)%nat
                       then RealDataScraper._extract_trade_from_row w n cells
                       else ret tt)))
                  "Error processing trades" s) as R.
    fold (RealDataScraper._process_member_trades w n soup) in R.
    destruct (RealDataScraper._process_member_trades w n soup s) as [r s1].
    simpl in R. subst r. reflexivity.
  - split; [exact N | reflexivity].
Qed.

Lemma disclosure_page_name_witness :
  RealDataScraper._process_house_disclosure Sample.online "/FinancialDisclosure/1"
    (new_session empty_db)
  = RealDataScraper._process_member_trades Sample.online "John Doe"
      {| selected := [None; Some " John Doe "];
         tables := [[ ["Asset"; "Type"; "Amount"];
                      ["Apple Inc. (AAPL)"; "P"; "$1,001 - $15,000"];
                      ["THE Fund (XYZ)"; "S"; "N/A"] ]] |}
      (new_session empty_db).
Proof.
  exact (proj2 (disclosure_page_name Sample.online "/FinancialDisclosure/1" _
                  (new_session empty_db) eq_refl)).
Defined.

(** ** The endpoint that triggers a collection *)

(** X21 (trigger_data_collection): as long as the engine accepts the
    rows, whatever the sources answer, the endpoint answers with the
    message of success and leaves the session as a collection run
    without an API key leaves it, all rows committed: no failure of a
    source or of the reading of a record reaches the handler that
    answers 500. *)
Theorem trigger_data_collection_spec
        (fromisoformat : string -> option datetime) (w : World) (s : session) :
  Main.trigger_data_collection fromisoformat w s
  = (inr "Data collection completed successfully",
     exec (CongressDataCollector.collect_congress_data fromisoformat w None) s)
  /\ committed (exec (Main.trigger_data_collection fromisoformat w) s)
     = db (exec (Main.trigger_data_collection fromisoformat w) s).
Proof.
  assert (R : returns (CongressDataCollector.collect_congress_data fromisoformat w None)).
  { unfold CongressDataCollector.collect_congress_data.
    do 2 (apply returns_seq; [apply returns_try_except_log|]).
    apply returns_seq; [intros s'; exists tt; reflexivity|].
    apply returns_seq; [apply returns_try_except_log|].
    intros s'. exists tt. reflexivity. }
  assert (K : forall s', committed
                (CongressDataCollector.collect_congress_data fromisoformat w None s').2
              = db (CongressDataCollector.collect_congress_data fromisoformat w None s').2).
  { unfold CongressDataCollector.collect_congress_data.
    set (P := fun o : (exn + unit) * session => committed o.2 = db o.2).
    intros s'.
    change (P ((CongressDataCollector.collect_senate_stock_data fromisoformat w ;;
                CongressDataCollector.collect_house_trading_data ;;
                ret tt ;;
                try_except (RealDataScraper.scrape_real_data w)
                           (fun e => logger_error "Error scraping real data" e) ;;
                commit ;;
                logger_info "Data collection completed successfully") s')).
    revert s'.
    do 2 (apply (outcome_seq _ _ P); [apply returns_try_except_log|]).
    apply (outcome_seq _ _ P); [intros s'; exists tt; reflexivity|].
    apply (outcome_seq _ _ P); [apply returns_try_except_log|].
    intros s'. reflexivity. }
  assert (E : Main.trigger_data_collection fromisoformat w s
              = (inr "Data collection completed successfully",
                 exec (CongressDataCollector.collect_congress_data fromisoformat w None) s)).
  { unfold Main.trigger_data_collection, try_except, bind, exec.
    destruct (R s) as [[] E].
    destruct (CongressDataCollector.collect_congress_data fromisoformat w None s)
      as [[e|[]] s1]; [discriminate E | reflexivity]. }
  split; [exact E|]. unfold exec. rewrite E. cbn [snd]. unfold exec. apply K.
Qed.

(** ** Where the trades of a run come from *)

Lemma only_adds_on_rows (P : Trade -> Prop) (d0 : Db) : on_rows (only_adds P d0).
Proof. intros s s' D K. unfold only_adds. now rewrite D, K. Qed.

Lemma only_adds_commit (P : Trade -> Prop) (d0 : Db) : keeps (only_adds P d0) commit.
Proof. intros s [H _]. split; exact H. Qed.

Lemma only_adds_rollback (P : Trade -> Prop) (d0 : Db) : keeps (only_adds P d0) rollback.
Proof. intros s [_ H]. split; exact H. Qed.

Lemma only_adds_add_member (P : Trade -> Prop) (d0 : Db) (mk : Z -> Member) :
  keeps (only_adds P d0) (add_member mk).
Proof. intros s H. exact H. Qed.

Lemma only_adds_add_committee (P : Trade -> Prop) (d0 : Db) (mk : Z -> Committee) :
  keeps (only_adds P d0) (add_committee mk).
Proof. intros s H. exact H. Qed.

Lemma only_adds_add_trade (P : Trade -> Prop) (d0 : Db) (mk : Z -> Trade) :
  (forall id, P (mk id)) -> keeps (only_adds P d0) (add_trade mk).
Proof.
  intros Hp s [H K]. split; [|exact K]. simpl. intros t Ht.
  apply in_app_or in Ht as [Ht | [<- | []]]; [auto | right; apply Hp].
Qed.

Lemma only_adds_weaken (P Q : Trade -> Prop) (d0 : Db) (s : session) :
  (forall t, P t -> Q t) -> only_adds P d0 s -> only_adds Q d0 s.
Proof.
  intros W [H K]. split; intros t Ht; [destruct (H t Ht) | destruct (K t Ht)]; auto.
Qed.

#[local] Hint Resolve only_adds_on_rows only_adds_commit only_adds_rollback
  only_adds_add_member only_adds_add_committee : keeps.

Section Provenance.
Variable fromisoformat : string -> option datetime.
Variable w : World.
Variable d0 : Db.

Lemma scraper_only_adds :
  keeps (only_adds from_scraper d0) (RealDataScraper.scrape_real_data w).
Proof.
  unfold RealDataScraper.scrape_real_data, RealDataScraper.scrape_house_disclosures,
    RealDataScraper.scrape_senate_disclosures, RealDataScraper._add_senate_sample_data,
    RealDataScraper._process_house_disclosure, RealDataScraper._process_member_trades,
    RealDataScraper._extract_trade_from_row, RealDataScraper._save_trade,
    RealDataScraper._parse_amount.
  keeps_tac; apply only_adds_add_trade; intros id; [left | right]; reflexivity.
Qed.

Lemma collector_only_adds (key : option string) :
  keeps (only_adds from_collection d0)
        (CongressDataCollector.collect_congress_data fromisoformat w key).
Proof.
  unfold CongressDataCollector.collect_congress_data,
    CongressDataCollector.collect_senate_stock_data,
    CongressDataCollector._process_senate_file,
    CongressDataCollector._save_senate_trade,
    CongressDataCollector._save_senate_trade_body,
    CongressDataCollector.parse_datetime,
    CongressDataCollector.collect_house_trading_data,
    CongressDataCollector._collect_capitol_gains_data,
    CongressDataCollector._collect_stock_act_disclosures,
    CongressDataCollector.collect_propublica_data,
    CongressDataCollector._collect_propublica_members,
    CongressDataCollector._collect_propublica_committees,
    CongressDataCollector._save_propublica_member,
    CongressDataCollector._save_propublica_committee,
    RealDataScraper.scrape_real_data, RealDataScraper.scrape_house_disclosures,
    RealDataScraper.scrape_senate_disclosures, RealDataScraper._add_senate_sample_data,
    RealDataScraper._process_house_disclosure, RealDataScraper._process_member_trades,
    RealDataScraper._extract_trade_from_row, RealDataScraper._save_trade,
    RealDataScraper._parse_amount.
  keeps_tac; apply only_adds_add_trade; intros id;
    first [left; reflexivity | right; left; reflexivity | right; right; reflexivity].
Qed.

End Provenance.

(** X22 (collect_congress_data, scrape_real_data and the functions that
    store trades for them): every trade that a collection run adds
    carries one of three sources, Senate Stock Watcher, House Clerk
    Website or Senate Financial Disclosures, and every trade that a
    scraping run adds one of the last two. *)
Theorem collection_tags_sources
        (fromisoformat : string -> option datetime) (w : World) (key : option string)
        (d0 : Db) (s : session) :
  (only_adds from_collection d0 s ->
   forall t,
     In t (trades (db (exec (CongressDataCollector.collect_congress_data
                               fromisoformat w key) s))) ->
     In t (trades d0) \/ from_collection t)
  /\ (only_adds from_scraper d0 s ->
      forall t, In t (trades (db (exec (RealDataScraper.scrape_real_data w) s))) ->
                In t (trades d0) \/ from_scraper t).
Proof.
  split; intros H.
  - exact (proj1 (collector_only_adds fromisoformat w d0 key s H)).
  - exact (proj1 (scraper_only_adds w d0 s H)).
Qed.

Lemma collection_tags_sources_witness :
  only_adds from_collection empty_db (new_session empty_db)
  /\ List.Forall from_collection (trades (db Sample.collected)).
Proof.
  assert (H : only_adds from_collection empty_db (new_session empty_db))
    by (split; intros t []).
  split; [exact H|]. apply List.Forall_forall. intros t Ht.
  destruct (proj1 (collection_tags_sources Sample.date_only Sample.online (Some "key")
                     empty_db (new_session empty_db)) H t Ht) as [[] | F].
  exact F.
Defined.

(** ** Cleaning after scraping *)

Lemma from_scraper_suspicious (like_eq : ascii -> ascii -> bool) (current_time : datetime)
      (t : Trade) :
  from_scraper t -> suspicious_trade like_eq current_time t = true.
Proof.
  unfold suspicious_trade. intros [H | H]; rewrite H; simpl;
    now rewrite orb_true_r.
Qed.

Lemma well_keyed_new_session (d : Db) : well_keyed d -> sound_from d (new_session d).
Proof. intros W. split; [exact W|]. split; [exact W|]. split; apply grows_refl. Qed.

(** X23 (scrape_real_data, then clean_future_and_suspicious_data): on a
    store whose keys are distinct and whose trades have their members,
    cleaning after a scraping run removes every trade the scraper
    stored: the trades left are those of the store before the scraping
    that the cleaning keeps, in place; the members the scraper created
    stay. *)
Theorem clean_undoes_scrape (like_eq : ascii -> ascii -> bool) (current_time : datetime)
        (w : World) (d : Db) :
  well_keyed d ->
  let scraped := exec (RealDataScraper.scrape_real_data w) (new_session d) in
  let cleaned :=
    exec (Maintenance.clean_future_and_suspicious_data like_eq current_time) scraped in
  trades (db cleaned)
  = List.filter (fun t => negb (suspicious_trade like_eq current_time t)) (trades d)
  /\ members (db cleaned) = members (db scraped)
  /\ committees (db cleaned) = committees (db scraped)
  /\ committed cleaned = db cleaned.
Proof.
  intros W. cbv zeta.
  pose proof (keeps_scrape_real_data w d _ (well_keyed_new_session d W)) as S.
  cbv beta in S. fold (exec (RealDataScraper.scrape_real_data w) (new_session d)) in S.
  assert (A : only_adds from_scraper d (new_session d)) by (split; intros t Ht; now left).
  apply (scraper_only_adds w d) in A. cbv beta in A.
  fold (exec (RealDataScraper.scrape_real_data w) (new_session d)) in A.
  set (scraped := exec (RealDataScraper.scrape_real_data w) (new_session d)) in *.
  destruct S as ((N1 & N2 & N3 & F) & _ & G & G').
  destruct (grows_trans _ _ _ G G') as (_ & [new Hnew] & _).
  destruct (proj1 (proj2 (clean_future_run like_eq current_time scraped)) N2)
    as (T & M & C & K).
  { intros t Ht _. exact (F t Ht). }
  split; [|auto]. rewrite T, Hnew, List.filter_app.
  assert (E : List.filter (fun t => negb (suspicious_trade like_eq current_time t)) new = []).
  { rewrite Hnew, map_app in N2. apply NoDup_app in N2 as (_ & D & _).
    destruct (List.filter _ new) as [|t l] eqn:E; [reflexivity|].
    assert (Ht : In t (t :: l)) by now left.
    rewrite <- E in Ht. apply filter_In in Ht as [Ht Hs].
    destruct (proj1 A t) as [Hd | Hp].
    - rewrite Hnew. apply in_or_app. now right.
    - exfalso. apply (D (trade_id_ t)); apply list_elem_of_In; now apply in_map.
    - rewrite (from_scraper_suspicious like_eq current_time t Hp) in Hs. discriminate Hs. }
  rewrite E. apply app_nil_r.
Qed.

Lemma clean_undoes_scrape_witness :
  well_keyed Sample.two_trades
  /\ trades (db (exec (Maintenance.clean_future_and_suspicious_data Ascii.eqb
                         1700000000000000)
                      (exec (RealDataScraper.scrape_real_data Sample.online)
                            (new_session Sample.two_trades))))
     = List.filter (fun t => negb (suspicious_trade Ascii.eqb 1700000000000000 t))
                   (trades Sample.two_trades).
Proof.
  assert (W : well_keyed Sample.two_trades).
  { unfold well_keyed. simpl.
    split; [apply NoDup_singleton|].
    split; [apply NoDup_ListNoDup; repeat constructor; simpl; intuition discriminate|].
    split; [apply NoDup_nil_2|].
    intros t Ht. eexists. split; [left; reflexivity|].
    destruct Ht as [<- | [<- | []]]; reflexivity. }
  exact (conj W (proj1 (clean_undoes_scrape Ascii.eqb 1700000000000000 Sample.online
                          Sample.two_trades W))).
Defined.

(** ** C9: the exchange columns *)

Lemma only_adds_start (P : Trade -> Prop) (s : session) : only_adds P (trades_before s) s.
Proof. split; intros t Ht; left; simpl; apply in_or_app; auto. Qed.

Section ExchangeFields.
Variable fromisoformat : string -> option datetime.
Variable w : World.
Variable d0 : Db.

Lemma save_senate_trade_no_exchange (trade_data : raw) :
  keeps (only_adds no_exchange_fields d0)
        (CongressDataCollector._save_senate_trade fromisoformat trade_data).
Proof.
  unfold CongressDataCollector._save_senate_trade,
    CongressDataCollector._save_senate_trade_body,
    CongressDataCollector.parse_datetime.
  keeps_tac; apply only_adds_add_trade; intros id; repeat split; reflexivity.
Qed.

Lemma collector_no_exchange (key : option string) :
  keeps (only_adds no_exchange_fields d0)
        (CongressDataCollector.collect_congress_data fromisoformat w key).
Proof.
  unfold CongressDataCollector.collect_congress_data,
    CongressDataCollector.collect_senate_stock_data,
    CongressDataCollector._process_senate_file,
    CongressDataCollector.collect_house_trading_data,
    CongressDataCollector._collect_capitol_gains_data,
    CongressDataCollector._collect_stock_act_disclosures,
    CongressDataCollector.collect_propublica_data,
    CongressDataCollector._collect_propublica_members,
    CongressDataCollector._collect_propublica_committees,
    CongressDataCollector._save_propublica_member,
    CongressDataCollector._save_propublica_committee,
    RealDataScraper.scrape_real_data, RealDataScraper.scrape_house_disclosures,
    RealDataScraper.scrape_senate_disclosures, RealDataScraper._add_senate_sample_data,
    RealDataScraper._process_house_disclosure, RealDataScraper._process_member_trades,
    RealDataScraper._extract_trade_from_row, RealDataScraper._save_trade,
    RealDataScraper._parse_amount.
  keeps_tac;
    first [apply save_senate_trade_no_exchange
          | apply only_adds_add_trade; intros id; repeat split; reflexivity].
Qed.

End ExchangeFields.

(** C9, as stated, fails: a record of the feed whose kind is Exchange
    is stored as a trade of that kind with no amount exchanged from and
    no ratio: no ratio is computed for it.  The trade generator, the
    one place where a ratio is written, stores nothing. *)
Lemma c9_exchange_record_not_enriched :
  map (fun t => (transaction_type t, amount_min t, exchange_from_amount t, exchange_ratio t))
      (trades (db (exec (CongressDataCollector._save_senate_trade Sample.date_only
                           Sample.exchange_record)
                        (new_session empty_db))))
  = [("Exchange", Some (Py.PFin 1001), None, None)]
  /\ trades (db (exec CongressDataCollector._add_realistic_trading_data
                      (new_session Sample.two_trades)))
     = trades Sample.two_trades.
Proof. vm_compute. split; reflexivity. Qed.

(** C9 (amended): no exchange ratio is computed by the code that runs.
    The trade generator is disabled: it returns without an error and
    leaves the rows as they are.  Every trade that the saving of a feed
    record, or a whole collection run, adds to those the session saw or
    had committed has all five exchange columns unset, whatever its
    kind; so no division by an amount exchanged from takes place, no
    division by zero can be raised, and no trade of another kind than
    Exchange gets an exchange column. *)
Theorem exchange_fields_left_unset
        (fromisoformat : string -> option datetime) (w : World) (key : option string)
        (trade_data : raw) (s : session) :
  ((CongressDataCollector._add_realistic_trading_data s).1 = inr tt
   /\ db (exec CongressDataCollector._add_realistic_trading_data s) = db s
   /\ committed (exec CongressDataCollector._add_realistic_trading_data s) = committed s)
  /\ (forall t,
        In t (trades (db (exec (CongressDataCollector._save_senate_trade
                                  fromisoformat trade_data) s))) ->
        In t (trades (db s)) \/ In t (trades (committed s)) \/ no_exchange_fields t)
  /\ (forall t,
        In t (trades (db (exec (CongressDataCollector.collect_congress_data
                                  fromisoformat w key) s))) ->
        In t (trades (db s)) \/ In t (trades (committed s)) \/ no_exchange_fields t).
Proof.
  assert (R : forall {A} (c : M A),
             keeps (only_adds no_exchange_fields (trades_before s)) c ->
             forall t, In t (trades (db (exec c s))) ->
                       In t (trades (db s)) \/ In t (trades (committed s))
                       \/ no_exchange_fields t).
  { intros A c K t Ht.
    destruct (proj1 (K s (only_adds_start _ s)) t Ht) as [H | H]; [|auto].
    simpl in H. apply in_app_or in H. tauto. }
  split; [repeat split|]. split.
  - apply R, save_senate_trade_no_exchange.
  - apply R, collector_no_exchange.
Qed.

Lemma exchange_fields_left_unset_witness :
  List.Forall no_exchange_fields (trades (db Sample.collected))
  /\ List.Forall no_exchange_fields
       (trades (db (exec (CongressDataCollector._save_senate_trade Sample.date_only
                            Sample.exchange_record)
                         (new_session empty_db)))).
Proof.
  split; apply List.Forall_forall; intros t Ht.
  - destruct (proj2 (proj2 (exchange_fields_left_unset Sample.date_only Sample.online
                              (Some "key") Sample.exchange_record (new_session empty_db))) t Ht)
      as [[] | [[] | H]]; exact H.
  - destruct (proj1 (proj2 (exchange_fields_left_unset Sample.date_only Sample.online
                              (Some "key") Sample.exchange_record (new_session empty_db))) t Ht)
      as [[] | [[] | H]]; exact H.
Defined.
